(** * stream-magic-mcp: the UPnP/DLNA control point, embedded and checked

    A shallow embedding of [streammagic_mcp/discovery.py],
    [streammagic_mcp/dlna.py] and the search handler of
    [streammagic_mcp/server.py].

    Conventions of the embedding
    - a Python [str] is a Rocq [string]; the model covers ASCII text, so
      [lower], [upper] and [strip] act on ASCII letters and ASCII white space;
    - a Python [dict] is an insertion-ordered association list ([PyDict]),
      because [_unique_devices] relies on the insertion order of [dict];
    - an exception is a value of [exn]; code that may raise returns
      [result]; the methods of [DlnaClient], which mutate the object and talk
      to the network, live in a state-and-exception monad over the object
      and the log of the HTTP requests issued so far;
    - the XML parser ([ET.fromstring]) and the network are the environment:
      they are fields of the class [Env]. *)

From Stdlib Require Import String Ascii List ZArith Lia Bool Arith Permutation.
From Stdlib Require Import DecimalString.
Import ListNotations.
Local Open Scope list_scope.
Local Open Scope string_scope.
Set Warnings "-register-all".

(* ===================================================================== *)
(** * Python built-ins on [str]                                           *)
(* ===================================================================== *)

Module PyStr.

Definition chr (n : nat) : ascii := ascii_of_nat n.
Definition char1 (c : ascii) : string := String c EmptyString.

Definition DQUOTE : ascii := chr 34.
Definition SQUOTE : ascii := chr 39.
Definition CR : ascii := chr 13.
Definition LF : ascii := chr 10.
Definition TAB : ascii := chr 9.
Definition CRLF : string := String CR (String LF EmptyString).
Definition dq : string := char1 DQUOTE.

(** [bool(s)]: a string is truthy when it is not empty. *)
Definition truthy (s : string) : bool :=
  match s with EmptyString => false | String _ _ => true end.

(** [bool(x)] for an [Optional[str]]. *)
Definition truthy_opt (o : option string) : bool :=
  match o with None => false | Some s => truthy s end.

Fixpoint rev_onto (s acc : string) : string :=
  match s with
  | EmptyString => acc
  | String c r => rev_onto r (String c acc)
  end.
Definition rev (s : string) : string := rev_onto s EmptyString.

Fixpoint drop (n : nat) (s : string) : string :=
  match n, s with
  | O, _ => s
  | S _, EmptyString => EmptyString
  | S k, String _ r => drop k r
  end.

(** [s.startswith(p)] and [s.endswith(p)]. *)
Definition startswith (s p : string) : bool := String.prefix p s.
Definition endswith (s p : string) : bool := String.prefix (rev p) (rev s).

(** [sub in s]. *)
Fixpoint contains (sub s : string) : bool :=
  String.prefix sub s ||
  match s with
  | EmptyString => false
  | String _ r => contains sub r
  end.

(** [c in s] for a one-character [c]. *)
Fixpoint has_char (c : ascii) (s : string) : bool :=
  match s with
  | EmptyString => false
  | String a r => Ascii.eqb a c || has_char c r
  end.

Definition between (lo hi : nat) (c : ascii) : bool :=
  let n := nat_of_ascii c in Nat.leb lo n && Nat.leb n hi.

Definition is_upper (c : ascii) : bool := between 65 90 c.
Definition is_lower (c : ascii) : bool := between 97 122 c.
Definition is_alpha (c : ascii) : bool := is_upper c || is_lower c.
Definition is_digit (c : ascii) : bool := between 48 57 c.

(** White space of [str.strip()], ASCII part: TAB LF VT FF CR, the
    separators FS GS RS US, and the space. *)
Definition is_space (c : ascii) : bool :=
  between 9 13 c || between 28 32 c.

Definition lower_char (c : ascii) : ascii :=
  if is_upper c then chr (nat_of_ascii c + 32) else c.
Definition upper_char (c : ascii) : ascii :=
  if is_lower c then chr (nat_of_ascii c - 32) else c.

Fixpoint map_chars (f : ascii -> ascii) (s : string) : string :=
  match s with
  | EmptyString => EmptyString
  | String c r => String (f c) (map_chars f r)
  end.

Definition lower : string -> string := map_chars lower_char.
Definition upper : string -> string := map_chars upper_char.

(** [s.lstrip(chars)], [s.rstrip(chars)], [s.strip()] through the predicate
    that says which characters are stripped. *)
Fixpoint lstrip_by (p : ascii -> bool) (s : string) : string :=
  match s with
  | EmptyString => EmptyString
  | String c r => if p c then lstrip_by p r else s
  end.
Definition rstrip_by (p : ascii -> bool) (s : string) : string :=
  rev (lstrip_by p (rev s)).
Definition strip (s : string) : string := rstrip_by is_space (lstrip_by is_space s).

(** [s.rstrip('/')]. *)
Definition rstrip_char (c : ascii) (s : string) : string :=
  rstrip_by (Ascii.eqb c) s.

(** [s.partition(c)] for a one-character separator: the text before the
    first [c], whether [c] was found, the text after it. *)
Fixpoint partition (c : ascii) (s : string) : string * bool * string :=
  match s with
  | EmptyString => (EmptyString, false, EmptyString)
  | String a r =>
      if Ascii.eqb a c then (EmptyString, true, r)
      else let '(h, found, t) := partition c r in (String a h, found, t)
  end.

(** [s.rpartition(c)]: split at the last [c]; when [c] is absent the
    whole text is the third component. *)
Definition rpartition (c : ascii) (s : string) : string * bool * string :=
  let '(h, found, t) := partition c (rev s) in
  if found then (rev t, true, rev h) else (EmptyString, false, s).

(** [s.replace(old, new)] : every non-overlapping occurrence of [old],
    scanning from the left.  [skip] counts the characters of an
    occurrence that was just replaced and still has to be passed over. *)
Fixpoint replace_from (old new : string) (skip : nat) (s : string) : string :=
  match s with
  | EmptyString => EmptyString
  | String c r =>
      match skip with
      | S k => replace_from old new k r
      | O =>
          if String.prefix old s
          then new ++ replace_from old new (String.length old - 1) r
          else String c (replace_from old new 0 r)
      end
  end.

Fixpoint intersperse (new s : string) : string :=
  match s with
  | EmptyString => new
  | String c r => new ++ String c (intersperse new r)
  end.

Definition replace (s old new : string) : string :=
  match old with
  | EmptyString => intersperse new s
  | _ => replace_from old new 0 s
  end.

(** [s.split(sep)] for a non-empty separator. *)
Fixpoint split_from (sep : string) (skip : nat) (cur : string) (s : string)
  : list string :=
  match s with
  | EmptyString => [rev cur]
  | String c r =>
      match skip with
      | S k => split_from sep k cur r
      | O =>
          if String.prefix sep s
          then rev cur :: split_from sep (String.length sep - 1) EmptyString r
          else split_from sep 0 (String c cur) r
      end
  end.
Definition split (s sep : string) : list string := split_from sep 0 EmptyString s.

(** [str(n)] for an [int]. *)
Definition str_of_int (n : Z) : string := NilZero.string_of_int (Z.to_int n).

(** [int(s)], base ten, ASCII digits: surrounding white space, one
    optional sign, digits with single underscores between them, and no
    more than [MAX_STR_DIGITS] digits (the default of
    [sys.set_int_max_str_digits]).  [None] stands for [ValueError].
    In an ASCII text the white space that [int] skips is that of C's
    [isspace], TAB LF VT FF CR and the space: unlike [str.strip] it
    keeps the separators FS GS RS US, and then rejects the text. *)
Definition is_c_space (c : ascii) : bool :=
  between 9 13 c || Ascii.eqb c " ".
Definition digit_val (c : ascii) : Z := Z.of_nat (nat_of_ascii c - 48).
Definition MAX_STR_DIGITS : Z := 4300.

Fixpoint int_digits (acc digits : Z) (prev_digit : bool) (s : string)
  : option Z :=
  match s with
  | EmptyString =>
      if prev_digit && (digits <=? MAX_STR_DIGITS)%Z then Some acc else None
  | String c r =>
      if is_digit c
      then int_digits (10 * acc + digit_val c) (digits + 1) true r
      else if Ascii.eqb c (chr 95) && prev_digit
      then int_digits acc digits false r
      else None
  end.

Definition int (s : string) : option Z :=
  match rstrip_by is_c_space (lstrip_by is_c_space s) with
  | EmptyString => None
  | String c r =>
      if Ascii.eqb c (chr 45) then option_map Z.opp (int_digits 0 0 false r)
      else if Ascii.eqb c (chr 43) then int_digits 0 0 false r
      else int_digits 0 0 false (String c r)
  end.

End PyStr.

Import PyStr.


(* ===================================================================== *)
(** * Python [dict]: an insertion-ordered association list                *)
(* ===================================================================== *)

Module PyDict.
Section Dict.
Context {V : Type}.

Definition dict := list (string * V).

(** [d.get(k)] *)
Fixpoint get (d : dict) (k : string) : option V :=
  match d with
  | [] => None
  | (k', v) :: r => if String.eqb k' k then Some v else get r k
  end.

(** [k in d] *)
Definition mem (k : string) (d : dict) : bool :=
  match get d k with Some _ => true | None => false end.

(** [d[k] = v]: an existing key keeps its place, a new key goes last. *)
Fixpoint set (d : dict) (k : string) (v : V) : dict :=
  match d with
  | [] => [(k, v)]
  | (k', v') :: r =>
      if String.eqb k' k then (k', v) :: r else (k', v') :: set r k v
  end.

(** [list(d.values())] *)
Definition values (d : dict) : list V := map snd d.
Definition keys (d : dict) : list string := map fst d.
End Dict.
Arguments dict : clear implicits.
End PyDict.

(* ===================================================================== *)
(** * Exceptions                                                          *)
(* ===================================================================== *)

Inductive exn : Type :=
| Exception (msg : string)       (* [raise Exception(msg)] *)
| RuntimeError (msg : string)
| AttributeError (msg : string)
| ValueError                     (* raised by [urlparse] *)
| ParseError                     (* raised by [ET.fromstring] *)
| ClientError.                   (* raised by aiohttp: no answer, timeout *)

Inductive result (A : Type) : Type :=
| Ok (a : A)
| Raise (e : exn).
Arguments Ok {A} a.
Arguments Raise {A} e.

(* ===================================================================== *)
(** * [urllib.parse.urlparse] (CPython 3.12), ASCII input                 *)
(* ===================================================================== *)

(** The parts of the library that the code reaches: the split into
    scheme, authority, path, parameters, query and fragment, and the
    [hostname] property.  [ValueError] is raised for an authority with one
    square bracket and not the other; the check of what stands between
    two brackets, and the check of non-ASCII authorities, are left out. *)

Module UrlParse.

Record ParseResult : Type := mkParseResult {
  scheme : string;
  netloc : string;
  path : string;
  params : string;
  query : string;
  fragment : string
}.

Fixpoint all_chars (p : ascii -> bool) (s : string) : bool :=
  match s with
  | EmptyString => true
  | String c r => p c && all_chars p r
  end.

Fixpoint remove_chars (p : ascii -> bool) (s : string) : string :=
  match s with
  | EmptyString => EmptyString
  | String c r => if p c then remove_chars p r else String c (remove_chars p r)
  end.

(** [_WHATWG_C0_CONTROL_OR_SPACE] and [_UNSAFE_URL_BYTES_TO_REMOVE] *)
Definition c0_control_or_space (c : ascii) : bool := Nat.leb (nat_of_ascii c) 32.
Definition unsafe_url_byte (c : ascii) : bool :=
  Ascii.eqb c TAB || Ascii.eqb c CR || Ascii.eqb c LF.

Definition scheme_char (c : ascii) : bool :=
  is_alpha c || is_digit c || has_char c "+-.".

(** The scheme is the text before the first [:], when that text starts
    with a letter and is made of scheme characters. *)
Definition split_scheme (url : string) : string * string :=
  match partition ":" url with
  | (String c0 pre, true, post) =>
      if is_alpha c0 && all_chars scheme_char (String c0 pre)
      then (lower (String c0 pre), post)
      else (EmptyString, url)
  | _ => (EmptyString, url)
  end.

(** [_splitnetloc(url, 2)], on the text after the two slashes: the
    authority runs up to the first of [/], [?], [#]. *)
Fixpoint splitnetloc (s : string) : string * string :=
  match s with
  | EmptyString => (EmptyString, EmptyString)
  | String c r =>
      if has_char c "/?#" then (EmptyString, s)
      else let '(n, rest) := splitnetloc r in (String c n, rest)
  end.

Definition split_at (c : ascii) (url : string) : string * string :=
  let '(h, _, t) := partition c url in (h, t).

(** *** [ipaddress]: which texts are addresses

    [urlsplit] asks [ipaddress.ip_address] whether the host between
    brackets is an address; only the answer matters to it, so the
    functions below return [true] where the constructor returns, and
    [false] where it raises. *)

Definition hex_digit (c : ascii) : bool :=
  is_digit c || between 65 70 c || between 97 102 c.

(** [IPv4Address._parse_octet] *)
Definition octet_ok (octet_str : string) : bool :=
  match octet_str with
  | EmptyString => false
  | String c0 _ =>
      all_chars is_digit octet_str
      && Nat.leb (String.length octet_str) 3
      && (String.eqb octet_str "0" || negb (Ascii.eqb c0 "0"))
      && match PyStr.int octet_str with
         | Some n => (n <=? 255)%Z
         | None => false
         end
  end.

(** [IPv4Address(address)] *)
Definition ipv4_ok (address : string) : bool :=
  negb (has_char "/" address)
  && truthy address
  && (let octets := split address "." in
      Nat.eqb (List.length octets) 4 && forallb octet_ok octets).

(** [IPv6Address._parse_hextet] *)
Definition hextet_ok (hextet_str : string) : bool :=
  all_chars hex_digit hextet_str
  && Nat.leb (String.length hextet_str) 4
  && truthy hextet_str.

(** The loop of [IPv6Address._ip_int_from_string] that looks for [::]
    among the parts [parts[1:-1]]: the index of the empty part, [None]
    inside when there is none, [None] outside when there are two. *)
Fixpoint find_skip (i : nat) (inner : list string) (skip_index : option nat)
  : option (option nat) :=
  match inner with
  | [] => Some skip_index
  | part :: r =>
      if truthy part then find_skip (S i) r skip_index
      else match skip_index with
           | Some _ => None
           | None => find_skip (S i) r (Some i)
           end
  end.

(** [IPv6Address._ip_int_from_string].  The two hextets that replace an
    IPv4 suffix are hextets whatever the suffix is; they are written
    [0] here. *)
Definition ipv6_int_ok (ip_str : string) : bool :=
  truthy ip_str
  && (let parts := split ip_str ":" in
      Nat.leb 3 (List.length parts)
      && (let suffix := List.last parts EmptyString in
          let has_suffix := has_char "." suffix in
          (negb has_suffix || ipv4_ok suffix)
          && (let parts :=
                if has_suffix then (removelast parts ++ ["0"; "0"])%list
                else parts in
              let first_empty := negb (truthy (List.hd EmptyString parts)) in
              let last_empty := negb (truthy (List.last parts EmptyString)) in
              Nat.leb (List.length parts) 9
              && match find_skip 1 (removelast (List.tl parts)) None with
                 | None => false
                 | Some (Some skip_index) =>
                     let parts_hi := skip_index in
                     let parts_lo := List.length parts - skip_index - 1 in
                     let parts_hi' :=
                       if first_empty then parts_hi - 1 else parts_hi in
                     let parts_lo' :=
                       if last_empty then parts_lo - 1 else parts_lo in
                     negb (first_empty && negb (Nat.eqb parts_hi' 0))
                     && negb (last_empty && negb (Nat.eqb parts_lo' 0))
                     && Nat.leb (parts_hi' + parts_lo') 7
                     && forallb hextet_ok (firstn parts_hi' parts)
                     && forallb hextet_ok
                          (skipn (List.length parts - parts_lo') parts)
                 | Some None =>
                     Nat.eqb (List.length parts) 8
                     && negb first_empty && negb last_empty
                     && forallb hextet_ok parts
                 end))).

(** [IPv6Address(address)], with [_split_scope_id]. *)
Definition ipv6_ok (address : string) : bool :=
  negb (has_char "/" address)
  && (let '(addr, sep, scope_id) := partition "%" address in
      negb (sep && (negb (truthy scope_id) || has_char "%" scope_id))
      && ipv6_int_ok addr).

(** [re.match(r"\Av[a-fA-F0-9]+\..+\Z", hostname)] *)
Definition ipvfuture_ok (hostname : string) : bool :=
  match hostname with
  | String "v" (String c r) =>
      hex_digit c
      && match lstrip_by hex_digit r with
         | String "." rest => truthy rest && negb (has_char LF rest)
         | _ => false
         end
  | _ => false
  end.

(** [_check_bracketed_host]: [true] when it returns, [false] when it
    raises [ValueError].  [ip_address] tries [IPv4Address] first, and an
    IPv4 address between brackets is refused. *)
Definition _check_bracketed_host (hostname : string) : bool :=
  if startswith hostname "v" then ipvfuture_ok hostname
  else negb (ipv4_ok hostname) && ipv6_ok hostname.

(** [_check_bracketed_netloc] *)
Definition _check_bracketed_netloc (netloc : string) : bool :=
  let '(_, _, hostname_and_port) := rpartition "@" netloc in
  let '(before_bracket, have_open_br, bracketed) :=
    partition "[" hostname_and_port in
  if have_open_br then
    if truthy before_bracket then false
    else
      let '(hostname, _, port) := partition "]" bracketed in
      if truthy port && negb (startswith port ":") then false
      else _check_bracketed_host hostname
  else
    let '(hostname, _, _) := partition ":" hostname_and_port in
    _check_bracketed_host hostname.

Definition urlsplit (url0 : string) : result ParseResult :=
  let url := lstrip_by c0_control_or_space url0 in
  let url := remove_chars unsafe_url_byte url in
  let '(sch, url) := split_scheme url in
  let '(nl, url) :=
    if startswith url "//" then splitnetloc (drop 2 url)
    else (EmptyString, url) in
  if xorb (has_char "[" nl) (has_char "]" nl) then Raise ValueError
  else if has_char "[" nl && has_char "]" nl
          && negb (_check_bracketed_netloc nl)
  then Raise ValueError
  else
    let '(url, frag) := split_at "#" url in
    let '(url, q) := split_at "?" url in
    Ok (mkParseResult sch nl url EmptyString q frag).

Definition uses_params : list string :=
  [EmptyString; "ftp"; "hdl"; "prospero"; "http"; "imap"; "https"; "shttp";
   "rtsp"; "rtspu"; "sip"; "sips"; "mms"; "sftp"; "tel"].

(** [_splitparams]: the parameters start at the first [;] of the last
    path segment. *)
Definition splitparams (url : string) : string * string :=
  let '(head, slash, last) := rpartition "/" url in
  if slash then
    let '(a, semi, b) := partition ";" last in
    if semi then (head ++ "/" ++ a, b) else (url, EmptyString)
  else split_at ";" url.

Definition urlparse (url : string) : result ParseResult :=
  match urlsplit url with
  | Raise e => Raise e
  | Ok r =>
      if existsb (String.eqb (scheme r)) uses_params && has_char ";" (path r)
      then let '(p, ps) := splitparams (path r) in
           Ok (mkParseResult (scheme r) (netloc r) p ps (query r) (fragment r))
      else Ok r
  end.

(** [_hostinfo]: host and port text of the authority. *)
Definition hostinfo (nl : string) : string * string :=
  let '(_, _, hi) := rpartition "@" nl in
  let '(_, have_open_br, bracketed) := partition "[" hi in
  if have_open_br then
    let '(h, _, p) := partition "]" bracketed in
    let '(_, _, p) := partition ":" p in (h, p)
  else
    let '(h, _, p) := partition ":" hi in (h, p).

(** The [hostname] property: [None] when the host text is empty;
    lower-cased, except the zone of a scoped IPv6 address. *)
Definition hostname (r : ParseResult) : option string :=
  match fst (hostinfo (netloc r)) with
  | EmptyString => None
  | h => let '(h', percent, zone) := partition "%" h in
         Some (lower h' ++ (if percent then "%" else EmptyString) ++ zone)
  end.

End UrlParse.

(* ===================================================================== *)
(** * [html.escape]                                                       *)
(* ===================================================================== *)

Module Html.
Definition escape (s : string) : string :=
  let s := replace s "&" "&amp;" in
  let s := replace s "<" "&lt;" in
  let s := replace s ">" "&gt;" in
  let s := replace s dq "&quot;" in
  let s := replace s (char1 SQUOTE) "&#x27;" in
  s.
End Html.

(* ===================================================================== *)
(** * [xml.etree.ElementTree] elements                                    *)
(* ===================================================================== *)

Module ET.

(** An element: its tag (with the namespace in braces in front, as the
    parser gives it), its attributes, its text ([None] or a string) and
    its children in document order. *)
Inductive Element : Type :=
| Elem (tag : string) (attrib : list (string * string))
       (text : option string) (children : list Element).

Definition tag (e : Element) : string := let 'Elem t _ _ _ := e in t.
Definition attrib (e : Element) : list (string * string) :=
  let 'Elem _ a _ _ := e in a.
Definition text (e : Element) : option string := let 'Elem _ _ x _ := e in x.
Definition children (e : Element) : list Element :=
  let 'Elem _ _ _ cs := e in cs.

(** [e.iter()]: the element, then its descendants, in document order. *)
Fixpoint iter (e : Element) : list Element :=
  match e with
  | Elem _ _ _ cs => e :: flat_map iter cs
  end.

(** [root.find(".//" + t)]: the first descendant, the root left out,
    whose tag is [t]. *)
Definition find_descendant (t : string) (root : Element) : option Element :=
  List.find (fun e => String.eqb (tag e) t) (List.tl (iter root)).

(** The truth value of [e.text]. *)
Definition has_text (e : Element) : bool := truthy_opt (text e).

End ET.

(* ===================================================================== *)
(** * The environment: XML parser and network                             *)
(* ===================================================================== *)

Inductive request : Type :=
| GET (url : string)
| POST (url : string) (headers : list (string * string)) (data : string).

Inductive reply : Type :=
| Response (status : Z) (text : string)
| NoResponse.

(** [fromstring] is [ET.fromstring], [None] standing for [ParseError];
    [network] answers a request, given the requests made before it. *)
Class Env : Type := {
  fromstring : string -> option ET.Element;
  network : list request -> request -> reply
}.

(* ===================================================================== *)
(** * discovery.py                                                        *)
(* ===================================================================== *)

Module Discovery.
Import UrlParse.

(** The dict that [datagram_received] appends for a reply; it always has
    these six keys, all of them strings. *)
Record Device : Type := mkDevice {
  host : string;
  location : string;
  usn : string;
  server : string;
  model : string;
  name : string
}.

(** [SSDPProtocol._parse_headers] *)
Definition _parse_headers (message : string) : PyDict.dict string :=
  let lines := split message CRLF in
  fold_left
    (fun headers line =>
       if has_char ":" line then
         let '(key, _, value) := partition ":" line in
         PyDict.set headers (strip (upper key)) (strip value)
       else headers)
    (List.tl lines) [].

(** [headers.get(k, default)] *)
Definition header (headers : PyDict.dict string) (k default : string) : string :=
  match PyDict.get headers k with Some v => v | None => default end.

(** The inner [try] of [datagram_received]: the rewrite of LOCATION to
    the address the packet came from.  An exception of [urlparse] leaves
    the location as it was. *)
Definition rewrite_location (location host : string) : string :=
  match urlparse location with
  | Raise _ => location
  | Ok parsed =>
      match hostname parsed with
      | Some hn =>
          if truthy hn && negb (String.eqb hn host) then
            let new_netloc := replace (netloc parsed) hn host in
            replace location (netloc parsed) new_netloc
          else location
      | None => location
      end
  end.

(** [SSDPProtocol.datagram_received]; [message] is the decoded datagram,
    [addr] the address it came from.  The device list is the list shared
    with [SSDPDiscovery]. *)
Definition datagram_received (device_list : list Device)
    (message : string) (addr : string * Z) : list Device :=
  let headers := _parse_headers message in
  let location := header headers "LOCATION" EmptyString in
  if negb (truthy location) then device_list
  else
    let usn := header headers "USN" EmptyString in
    let server := header headers "SERVER" "Unknown" in
    let host := fst addr in
    let location := rewrite_location location host in
    device_list ++
      [ mkDevice host location usn server server
                 ("UPnP Device (" ++ host ++ ")") ].

(** The key of [_unique_devices]:
    [d.get('usn') or (d['host'] + d.get('location', ''))]. *)
Definition device_key (d : Device) : string :=
  if truthy (usn d) then usn d else host d ++ location d.

Fixpoint unique_loop (unique : PyDict.dict Device) (devices : list Device)
  : PyDict.dict Device :=
  match devices with
  | [] => unique
  | d :: rest =>
      let key := device_key d in
      if negb (PyDict.mem key unique)
      then unique_loop (PyDict.set unique key d) rest
      else unique_loop unique rest
  end.

(** [SSDPDiscovery._unique_devices] *)
Definition _unique_devices (devices : list Device) : list Device :=
  PyDict.values (unique_loop [] devices).

(** The M-SEARCH request of [discover]. *)
Definition m_search (target : string) (timeout : Z) : string :=
  "M-SEARCH * HTTP/1.1" ++ CRLF ++
  "HOST: 239.255.255.250:1900" ++ CRLF ++
  "MAN: " ++ dq ++ "ssdp:discover" ++ dq ++ CRLF ++
  "MX: " ++ str_of_int timeout ++ CRLF ++
  "ST: " ++ target ++ CRLF ++
  CRLF.

(** [SSDPDiscovery.discover], as a function of the datagrams that arrive
    while the socket is open, in order of arrival. *)
Definition discover (replies : list (string * (string * Z))) : list Device :=
  let found :=
    fold_left (fun l r => datagram_received l (fst r) (snd r)) replies [] in
  _unique_devices found.

End Discovery.

(* ===================================================================== *)
(** * dlna.py                                                             *)
(* ===================================================================== *)

Module Dlna.
Import UrlParse ET.

(** ** The pieces of the SOAP envelopes

    The source writes each envelope as one f-string; the lines below put
    the same characters together. *)

Definition nl : string := char1 LF.
Definition quoted (s : string) : string := dq ++ s ++ dq.

Definition envelope_open (action service : string) : string :=
  "<?xml version=" ++ quoted "1.0" ++ "?>" ++ nl ++
  "        <s:Envelope xmlns:s=" ++ quoted "http://schemas.xmlsoap.org/soap/envelope/" ++
  " s:encodingStyle=" ++ quoted "http://schemas.xmlsoap.org/soap/encoding/" ++ ">" ++ nl ++
  "            <s:Body>" ++ nl ++
  "                <u:" ++ action ++ " xmlns:u=" ++ quoted service ++ ">" ++ nl.

Definition envelope_close (action : string) : string :=
  "                </u:" ++ action ++ ">" ++ nl ++
  "            </s:Body>" ++ nl ++
  "        </s:Envelope>".

(** One argument line: [<Name>value</Name>]. *)
Definition argument (name value : string) : string :=
  "                    <" ++ name ++ ">" ++ value ++ "</" ++ name ++ ">" ++ nl.

Definition CONTENT_DIRECTORY : string := "urn:schemas-upnp-org:service:ContentDirectory:1".
Definition AV_TRANSPORT : string := "urn:schemas-upnp-org:service:AVTransport:1".

(** The body of [browse]: [object_id] goes in as it is. *)
Definition browse_soap_body (object_id : string) (start_index count : Z) : string :=
  envelope_open "Browse" CONTENT_DIRECTORY ++
  argument "ObjectID" object_id ++
  argument "BrowseFlag" "BrowseDirectChildren" ++
  argument "Filter" "*" ++
  argument "StartingIndex" (str_of_int start_index) ++
  argument "RequestedCount" (str_of_int count) ++
  argument "SortCriteria" EmptyString ++
  envelope_close "Browse".

(** The body of [search]: the criteria go through [html.escape]. *)
Definition search_soap_body (search_criteria : string) (start_index count : Z) : string :=
  let criteria_esc := Html.escape search_criteria in
  envelope_open "Search" CONTENT_DIRECTORY ++
  argument "ContainerID" "0" ++
  argument "SearchCriteria" criteria_esc ++
  argument "Filter" "*" ++
  argument "StartingIndex" (str_of_int start_index) ++
  argument "RequestedCount" (str_of_int count) ++
  argument "SortCriteria" EmptyString ++
  envelope_close "Search".

(** The body of [set_av_transport_uri]: both values go through
    [html.escape]. *)
Definition set_av_transport_uri_soap_body (uri metadata : string) : string :=
  let uri_esc := Html.escape uri in
  let meta_esc := Html.escape metadata in
  envelope_open "SetAVTransportURI" AV_TRANSPORT ++
  argument "InstanceID" "0" ++
  argument "CurrentURI" uri_esc ++
  argument "CurrentURIMetaData" meta_esc ++
  envelope_close "SetAVTransportURI".

Definition play_soap_body : string :=
  envelope_open "Play" AV_TRANSPORT ++
  argument "InstanceID" "0" ++
  argument "Speed" "1" ++
  envelope_close "Play".

Definition soap_headers (service action : string) : list (string * string) :=
  [("Content-Type", "text/xml; charset=utf-8");
   ("SOAPAction", quoted (service ++ "#" ++ action))].

(** ** [BrowsedItem] and [_parse_didl_result] *)

(** [title] is a string; the other text fields hold whatever [child.text]
    was, so they may be [None] ([upnp_class] too, whatever its
    annotation). *)
Record BrowsedItem : Type := mkBrowsedItem {
  id : string;
  parent_id : string;
  title : string;
  upnp_class : option string;
  is_container : bool;
  res_url : option string;
  album_art : option string;
  artist : option string;
  album : option string
}.

(** [elem.attrib.get(k, default)] *)
Definition attrib_get (e : Element) (k default : string) : string :=
  match List.find (fun kv => String.eqb (fst kv) k) (attrib e) with
  | Some kv => snd kv
  | None => default
  end.

(** The first loop of [_parse_didl_result]: the last element whose
    lower-cased tag ends in [result] and has text, and the count. *)
Definition scan_step (acc : option Element * Z) (elem : Element)
  : option Element * Z :=
  let '(result_node, total_matches) := acc in
  let tag := lower (ET.tag elem) in
  if endswith tag "result" && has_text elem then (Some elem, total_matches)
  else if endswith tag "totalmatches" && has_text elem then
    match text elem with
    | Some t =>
        match PyStr.int t with
        | Some n => (result_node, n)
        | None => (result_node, total_matches)       (* except: pass *)
        end
    | None => (result_node, total_matches)
    end
  else (result_node, total_matches).

Definition scan_response (root : Element) : option Element * Z :=
  fold_left scan_step (iter root) (None, 0%Z).

(** The local variables of the loop over the children of one entry. *)
Record Fields : Type := mkFields {
  f_title : option string;
  f_class : option string;
  f_res : option string;
  f_art : option string;
  f_artist : option string;
  f_album : option string
}.

Definition fields0 : Fields :=
  mkFields (Some EmptyString) (Some EmptyString) None None None None.

Definition child_step (f : Fields) (child : Element) : Fields :=
  let ctag := ET.tag child in
  let t := text child in
  if contains "title" ctag then
    mkFields t (f_class f) (f_res f) (f_art f) (f_artist f) (f_album f)
  else if contains "class" ctag then
    mkFields (f_title f) t (f_res f) (f_art f) (f_artist f) (f_album f)
  else if contains "res" ctag then
    if negb (truthy_opt (f_res f))
    then mkFields (f_title f) (f_class f) t (f_art f) (f_artist f) (f_album f)
    else f
  else if contains "albumArtURI" ctag then
    mkFields (f_title f) (f_class f) (f_res f) t (f_artist f) (f_album f)
  else if contains "artist" ctag then
    mkFields (f_title f) (f_class f) (f_res f) (f_art f) t (f_album f)
  else if contains "album" ctag then
    mkFields (f_title f) (f_class f) (f_res f) (f_art f) (f_artist f) t
  else f.

(** [title or "Unknown"] *)
Definition or_unknown (title : option string) : string :=
  match title with
  | Some (String c r) => String c r
  | _ => "Unknown"
  end.

(** The body of the loop over the children of the DIDL-Lite root. *)
Definition parse_entry (elem : Element) : option BrowsedItem :=
  let tag := lower (ET.tag elem) in
  if contains "container" tag || contains "item" tag then
    let is_container := contains "container" tag in
    let oid := attrib_get elem "id" EmptyString in
    let pid := attrib_get elem "parentID" EmptyString in
    let f := fold_left child_step (children elem) fields0 in
    Some (mkBrowsedItem oid pid (or_unknown (f_title f)) (f_class f)
            is_container (f_res f) (f_art f) (f_artist f) (f_album f))
  else None.

Definition parse_entries (didl_root : Element) : list BrowsedItem :=
  flat_map (fun elem => match parse_entry elem with
                        | Some it => [it]
                        | None => []
                        end) (children didl_root).

Section WithEnv.
Context {env : Env}.

(** [DlnaClient._parse_didl_result] *)
Definition _parse_didl_result (response_xml : string)
  : result (list BrowsedItem * Z) :=
  match fromstring response_xml with
  | None => Raise ParseError
  | Some root =>
      let '(result_node, total_matches) := scan_response root in
      match result_node with
      | None => Ok ([], 0%Z)
      | Some node =>
          match text node with
          | Some (String c r) =>
              match fromstring (String c r) with
              | None => Raise ParseError
              | Some didl_root => Ok (parse_entries didl_root, total_matches)
              end
          | _ => Ok ([], 0%Z)
          end
      end
  end.
End WithEnv.

(** ** The client object and its methods *)

Record DlnaClient : Type := mkDlnaClient {
  location : string;
  _content_directory_url : option string;
  _av_transport_url : option string;
  _friendly_name : string;
  _base_url : string
}.

(** [DlnaClient.__init__] *)
Definition __init__ (location : string) : DlnaClient :=
  mkDlnaClient location None None "Unknown Device" EmptyString.

Definition set_content_directory_url (c : DlnaClient) (u : option string) :=
  mkDlnaClient (location c) u (_av_transport_url c) (_friendly_name c) (_base_url c).
Definition set_av_transport_url (c : DlnaClient) (u : option string) :=
  mkDlnaClient (location c) (_content_directory_url c) u (_friendly_name c) (_base_url c).
Definition set_friendly_name (c : DlnaClient) (n : string) :=
  mkDlnaClient (location c) (_content_directory_url c) (_av_transport_url c) n (_base_url c).
Definition set_base_url (c : DlnaClient) (b : string) :=
  mkDlnaClient (location c) (_content_directory_url c) (_av_transport_url c)
               (_friendly_name c) b.

(** A method runs on the object and on the log of the requests sent so
    far; an exception leaves both as they were when it was raised. *)
Record State : Type := mkState {
  self : DlnaClient;
  sent : list request
}.

Definition M (A : Type) : Type := State -> result A * State.

Definition ret {A} (a : A) : M A := fun st => (Ok a, st).
Definition raise {A} (e : exn) : M A := fun st => (Raise e, st).
Definition bind {A B} (m : M A) (k : A -> M B) : M B :=
  fun st =>
    match m st with
    | (Ok a, st') => k a st'
    | (Raise e, st') => (Raise e, st')
    end.
Definition get_self : M DlnaClient := fun st => (Ok (self st), st).
Definition modify_self (f : DlnaClient -> DlnaClient) : M unit :=
  fun st => (Ok tt, mkState (f (self st)) (sent st)).
Definition lift {A} (r : result A) : M A := fun st => (r, st).

Declare Scope dlna_scope.
Delimit Scope dlna_scope with dlna.
Notation "x <- m ;; k" := (bind m (fun x => k))
  (at level 61, m at next level, right associativity) : dlna_scope.
Notation "m ;; k" := (bind m (fun _ => k))
  (at level 61, right associativity) : dlna_scope.
Local Open Scope dlna_scope.

(** [when b m]: [if b: m]. *)
Definition when (b : bool) (m : M unit) : M unit := if b then m else ret tt.

(** [text or ""] for a text already known to be there. *)
Definition text_of (o : option string) : string :=
  match o with Some s => s | None => EmptyString end.

(** The children loop of a [service] element: the texts of its
    [serviceType] and [controlURL] children. *)
Definition service_child_step (acc : option string * option string)
    (child : Element) : option string * option string :=
  let '(st_text, ctrl_text) := acc in
  if endswith (ET.tag child) "serviceType" && has_text child
  then (text child, ctrl_text)
  else if endswith (ET.tag child) "controlURL" && has_text child
  then (st_text, text child)
  else (st_text, ctrl_text).

(** The block under [# Normalize URL]. *)
Definition normalize_control_url (base_url ctrl_text : string) : string :=
  if negb (startswith ctrl_text "http") then
    if startswith ctrl_text "/" then base_url ++ ctrl_text
    else base_url ++ "/" ++ ctrl_text
  else ctrl_text.

(** The body of the loop [for elem in root.iter()]. *)
Definition service_step (c : DlnaClient) (elem : Element) : DlnaClient :=
  if endswith (ET.tag elem) "service" then
    let '(st_text, ctrl_text) :=
      fold_left service_child_step (children elem) (None, None) in
    if truthy_opt st_text && truthy_opt ctrl_text then
      let ctrl_text := normalize_control_url (_base_url c) (text_of ctrl_text) in
      if contains "ContentDirectory" (text_of st_text)
      then set_content_directory_url c (Some ctrl_text)
      else if contains "AVTransport" (text_of st_text)
      then set_av_transport_url c (Some ctrl_text)
      else c
    else c
  else c.

Definition UPNP_DEVICE_NS : string := "{urn:schemas-upnp-org:device-1-0}".

Section Methods.
Context {env : Env}.

(** One HTTP exchange: the request is logged, the answer is the
    environment's. *)
Definition http (req : request) : M (Z * string) :=
  fun st =>
    let st' := mkState (self st) (sent st ++ [req]) in
    match network (sent st) req with
    | Response status body => (Ok (status, body), st')
    | NoResponse => (Raise ClientError, st')
    end.

Definition parse_xml (s : string) : M Element :=
  match fromstring s with
  | Some root => ret root
  | None => raise ParseError
  end.

(** [DlnaClient.initialize] *)
Definition initialize : M unit :=
  c <- get_self ;;
  if truthy_opt (_content_directory_url c) then ret tt
  else
    resp <- http (GET (location c)) ;;
    let '(status, xml_content) := resp in
    if negb (status =? 200)%Z
    then raise (Exception ("Failed to fetch description: " ++ str_of_int status))
    else
      root <- parse_xml xml_content ;;
      let fn_node :=
        match find_descendant (UPNP_DEVICE_NS ++ "friendlyName") root with
        | Some n => Some n
        | None => find_descendant "friendlyName" root
        end in
      when (match fn_node with Some n => has_text n | None => false end)
           (modify_self (fun c =>
              set_friendly_name c
                (text_of (match fn_node with Some n => text n | None => None end)))) ;;
      params <- lift (urlparse (location c)) ;;
      modify_self (fun c => set_base_url c (scheme params ++ "://" ++ netloc params)) ;;
      let url_base_node := find_descendant (UPNP_DEVICE_NS ++ "URLBase") root in
      when (match url_base_node with Some n => has_text n | None => false end)
           (modify_self (fun c =>
              set_base_url c
                (rstrip_char "/"
                   (text_of (match url_base_node with
                             | Some n => text n
                             | None => None
                             end))))) ;;
      modify_self (fun c => fold_left service_step (iter root) c).

(** [DlnaClient.browse] *)
Definition browse (object_id : string) (start_index count : Z)
  : M (list BrowsedItem * Z) :=
  c <- get_self ;;
  when (negb (truthy_opt (_content_directory_url c))) initialize ;;
  c <- get_self ;;
  if negb (truthy_opt (_content_directory_url c))
  then raise (Exception "No ContentDirectory service found.")
  else
    let soap_body := browse_soap_body object_id start_index count in
    let headers := soap_headers CONTENT_DIRECTORY "Browse" in
    resp <- http (POST (text_of (_content_directory_url c)) headers soap_body) ;;
    let '(status, text) := resp in
    if negb (status =? 200)%Z
    then raise (Exception ("Browse failed: " ++ str_of_int status ++ " - " ++ text))
    else lift (_parse_didl_result text).

(** [DlnaClient.search] *)
Definition search (search_criteria : string) (start_index count : Z)
  : M (list BrowsedItem * Z) :=
  c <- get_self ;;
  when (negb (truthy_opt (_content_directory_url c))) initialize ;;
  c <- get_self ;;
  if negb (truthy_opt (_content_directory_url c))
  then raise (Exception "No ContentDirectory service found.")
  else
    let soap_body := search_soap_body search_criteria start_index count in
    let headers := soap_headers CONTENT_DIRECTORY "Search" in
    resp <- http (POST (text_of (_content_directory_url c)) headers soap_body) ;;
    let '(status, text) := resp in
    if negb (status =? 200)%Z
    then raise (Exception ("Search failed (might be unsupported by server): "
                           ++ str_of_int status))
    else lift (_parse_didl_result text).

(** [DlnaClient.set_av_transport_uri] *)
Definition set_av_transport_uri (uri metadata : string) : M unit :=
  c <- get_self ;;
  when (negb (truthy_opt (_av_transport_url c))) initialize ;;
  c <- get_self ;;
  if negb (truthy_opt (_av_transport_url c))
  then raise (Exception "No AVTransport service found on device.")
  else
    let soap_body := set_av_transport_uri_soap_body uri metadata in
    let headers := soap_headers AV_TRANSPORT "SetAVTransportURI" in
    resp <- http (POST (text_of (_av_transport_url c)) headers soap_body) ;;
    let '(status, text) := resp in
    if negb (status =? 200)%Z
    then raise (Exception ("SetAVTransportURI failed: " ++ str_of_int status
                           ++ " - " ++ text))
    else ret tt.

End Methods.

End Dlna.

(* ===================================================================== *)
(** * server.py: the media-server tools                                   *)
(* ===================================================================== *)

Module Server.
Import Dlna.

(** What a [for] loop, or an unpacking assignment, can get out of the
    pair that [DlnaClient.search] and [DlnaClient.browse] return. *)
Inductive pyval : Type :=
| PyList (items : list BrowsedItem)
| PyInt (n : Z)
| PyItem (item : BrowsedItem).

(** Iterating the tuple [(items, total)] yields its two components. *)
Definition iter_tuple (r : list BrowsedItem * Z) : list pyval :=
  [PyList (fst r); PyInt (snd r)].

Definition opt_contains (q : string) (o : option string) : bool :=
  match o with
  | Some s => truthy s && contains q (lower s)
  | None => false
  end.

(** The test of the filter loop; [item.title] is evaluated first, and
    only a [BrowsedItem] has that attribute. *)
Definition item_match (q : string) (item : pyval) : result bool :=
  match item with
  | PyItem it =>
      Ok (contains q (lower (title it))
          || opt_contains q (artist it)
          || opt_contains q (album it))
  | PyList _ => Raise (AttributeError "'list' object has no attribute 'title'")
  | PyInt _ => Raise (AttributeError "'int' object has no attribute 'title'")
  end.

Fixpoint filter_loop (q : string) (raw_items : list pyval)
    (filtered_items : list pyval) : result (list pyval) :=
  match raw_items with
  | [] => Ok filtered_items
  | item :: rest =>
      match item_match q item with
      | Raise e => Raise e
      | Ok true => filter_loop q rest (filtered_items ++ [item])
      | Ok false => filter_loop q rest filtered_items
      end
  end.

(** The process-wide state of the tools: the cache [_dlna_clients] and
    the requests sent so far. *)
Record Global : Type := mkGlobal {
  _dlna_clients : PyDict.dict DlnaClient;
  requests : list request
}.

(** [if location not in _dlna_clients: _dlna_clients[location] = DlnaClient(location)] *)
Definition ensure_client (location : string) (clients : PyDict.dict DlnaClient)
  : PyDict.dict DlnaClient :=
  if negb (PyDict.mem location clients)
  then PyDict.set clients location (__init__ location)
  else clients.

Definition client_of (location : string) (clients : PyDict.dict DlnaClient)
  : DlnaClient :=
  match PyDict.get clients location with
  | Some c => c
  | None => __init__ location
  end.

(** A method call on the cached client: the object in the cache is the
    one the method mutates. *)
Definition call {A} (location : string) (m : M A) (g : Global)
  : result A * Global :=
  let clients := ensure_client location (_dlna_clients g) in
  let '(r, st) := m (mkState (client_of location clients) (requests g)) in
  (r, mkGlobal (PyDict.set clients location (self st)) (sent st)).

(** What a tool hands to [json.dumps]. *)
Inductive json : Type :=
| JsonItems (items : list pyval)
| JsonBrowse (items : list BrowsedItem) (total : Z).

(** [RuntimeError(f"Search failed. Error: {str(e)}")]: the message is
    kept as the exception it quotes. *)
Inductive tool_error : Type :=
| SearchFailed (cause : exn)
| Uncaught (e : exn).

Inductive outcome : Type :=
| Returned (value : json)
| Failed (e : tool_error).

Section Tools.
Context {env : Env}.

(** [search_media_server] *)
Definition search_media_server (location query : string) (g : Global)
  : outcome * Global :=
  let clean_query := replace query dq EmptyString in
  let criteria := "dc:title contains " ++ dq ++ clean_query ++ dq in
  let '(r, g') := call location (search criteria 0 500) g in
  match r with
  | Raise e => (Failed (SearchFailed e), g')
  | Ok raw_items =>
      let q := lower query in
      match filter_loop q (iter_tuple raw_items) [] with
      | Raise e => (Failed (SearchFailed e), g')
      | Ok filtered_items => (Returned (JsonItems filtered_items), g')
      end
  end.

(** [browse_media_server], which unpacks the pair. *)
Definition browse_media_server (location object_id : string)
    (start_index : Z) (g : Global) : outcome * Global :=
  let '(r, g') := call location (browse object_id start_index 100) g in
  match r with
  | Raise e => (Failed (Uncaught e), g')
  | Ok (items, total) => (Returned (JsonBrowse items total), g')
  end.
End Tools.

(** The filter as the specification words it: the entries whose title,
    artist or album contains the query, compared without case. *)
Definition spec_post_filter (query : string) (entries : list BrowsedItem)
  : list BrowsedItem :=
  filter (fun it =>
            contains (lower query) (lower (title it))
            || opt_contains (lower query) (artist it)
            || opt_contains (lower query) (album it)) entries.

End Server.

(* ===================================================================== *)
(** * Notions used to state the properties                                *)
(* ===================================================================== *)

(** [Subseq l1 l2]: [l1] is [l2] with some elements left out, the order
    kept. *)
Inductive Subseq {A : Type} : list A -> list A -> Prop :=
| Subseq_nil : Subseq [] []
| Subseq_skip x l1 l2 : Subseq l1 l2 -> Subseq l1 (x :: l2)
| Subseq_keep x l1 l2 : Subseq l1 l2 -> Subseq (x :: l1) (x :: l2).

Module DiscoverySpec.
Import Discovery.

(** The devices of a list that are the first with their key, given the
    keys seen before the list. *)
Fixpoint firsts (seen : list string) (ds : list Device) : list Device :=
  match ds with
  | [] => []
  | d :: r =>
      if existsb (fun k => String.eqb k (device_key d)) seen
      then firsts seen r
      else d :: firsts (seen ++ [device_key d]) r
  end.

(** The key in the words of the specification: the USN, and host
    followed by location when the device has no USN. *)
Definition usn_or_host_location (d : Device) : string :=
  match usn d with
  | EmptyString => host d ++ location d
  | String _ _ => usn d
  end.

(** What one datagram adds to the list of found devices. *)
Definition device_of (r : string * (string * Z)) : list Device :=
  datagram_received [] (fst r) (snd r).

Definition reply_location (r : string * (string * Z)) : string :=
  header (_parse_headers (fst r)) "LOCATION" EmptyString.
Definition reply_usn (r : string * (string * Z)) : string :=
  header (_parse_headers (fst r)) "USN" EmptyString.

(** A reply of the shape devices send: a status line, LOCATION, USN. *)
Definition ssdp_reply (location usn : string) : string :=
  "HTTP/1.1 200 OK" ++ CRLF ++
  "LOCATION: " ++ location ++ CRLF ++
  "USN: " ++ usn ++ CRLF ++ CRLF.
End DiscoverySpec.

(** Well-formed character data of XML 1.0: no [<], and every [&] starts a
    reference, to one of the five predefined entities or to a character. *)
Module Xml.
Import UrlParse.

Definition predefined_entity (n : string) : bool :=
  existsb (String.eqb n) ["amp"; "lt"; "gt"; "apos"; "quot"].

Definition is_hex (c : ascii) : bool :=
  is_digit c || between 65 70 c || between 97 102 c.

Definition char_reference (n : string) : bool :=
  match n with
  | String "#" (String "x" (String c r)) => all_chars is_hex (String c r)
  | String "#" (String c r) => all_chars is_digit (String c r)
  | _ => false
  end.

Inductive scan_state : Type :=
| InText
| InReference (name_rev : string).

Fixpoint chardata_from (st : scan_state) (s : string) : bool :=
  match s with
  | EmptyString => match st with InText => true | InReference _ => false end
  | String c r =>
      match st with
      | InText =>
          if Ascii.eqb c "<" then false
          else if Ascii.eqb c "&" then chardata_from (InReference EmptyString) r
          else chardata_from InText r
      | InReference acc =>
          if Ascii.eqb c ";" then
            (predefined_entity (rev acc) || char_reference (rev acc))
            && chardata_from InText r
          else if Ascii.eqb c "<" || Ascii.eqb c "&" then false
          else chardata_from (InReference (String c acc)) r
      end
  end.

Definition chardata_ok (s : string) : bool := chardata_from InText s.

(** The text that follows the first occurrence of [m] in [s], and the
    text that precedes it. *)
Fixpoint after (m s : string) : option string :=
  if String.prefix m s then Some (drop (String.length m) s)
  else match s with
       | EmptyString => None
       | String _ r => after m r
       end.

Fixpoint before (m s : string) : option string :=
  if String.prefix m s then Some EmptyString
  else match s with
       | EmptyString => None
       | String c r => option_map (String c) (before m r)
       end.

(** The content of the first [<name>...</name>] of a text. *)
Definition element_text (name body : string) : option string :=
  match after ("<" ++ name ++ ">") body with
  | Some t => before ("</" ++ name ++ ">") t
  | None => None
  end.
End Xml.

(** Concrete inputs for the examples. *)
Module Samples.
Import DiscoverySpec.

Definition usn1 : string := "uuid:abc::urn:schemas-upnp-org:device:MediaServer:1".
Definition replyA : string * (string * Z) :=
  (ssdp_reply "http://192.168.0.2:8096/dlna/description.xml" usn1,
   ("192.168.0.2", 1900%Z)).
Definition replyB : string * (string * Z) :=
  (ssdp_reply "http://192.168.0.2:8096/dlna/description.xml?v=2" usn1,
   ("192.168.0.2", 1900%Z)).

Definition reply1 : string :=
  "HTTP/1.1 200 OK" ++ CRLF ++
  "Location: http://172.17.0.2:8096/dlna/desc.xml" ++ CRLF ++
  "USN: uuid:abc::urn:schemas-upnp-org:device:MediaServer:1" ++ CRLF ++
  "Server: Jellyfin" ++ CRLF ++ CRLF.
End Samples.

Module DlnaSpec.
Import Dlna ET UrlParse.

(** The object that a successful fetch-and-parse of [initialize] leaves,
    from the parsed document and the parsed location. *)
Definition named (root : Element) (c : DlnaClient) : DlnaClient :=
  let fn_node :=
    match find_descendant (UPNP_DEVICE_NS ++ "friendlyName") root with
    | Some n => Some n
    | None => find_descendant "friendlyName" root
    end in
  match fn_node with
  | Some n => if has_text n then set_friendly_name c (text_of (text n)) else c
  | None => c
  end.

Definition based (root : Element) (params : ParseResult) (c : DlnaClient)
  : DlnaClient :=
  let c := set_base_url c (scheme params ++ "://" ++ netloc params) in
  match find_descendant (UPNP_DEVICE_NS ++ "URLBase") root with
  | Some n =>
      if has_text n then set_base_url c (rstrip_char "/" (text_of (text n)))
      else c
  | None => c
  end.

Definition resolved (root : Element) (params : ParseResult) (c : DlnaClient)
  : DlnaClient :=
  fold_left service_step (iter root) (based root params (named root c)).

(** The tag without its namespace. *)
Definition local_name (tag : string) : string :=
  let '(_, found, l) := rpartition "}" tag in
  if found then l else tag.

(** [n] copies of the character [c]. *)
Fixpoint repeat_char (c : ascii) (n : nat) : string :=
  match n with
  | O => EmptyString
  | S k => String c (repeat_char c k)
  end.

(** The texts of the [serviceType] and [controlURL] children of a
    [service] element, as the loop of [initialize] reads them. *)
Definition service_texts (elem : Element) : option string * option string :=
  fold_left service_child_step (children elem) (None, None).



(** The log after a call of [initialize] that had to fetch. *)
Definition fetched (st : State) : list request :=
  (sent st ++ [GET (location (self st))])%list.

(** The exception of [set_av_transport_uri] for a missing service. *)
Definition NO_AV_TRANSPORT : exn :=
  Exception "No AVTransport service found on device.".
End DlnaSpec.

(** A small network for the examples: three devices and their
    description documents, and one answer to Search. For each document the
    text and the tree the parser makes of it. *)
Module SampleEnv.
Import Dlna ET.

Definition ns (local : string) : string := UPNP_DEVICE_NS ++ local.
Definition leaf (tag text : string) : Element := Elem tag [] (Some text) [].
Definition node (tag : string) (children : list Element) : Element :=
  Elem tag [] None children.

Definition root_open : string :=
  "<root xmlns=" ++ quoted "urn:schemas-upnp-org:device-1-0" ++ ">".

Definition service_xml (type url : string) : string :=
  "<service><serviceType>" ++ type ++ "</serviceType><controlURL>" ++ url
  ++ "</controlURL></service>".
Definition service_tree (type url : string) : Element :=
  node (ns "service") [leaf (ns "serviceType") type; leaf (ns "controlURL") url].

(** A media server: ContentDirectory only, no URLBase. *)
Definition server_location : string :=
  "http://192.168.0.2:8096/dlna/description.xml".
Definition server_xml : string :=
  root_open ++ "<device><friendlyName>Jellyfin</friendlyName><serviceList>"
  ++ service_xml CONTENT_DIRECTORY "/dlna/cd/control"
  ++ "</serviceList></device></root>".
Definition server_tree : Element :=
  node (ns "root")
    [node (ns "device")
       [leaf (ns "friendlyName") "Jellyfin";
        node (ns "serviceList")
          [service_tree CONTENT_DIRECTORY "/dlna/cd/control"]]].

(** A device with a URLBase that ends in a slash. *)
Definition based_location : string := "http://192.168.0.9:49152/desc.xml".
Definition based_xml : string :=
  root_open ++ "<URLBase>http://192.168.0.9:49152/</URLBase><device><serviceList>"
  ++ service_xml CONTENT_DIRECTORY "cd/control"
  ++ "</serviceList></device></root>".
Definition based_tree : Element :=
  node (ns "root")
    [leaf (ns "URLBase") "http://192.168.0.9:49152/";
     node (ns "device")
       [node (ns "serviceList")
          [service_tree CONTENT_DIRECTORY "cd/control"]]].

(** A device with an empty URLBase element. *)
Definition unbased_location : string := "http://192.168.0.7:8200/rootDesc.xml".
Definition unbased_xml : string :=
  root_open ++ "<URLBase/><device><serviceList>"
  ++ service_xml CONTENT_DIRECTORY "/ctl/ContentDir"
  ++ "</serviceList></device></root>".
Definition unbased_tree : Element :=
  node (ns "root")
    [Elem (ns "URLBase") [] None [];
     node (ns "device")
       [node (ns "serviceList")
          [service_tree CONTENT_DIRECTORY "/ctl/ContentDir"]]].

(** The answer of the server to Search: two tracks, whatever the
    criteria. *)
Definition DIDL (local : string) : string :=
  "{urn:schemas-upnp-org:metadata-1-0/DIDL-Lite/}" ++ local.
Definition DC (local : string) : string :=
  "{http://purl.org/dc/elements/1.1/}" ++ local.
Definition UPNP (local : string) : string :=
  "{urn:schemas-upnp-org:metadata-1-0/upnp/}" ++ local.

Definition track_xml (id title artist : string) : string :=
  "<item id=" ++ quoted id ++ " parentID=" ++ quoted "0" ++ "><dc:title>"
  ++ title ++ "</dc:title><upnp:artist>" ++ artist
  ++ "</upnp:artist><upnp:class>object.item.audioItem.musicTrack</upnp:class></item>".
Definition track_tree (id title artist : string) : Element :=
  Elem (DIDL "item") [("id", id); ("parentID", "0")] None
    [leaf (DC "title") title; leaf (UPNP "artist") artist;
     leaf (UPNP "class") "object.item.audioItem.musicTrack"].

Definition didl_xml : string :=
  "<DIDL-Lite xmlns=" ++ quoted "urn:schemas-upnp-org:metadata-1-0/DIDL-Lite/"
  ++ " xmlns:dc=" ++ quoted "http://purl.org/dc/elements/1.1/"
  ++ " xmlns:upnp=" ++ quoted "urn:schemas-upnp-org:metadata-1-0/upnp/" ++ ">"
  ++ track_xml "1" "Smooth Jazz" "Quartet" ++ track_xml "2" "Rock Anthem" "Band"
  ++ "</DIDL-Lite>".
Definition didl_tree : Element :=
  node (DIDL "DIDL-Lite")
    [track_tree "1" "Smooth Jazz" "Quartet"; track_tree "2" "Rock Anthem" "Band"].

(** [count] is the text of the TotalMatches element. *)
Definition response_xml (count : string) : string :=
  "<s:Envelope xmlns:s=" ++ quoted "http://schemas.xmlsoap.org/soap/envelope/"
  ++ "><s:Body><u:SearchResponse xmlns:u=" ++ quoted CONTENT_DIRECTORY
  ++ "><Result>" ++ Html.escape didl_xml
  ++ "</Result><NumberReturned>2</NumberReturned><TotalMatches>" ++ count
  ++ "</TotalMatches></u:SearchResponse></s:Body></s:Envelope>".
Definition response_tree (count : string) : Element :=
  node "{http://schemas.xmlsoap.org/soap/envelope/}Envelope"
    [node "{http://schemas.xmlsoap.org/soap/envelope/}Body"
       [node ("{" ++ CONTENT_DIRECTORY ++ "}SearchResponse")
          [leaf "Result" didl_xml; leaf "NumberReturned" "2";
           leaf "TotalMatches" count]]].

Definition documents : list (string * Element) :=
  [(server_xml, server_tree); (based_xml, based_tree);
   (unbased_xml, unbased_tree); (didl_xml, didl_tree);
   (response_xml "2", response_tree "2");
   (response_xml "many", response_tree "many")].

Definition sample_fromstring (s : string) : option Element :=
  option_map snd (List.find (fun d => String.eqb (fst d) s) documents).

(** [count] is what the server reports as TotalMatches. *)
Definition sample_network (count : string) (log : list request)
    (req : request) : reply :=
  match req with
  | GET url =>
      if String.eqb url server_location then Response 200 server_xml
      else if String.eqb url based_location then Response 200 based_xml
      else if String.eqb url unbased_location then Response 200 unbased_xml
      else Response 404 "Not Found"
  | POST _ _ _ => Response 200 (response_xml count)
  end.

Definition sample_env (count : string) : Env :=
  {| fromstring := sample_fromstring; network := sample_network count |}.

Definition fresh (location : string) : State :=
  mkState (__init__ location) [].
End SampleEnv.

Module SampleResults.
Import Dlna SampleEnv.

Definition jazz_entry : BrowsedItem :=
  mkBrowsedItem "1" "0" "Smooth Jazz" (Some "object.item.audioItem.musicTrack")
                false None None (Some "Quartet") None.
Definition rock_entry : BrowsedItem :=
  mkBrowsedItem "2" "0" "Rock Anthem" (Some "object.item.audioItem.musicTrack")
                false None None (Some "Band") None.
Definition sample_entries : list BrowsedItem := [jazz_entry; rock_entry].

(** The states that [initialize] leaves for two of the devices. *)
Definition resolved_server : State :=
  mkState (mkDlnaClient server_location
             (Some "http://192.168.0.2:8096/dlna/cd/control") None
             "Jellyfin" "http://192.168.0.2:8096")
          [GET server_location].

Definition resolved_based : State :=
  mkState (mkDlnaClient based_location
             (Some "http://192.168.0.9:49152/cd/control") None
             "Unknown Device" "http://192.168.0.9:49152")
          [GET based_location].

(** A client that knows its base URL and no service yet. *)
Definition based_client : DlnaClient :=
  mkDlnaClient based_location None None "Unknown Device"
               "http://192.168.0.9:49152".
End SampleResults.

(** [html.escape], character by character. *)
Module EscapeSpec.
(** [concat_map f s]: the texts [f c], for the characters [c] of [s],
    joined. *)
Fixpoint concat_map (f : ascii -> string) (s : string) : string :=
  match s with
  | EmptyString => EmptyString
  | String c r => f c ++ concat_map f r
  end.

Definition replace_char (a : ascii) (new : string) (c : ascii) : string :=
  if Ascii.eqb c a then new else char1 c.

End EscapeSpec.

(** Further inputs for the examples. *)
Module MoreSamples.
Import Discovery DiscoverySpec Samples.

(** A reply of another device. *)
Definition replyC : string * (string * Z) :=
  (ssdp_reply "http://192.168.0.9:49152/desc.xml" "uuid:def",
   ("192.168.0.9", 1900%Z)).

(** The device that [replyA] yields. *)
Definition deviceA : Device :=
  mkDevice "192.168.0.2" "http://192.168.0.2:8096/dlna/description.xml"
           usn1 "Unknown" "Unknown" "UPnP Device (192.168.0.2)".

(** A reply whose lines end in LF alone. *)
Definition lf_reply : string :=
  "HTTP/1.1 200 OK" ++ char1 LF ++ "LOCATION: http://192.168.0.2/d.xml"
  ++ char1 LF ++ char1 LF.
End MoreSamples.

Module DiscoveryMoreSpec.
Import Discovery.



(** The characters of an address in digits and dots. *)
Definition ip_char (c : ascii) : bool := is_digit c || Ascii.eqb c ".".

(** The characters of such an address followed by a port. *)
Definition authority_char (c : ascii) : bool :=
  ip_char c || Ascii.eqb c ":".
End DiscoveryMoreSpec.

Module DlnaMoreSpec.
Import Dlna ET.

(** A URL field holds no URL or a text that is not empty. *)
Definition url_ok (o : option string) : Prop := o <> Some EmptyString.

Definition endpoints_ok (c : DlnaClient) : Prop :=
  url_ok (_content_directory_url c) /\ url_ok (_av_transport_url c).

(** The exception of [browse] and [search] for a missing service. *)
Definition NO_CONTENT_DIRECTORY : exn :=
  Exception "No ContentDirectory service found.".

(** The request that [browse] and [search] post. *)
Definition browse_post (c : DlnaClient) (object_id : string)
    (start_index count : Z) : request :=
  POST (text_of (_content_directory_url c))
       (soap_headers CONTENT_DIRECTORY "Browse")
       (browse_soap_body object_id start_index count).

Definition search_post (c : DlnaClient) (search_criteria : string)
    (start_index count : Z) : request :=
  POST (text_of (_content_directory_url c))
       (soap_headers CONTENT_DIRECTORY "Search")
       (search_soap_body search_criteria start_index count).

(** An element that declares a service: its tag ends in [service], and
    the loop over its children finds the type [st_text] and the control
    URL [ctrl]. *)
Definition declares (elem : Element) (st_text ctrl : string) : Prop :=
  endswith (ET.tag elem) "service" = true
  /\ fold_left service_child_step (children elem) (None, None)
     = (Some st_text, Some ctrl).
End DlnaMoreSpec.

(** A renderer: AVTransport only. *)
Module RendererEnv.
Import Dlna ET SampleEnv.

Definition renderer_location : string := "http://192.168.0.5:80/desc.xml".
Definition renderer_xml : string :=
  root_open ++ "<device><friendlyName>Evo 150</friendlyName><serviceList>"
  ++ service_xml AV_TRANSPORT "/av/control"
  ++ "</serviceList></device></root>".
Definition renderer_tree : Element :=
  node (ns "root")
    [node (ns "device")
       [leaf (ns "friendlyName") "Evo 150";
        node (ns "serviceList")
          [service_tree AV_TRANSPORT "/av/control"]]].

Definition renderer_env : Env :=
  {| fromstring := fun s =>
       if String.eqb s renderer_xml then Some renderer_tree else None;
     network := fun _ req =>
       match req with
       | GET url =>
           if String.eqb url renderer_location then Response 200 renderer_xml
           else Response 404 "Not Found"
       | POST _ _ _ => Response 500 "Internal Server Error"
       end |}.

Definition resolved_renderer : State :=
  mkState (mkDlnaClient renderer_location None
             (Some "http://192.168.0.5:80/av/control")
             "Evo 150" "http://192.168.0.5:80")
          [GET renderer_location].

(** A location that no device answers for. *)
Definition nowhere : string := "http://192.168.0.99:80/none.xml".
End RendererEnv.

Module DecoderMoreSpec.
Import Dlna ET.

(** The children of an entry that the decoder takes for a resource. *)
Definition is_res_child (ch : Element) : bool :=
  negb (contains "title" (ET.tag ch))
  && negb (contains "class" (ET.tag ch))
  && contains "res" (ET.tag ch).

(** The elements that the decoder takes for the result and for the
    count. *)
Definition is_result (e : Element) : bool :=
  endswith (lower (ET.tag e)) "result" && has_text e.
Definition is_count (e : Element) : bool :=
  endswith (lower (ET.tag e)) "totalmatches" && has_text e.
End DecoderMoreSpec.

(** Searching a marker in a text of which only the beginning is known. *)
Module XmlMore.



End XmlMore.

Module DecoderSamples.
Import Dlna ET SampleEnv.

(** A track in two formats, after a resource element without text. *)
Definition two_formats : Element :=
  Elem (DIDL "item") [("id", "9"); ("parentID", "0")] None
    [leaf (DC "title") "Blue in Green";
     Elem (DIDL "res") [] None [];
     leaf (DIDL "res") "http://192.168.0.2/9.flac";
     leaf (DIDL "res") "http://192.168.0.2/9.mp3"].

Definition two_formats_entry : BrowsedItem :=
  mkBrowsedItem "9" "0" "Blue in Green" (Some EmptyString) false
                (Some "http://192.168.0.2/9.flac") None None None.

(** An answer whose Result element is empty, with a count. *)
Definition empty_xml : string :=
  "<Envelope><Body><SearchResponse><Result/><TotalMatches>7</TotalMatches>"
  ++ "</SearchResponse></Body></Envelope>".
Definition empty_tree : Element :=
  node "Envelope"
    [node "Body"
       [node "SearchResponse"
          [Elem "Result" [] None []; leaf "TotalMatches" "7"]]].

Definition empty_env : Env :=
  {| fromstring := fun s =>
       if String.eqb s empty_xml then Some empty_tree else None;
     network := fun _ _ => Response 200 empty_xml |}.
End DecoderSamples.

Module ServerSamples.
Import Dlna Server SampleEnv SampleResults.

(** The state of the tools after one Browse of the sample server. *)
Definition after_browse : Global :=
  mkGlobal [(server_location, self resolved_server)]
           [GET server_location;
            POST "http://192.168.0.2:8096/dlna/cd/control"
                 (soap_headers CONTENT_DIRECTORY "Browse")
                 (browse_soap_body "0" 0 100)].
End ServerSamples.

(* ===================================================================== *)
(** * server.py: the device tools                                         *)
(* ===================================================================== *)

(** [StreamMagicClient] belongs to another package.  Its objects are kept
    apart by a number; what [connect], [is_connected] and the playback
    methods do is the environment's answer, which may depend on what
    happened before. *)
Module Devices.

Record Client : Type := mkClient {
  client_host : string;
  client_number : nat
}.

Inductive event : Type :=
| Connect (c : Client)
| Call (c : Client) (method : string).

(** [None] is a call that returns, [Some e] one that raises [e]. *)
Class Device : Type := {
  STREAMMAGIC_HOST : option string;          (* os.environ.get(...) *)
  connect : list event -> Client -> option exn;
  is_connected : list event -> Client -> bool;
  invoke : list event -> Client -> string -> option exn
}.

(** The process-wide state: the cache [_clients], what was asked of the
    devices so far, and the number of client objects made. *)
Record Registry : Type := mkRegistry {
  _clients : PyDict.dict Client;
  history : list event;
  made : nat
}.

Inductive failure : Type :=
| HostMissing                                   (* ValueError *)
| FailedToConnect (host : string) (cause : exn)   (* RuntimeError *)
| FailedToReconnect (host : string) (cause : exn) (* RuntimeError *)
| UnknownAction (action : string)                 (* ValueError *)
| Propagated (e : exn).

Inductive outcome (A : Type) : Type :=
| Done (a : A)
| Fail (f : failure).
Arguments Done {A} a.
Arguments Fail {A} f.

(** [if k in d: del d[k]]: no entry for [k] is left. *)
Fixpoint discard {V} (d : PyDict.dict V) (k : string) : PyDict.dict V :=
  match d with
  | [] => []
  | (k', v) :: r =>
      if String.eqb k' k then discard r k else (k', v) :: discard r k
  end.

Section Tools.
Context {dev : Device}.

(** [host], or the environment variable when [host] is empty. *)
Definition host_or_environment (host : string) : option string :=
  if truthy host then Some host else STREAMMAGIC_HOST.

Definition log (r : Registry) (e : event) : Registry :=
  mkRegistry (_clients r) (history r ++ [e]) (made r).

(** The branch [if not client:] of [get_client]. *)
Definition connect_new (host : string) (r : Registry)
  : outcome Client * Registry :=
  let client := mkClient host (made r) in
  let r1 := mkRegistry (_clients r) (history r ++ [Connect client])
                       (S (made r)) in
  match connect (history r) client with
  | None =>
      (Done client,
       mkRegistry (PyDict.set (_clients r1) host client)
                  (history r1) (made r1))
  | Some e =>
      (Fail (FailedToConnect host e),
       mkRegistry (discard (_clients r1) host) (history r1) (made r1))
  end.

(** The branch [if not client.is_connected():]. *)
Definition reconnect (host : string) (client : Client) (r : Registry)
  : outcome Client * Registry :=
  if negb (is_connected (history r) client) then
    let r1 := log r (Connect client) in
    match connect (history r) client with
    | None => (Done client, r1)
    | Some e =>
        (Fail (FailedToReconnect host e),
         mkRegistry (discard (_clients r1) host) (history r1) (made r1))
    end
  else (Done client, r).

(** [get_client], up to its [yield]. *)
Definition get_client (host : string) (r : Registry)
  : outcome Client * Registry :=
  match host_or_environment host with
  | Some (String c h) =>
      let host := String c h in
      match PyDict.get (_clients r) host with
      | Some client => reconnect host client r
      | None =>
          match connect_new host r with
          | (Done client, r1) => reconnect host client r1
          | (Fail f, r1) => (Fail f, r1)
          end
      end
  | _ => (Fail HostMissing, r)
  end.

(** The method that [control_playback] calls for an action. *)
Definition playback_method (action : string) : option string :=
  if String.eqb action "play" then Some "play"
  else if String.eqb action "pause" then Some "pause"
  else if String.eqb action "stop" then Some "stop"
  else if String.eqb action "play_pause" then Some "play_pause"
  else if String.eqb action "next" then Some "next_track"
  else if String.eqb action "previous" then Some "previous_track"
  else None.

(** [control_playback] *)
Definition control_playback (action host : string) (r : Registry)
  : outcome string * Registry :=
  match get_client host r with
  | (Fail f, r1) => (Fail f, r1)
  | (Done client, r1) =>
      let action := lower action in
      match playback_method action with
      | Some method =>
          let r2 := log r1 (Call client method) in
          match invoke (history r1) client method with
          | None => (Done ("Executed " ++ action), r2)
          | Some e => (Fail (Propagated e), r2)
          end
      | None => (Fail (UnknownAction action), r1)
      end
  end.
End Tools.

(** The calls of playback methods in a history. *)
Definition is_call (e : event) : bool :=
  match e with Call _ _ => true | Connect _ => false end.

(** A device that is always reachable, and one that never is. *)
Definition reachable : Device :=
  {| STREAMMAGIC_HOST := None;
     connect := fun _ _ => None;
     is_connected := fun _ _ => true;
     invoke := fun _ _ _ => None |}.
Definition unreachable : Device :=
  {| STREAMMAGIC_HOST := Some "192.168.1.100";
     connect := fun _ _ => Some ClientError;
     is_connected := fun _ _ => false;
     invoke := fun _ _ _ => Some ClientError |}.

Definition empty_registry : Registry := mkRegistry [] [] 0.
End Devices.

(* ===================================================================== *)
(** * dlna.py and server.py: starting a stream                            *)
(* ===================================================================== *)

Module Playback.
Import Dlna Server.

(** The outcome of [play_stream_url]. *)
Inductive play_outcome : Type :=
| Playing (url : string)               (* returns "Playing {url}" *)
| HostRequired                         (* ValueError("Host required") *)
| ServiceNotFound (target_host : string)    (* RuntimeError *)
| Raised (e : exn).

(** [for d in devices: if d['host'] == target_host: ...; break] *)
Definition find_location (target_host : string)
    (devices : list Discovery.Device) : option string :=
  match List.find (fun d => String.eqb (Discovery.host d) target_host) devices with
  | Some d => Some (Discovery.location d)
  | None => None
  end.

Section Play.
Context {env : Env}.

(** What aiohttp raises when it is asked to post to a URL that is
    [None] or empty; it raises before anything is sent. *)
Variable bad_url : option string -> exn.

(** [DlnaClient.play]: unlike the other methods it does not look at
    the URL again after the resolution. *)
Definition play : M unit :=
  (c <- get_self ;;
   when (negb (truthy_opt (_av_transport_url c))) initialize ;;
   c <- get_self ;;
   if negb (truthy_opt (_av_transport_url c))
   then raise (bad_url (_av_transport_url c))
   else
     resp <- http (POST (text_of (_av_transport_url c))
                        (soap_headers AV_TRANSPORT "Play") play_soap_body) ;;
     let '(status, text) := resp in
     if negb (status =? 200)%Z
     then raise (Exception ("Play failed: " ++ str_of_int status
                            ++ " - " ++ text))
     else ret tt)%dlna.

(** [play_stream_url]; [environ_host] is the environment variable
    STREAMMAGIC_HOST, [replies] are the datagrams that the discovery
    of two seconds collects. *)
Definition play_stream_url (url metadata host : string)
    (environ_host : option string)
    (replies : list (string * (string * Z))) (g : Global)
  : play_outcome * Global :=
  match (if truthy host then Some host else environ_host) with
  | Some (String c h) =>
      let target_host := String c h in
      let devices := Discovery.discover replies in
      match find_location target_host devices with
      | Some (String c' l) =>
          let device_loc := String c' l in
          let '(r, g') :=
            call device_loc
                 (set_av_transport_uri url metadata ;; play)%dlna g in
          match r with
          | Ok _ => (Playing url, g')
          | Raise e => (Raised e, g')
          end
      | _ => (ServiceNotFound target_host, g)
      end
  | _ => (HostRequired, g)
  end.
End Play.

(** The request of [set_av_transport_uri], and the one of [play]. *)
Definition set_uri_post (c : DlnaClient) (uri metadata : string) : request :=
  POST (text_of (_av_transport_url c))
       (soap_headers AV_TRANSPORT "SetAVTransportURI")
       (set_av_transport_uri_soap_body uri metadata).

Definition play_post (c : DlnaClient) : request :=
  POST (text_of (_av_transport_url c))
       (soap_headers AV_TRANSPORT "Play") play_soap_body.

(** The two requests that start a stream. *)
Definition transport_posts (u uri metadata : string) : list request :=
  [POST u (soap_headers AV_TRANSPORT "SetAVTransportURI")
        (set_av_transport_uri_soap_body uri metadata);
   POST u (soap_headers AV_TRANSPORT "Play") play_soap_body].
End Playback.

Module PlaybackSamples.
Import Dlna Server DiscoverySpec RendererEnv.

(** The renderer of [RendererEnv], answering its SOAP actions. *)
Definition playing_env : Env :=
  {| fromstring := fun s =>
       if String.eqb s renderer_xml then Some renderer_tree else None;
     network := fun _ req =>
       match req with
       | GET url =>
           if String.eqb url renderer_location then Response 200 renderer_xml
           else Response 404 "Not Found"
       | POST _ _ _ => Response 200 "<ok/>"
       end |}.

Definition renderer_reply : string * (string * Z) :=
  (ssdp_reply renderer_location "uuid:evo150", ("192.168.0.5", 1900%Z)).

Definition stream : string := "http://192.168.0.2:8096/audio/1.mp3?a=1&b=2".

Definition no_clients : Global := mkGlobal [] [].

Definition invalid_url (u : option string) : exn := ClientError.
End PlaybackSamples.

(* ===================================================================== *)
(** * Lemmas on texts                                                     *)
(* ===================================================================== *)

(** Case analysis on every [match] of the goal. *)
Ltac case_matches :=
  repeat match goal with
         | |- context [match ?x with _ => _ end] => destruct x
         end.

Section TextLemmas.
Import DlnaSpec.

Lemma prefix_empty (s : string) : String.prefix EmptyString s = true.
Proof. destruct s; reflexivity. Qed.

Lemma str_app_assoc (a b c : string) : (a ++ b) ++ c = a ++ (b ++ c).
Proof. induction a as [|x a IH]; simpl; [reflexivity|now rewrite IH]. Qed.

Lemma str_app_empty_r (a : string) : a ++ EmptyString = a.
Proof. induction a as [|x a IH]; simpl; [reflexivity|now rewrite IH]. Qed.

Lemma str_rev_onto_app (s : string) :
  forall acc, rev_onto s acc = rev s ++ acc.
Proof.
  unfold rev. induction s as [|c s IH]; intros acc; simpl; [reflexivity|].
  rewrite (IH (String c acc)), (IH (String c EmptyString)).
  now rewrite str_app_assoc.
Qed.

Lemma str_rev_cons (c : ascii) (s : string) : rev (String c s) = rev s ++ char1 c.
Proof. unfold rev at 1. simpl. apply str_rev_onto_app. Qed.

Lemma str_rev_app (a b : string) : rev (a ++ b) = rev b ++ rev a.
Proof.
  induction a as [|c a IH]; simpl.
  - now rewrite str_app_empty_r.
  - now rewrite !str_rev_cons, IH, str_app_assoc.
Qed.

Lemma str_rev_involutive (s : string) : rev (rev s) = s.
Proof.
  induction s as [|c s IH]; [reflexivity|].
  now rewrite str_rev_cons, str_rev_app, IH.
Qed.

Lemma repeat_char_snoc (c : ascii) (k : nat) :
  repeat_char c k ++ char1 c = String c (repeat_char c k).
Proof. induction k as [|k IH]; simpl; [reflexivity|now rewrite IH]. Qed.

Lemma str_rev_repeat_char (c : ascii) (k : nat) :
  rev (repeat_char c k) = repeat_char c k.
Proof.
  induction k as [|k IH]; [reflexivity|].
  simpl. now rewrite str_rev_cons, IH, repeat_char_snoc.
Qed.

Lemma lstrip_char_spec (c : ascii) (t : string) :
  exists k, t = repeat_char c k ++ lstrip_by (Ascii.eqb c) t
            /\ String.prefix (char1 c) (lstrip_by (Ascii.eqb c) t) = false.
Proof.
  induction t as [|a t [k [IH1 IH2]]]; simpl.
  - exists 0. split; reflexivity.
  - destruct (Ascii.eqb c a) eqn:E.
    + apply Ascii.eqb_eq in E. subst a.
      exists (S k). simpl. split; [now rewrite <- IH1|exact IH2].
    + exists 0. split; [reflexivity|]. simpl.
      destruct (ascii_dec c a) as [->|_]; [|reflexivity].
      now rewrite Ascii.eqb_refl in E.
Qed.

(** [s.rstrip(c)] is [s] without the run of [c] at its end. *)
Lemma rstrip_char_spec (c : ascii) (s : string) :
  exists k, s = rstrip_char c s ++ repeat_char c k
            /\ endswith (rstrip_char c s) (char1 c) = false.
Proof.
  unfold rstrip_char, rstrip_by, endswith.
  destruct (lstrip_char_spec c (rev s)) as [k [H1 H2]].
  exists k. split.
  - rewrite <- (str_rev_involutive s) at 1. rewrite H1 at 1.
    now rewrite str_rev_app, str_rev_repeat_char.
  - rewrite str_rev_involutive. exact H2.
Qed.

End TextLemmas.

(* ===================================================================== *)
(** * Discovery: deduplication                                            *)
(* ===================================================================== *)

Section UniqueDevices.
Import Discovery DiscoverySpec.

Lemma dict_mem_keys {V} (u : PyDict.dict V) (k : string) :
  PyDict.mem k u = existsb (fun k' => String.eqb k' k) (PyDict.keys u).
Proof.
  unfold PyDict.mem.
  induction u as [|[k' v] u IH]; simpl; [reflexivity|].
  destruct (String.eqb k' k); simpl; [reflexivity|exact IH].
Qed.

Lemma dict_set_fresh {V} (u : PyDict.dict V) (k : string) (v : V) :
  PyDict.mem k u = false -> PyDict.set u k v = (u ++ [(k, v)])%list.
Proof.
  unfold PyDict.mem.
  induction u as [|[k' v'] u IH]; simpl; [reflexivity|].
  destruct (String.eqb k' k); [discriminate|].
  intros H. now rewrite IH.
Qed.

Lemma unique_loop_firsts (ds : list Device) :
  forall u : PyDict.dict Device,
    PyDict.values (unique_loop u ds)
    = (PyDict.values u ++ firsts (PyDict.keys u) ds)%list.
Proof.
  induction ds as [|d r IH]; intros u; simpl.
  - now rewrite app_nil_r.
  - rewrite <- dict_mem_keys.
    destruct (PyDict.mem (device_key d) u) eqn:Hm; simpl.
    + apply IH.
    + rewrite dict_set_fresh by exact Hm.
      rewrite IH. unfold PyDict.values, PyDict.keys.
      rewrite !map_app. simpl. now rewrite <- app_assoc.
Qed.

Lemma unique_devices_firsts (ds : list Device) :
  _unique_devices ds = firsts [] ds.
Proof. unfold _unique_devices. now rewrite unique_loop_firsts. Qed.

Lemma existsb_key (k : string) (seen : list string) :
  existsb (fun k' => String.eqb k' k) seen = true <-> In k seen.
Proof.
  rewrite existsb_exists. split.
  - intros [x [Hx He]]. apply String.eqb_eq in He. now subst.
  - intros H. exists k. split; [exact H|apply String.eqb_refl].
Qed.

Lemma firsts_subseq (ds : list Device) :
  forall seen, Subseq (firsts seen ds) ds.
Proof.
  induction ds as [|d r IH]; intros seen; simpl.
  - constructor.
  - destruct (existsb _ seen); constructor; apply IH.
Qed.

Lemma firsts_fresh (ds : list Device) :
  forall seen d, In d (firsts seen ds) -> ~ In (device_key d) seen.
Proof.
  induction ds as [|x r IH]; intros seen d; simpl; [tauto|].
  destruct (existsb _ seen) eqn:E.
  - apply IH.
  - intros [->|Hin].
    + intros Hs. apply existsb_key in Hs. congruence.
    + intros Hs. apply (IH _ _ Hin). apply in_or_app. now left.
Qed.

Lemma firsts_nodup (ds : list Device) :
  forall seen, NoDup (map device_key (firsts seen ds)).
Proof.
  induction ds as [|x r IH]; intros seen; simpl; [constructor|].
  destruct (existsb _ seen) eqn:E; [apply IH|].
  simpl. constructor; [|apply IH].
  intros Hin. apply in_map_iff in Hin. destruct Hin as [d [Hk Hd]].
  apply firsts_fresh in Hd. apply Hd. apply in_or_app. right. simpl. auto.
Qed.

(** Every device kept is the first of the list with its key. *)
Lemma firsts_first_seen (ds : list Device) :
  forall seen d, In d (firsts seen ds) ->
    exists l1 l2, ds = (l1 ++ d :: l2)%list
                  /\ forall x, In x l1 -> device_key x <> device_key d.
Proof.
  induction ds as [|x r IH]; intros seen d; simpl; [tauto|].
  destruct (existsb _ seen) eqn:E.
  - intros Hin. destruct (IH _ _ Hin) as [l1 [l2 [-> Hl]]].
    exists (x :: l1), l2. split; [reflexivity|].
    intros y [<-|Hy]; [|now apply Hl].
    intros Hk. apply firsts_fresh in Hin. apply Hin.
    apply existsb_key. now rewrite <- Hk.
  - intros [<-|Hin].
    + exists [], r. split; [reflexivity|]. intros y [].
    + destruct (IH _ _ Hin) as [l1 [l2 [-> Hl]]].
      exists (x :: l1), l2. split; [reflexivity|].
      intros y [<-|Hy]; [|now apply Hl].
      intros Hk. apply firsts_fresh in Hin. apply Hin.
      apply in_or_app. right. simpl. auto.
Qed.

(** Every key of the list is the key of a device kept. *)
Lemma firsts_cover (ds : list Device) :
  forall seen d, In d ds ->
    In (device_key d) seen
    \/ exists d', In d' (firsts seen ds) /\ device_key d' = device_key d.
Proof.
  induction ds as [|x r IH]; intros seen d; simpl; [tauto|].
  destruct (existsb _ seen) eqn:E.
  - intros [<-|Hin]; [left; now apply existsb_key|now apply IH].
  - intros [<-|Hin].
    + right. exists x. simpl. auto.
    + destruct (IH (seen ++ [device_key x])%list d Hin) as [Hs|[d' [Hd' Hk]]].
      * apply in_app_or in Hs. destruct Hs as [Hs|[Hs|[]]]; [now left|].
        right. exists x. simpl. auto.
      * right. exists d'. simpl. auto.
Qed.

(** When every device has the key [k] and [k] was seen, none is kept. *)
Lemma firsts_all_seen (ds : list Device) (seen : list string) (k : string) :
  In k seen -> Forall (fun d => device_key d = k) ds -> firsts seen ds = [].
Proof.
  intros Hs. induction 1 as [|d r Hd _ IH]; simpl; [reflexivity|].
  replace (existsb _ seen) with true; [exact IH|].
  symmetry. apply existsb_key. now rewrite Hd.
Qed.

Lemma found_devices (replies : list (string * (string * Z))) :
  forall acc,
    fold_left (fun l r => datagram_received l (fst r) (snd r)) replies acc
    = (acc ++ flat_map device_of replies)%list.
Proof.
  induction replies as [|r rs IH]; intros acc; simpl.
  - now rewrite app_nil_r.
  - rewrite IH. unfold device_of at 2, datagram_received.
    destruct (negb _); simpl.
    + reflexivity.
    + now rewrite <- app_assoc.
Qed.

Lemma discover_firsts (replies : list (string * (string * Z))) :
  discover replies = firsts [] (flat_map device_of replies).
Proof.
  unfold discover. now rewrite found_devices, unique_devices_firsts.
Qed.

(** A reply with a LOCATION yields one device, with the USN of the
    reply. *)
Lemma device_of_located (r : string * (string * Z)) :
  reply_location r <> EmptyString ->
  exists d, device_of r = [d] /\ usn d = reply_usn r /\ host d = fst (snd r).
Proof.
  intros H. unfold device_of, datagram_received.
  fold (reply_location r). fold (reply_usn r).
  destruct (reply_location r) eqn:E; [congruence|]. simpl.
  eexists. split; [reflexivity|]. simpl. auto.
Qed.

Lemma device_key_usn (d : Device) :
  usn d <> EmptyString -> device_key d = usn d.
Proof. unfold device_key. destruct (usn d); simpl; congruence. Qed.

Lemma shared_usn_devices (u : string) (replies : list (string * (string * Z))) :
  u <> EmptyString ->
  Forall (fun r => reply_location r <> EmptyString /\ reply_usn r = u) replies ->
  Forall (fun d => device_key d = u) (flat_map device_of replies)
  /\ length (flat_map device_of replies) = length replies.
Proof.
  intros Hu. induction 1 as [|r rs [Hl Hr] _ [IH1 IH2]]; simpl.
  - split; [constructor|reflexivity].
  - destruct (device_of_located r Hl) as [d [-> [Hd _]]]. simpl.
    split; [|now rewrite IH2].
    constructor; [|exact IH1].
    rewrite device_key_usn; congruence.
Qed.

(** The key that [_unique_devices] computes is the key of the
    specification. *)
Lemma device_key_spec (d : Device) :
  device_key d = usn_or_host_location d.
Proof.
  unfold device_key, usn_or_host_location.
  destruct (usn d); reflexivity.
Qed.

(** C3. All the replies of a discovery run carry one and the same USN:
    [discover] returns exactly one device, the one built from the first
    reply, however many replies came and in whatever order. In every run
    the devices returned are the first ones seen with their key, the key
    of a device being its USN, or its host followed by its location when
    its USN is empty: they come in the order in which they were first
    seen, no key is returned twice, so that devices with different keys
    are kept apart, and no key of a reply is lost. *)
Theorem discover_one_device_per_usn
    (u : string) (r0 : string * (string * Z))
    (rest : list (string * (string * Z))) :
  u <> EmptyString ->
  Forall (fun r => reply_location r <> EmptyString /\ reply_usn r = u)
         (r0 :: rest) ->
  (exists d, discover (r0 :: rest) = [d] /\ usn d = u /\ device_of r0 = [d])
  /\ (forall replies', Permutation (r0 :: rest) replies' ->
        exists d', discover replies' = [d'] /\ usn d' = u)
  /\ (forall replies : list (string * (string * Z)),
        let found := flat_map device_of replies in
        Subseq (discover replies) found
        /\ NoDup (map usn_or_host_location (discover replies))
        /\ (forall d, In d found ->
              exists d', In d' (discover replies)
                         /\ usn_or_host_location d' = usn_or_host_location d)
        /\ (forall d, In d (discover replies) ->
              exists l1 l2, found = (l1 ++ d :: l2)%list
                /\ forall x, In x l1 ->
                     usn_or_host_location x <> usn_or_host_location d)).
Proof.
  intros Hu Hall.
  assert (one : forall rs, rs <> [] ->
            Forall (fun r => reply_location r <> EmptyString /\ reply_usn r = u) rs ->
            exists d, discover rs = [d] /\ usn d = u
                      /\ forall r1 rs', rs = r1 :: rs' -> device_of r1 = [d]).
  { intros rs Hne Hrs. destruct rs as [|r1 rs']; [congruence|].
    rewrite discover_firsts.
    destruct (shared_usn_devices u _ Hu Hrs) as [Hk _].
    assert (Hl : reply_location r1 <> EmptyString)
      by (inversion Hrs as [|? ? [Hl _] _]; exact Hl).
    assert (Hr : reply_usn r1 = u)
      by (inversion Hrs as [|? ? [_ Hr] _]; exact Hr).
    simpl in *. destruct (device_of_located r1 Hl) as [d [Hd [Hud _]]].
    rewrite Hd in *. simpl in *.
    assert (Hkd : device_key d = u) by (inversion Hk; assumption).
    assert (Hk' : Forall (fun d => device_key d = u) (flat_map device_of rs'))
      by (inversion Hk; assumption).
    rewrite Hkd.
    rewrite (firsts_all_seen _ [u] u); [|simpl; auto|exact Hk'].
    exists d. split; [reflexivity|]. split; [congruence|].
    intros r2 rs2 E. injection E as <- <-. exact Hd. }
  split; [|split].
  - destruct (one (r0 :: rest)) as [d [H1 [H2 H3]]]; [discriminate|exact Hall|].
    exists d. repeat split; auto. now apply (H3 r0 rest).
  - intros replies' Hp.
    destruct (one replies') as [d [H1 [H2 _]]].
    + intros ->. apply Permutation_sym, Permutation_nil in Hp. discriminate.
    + rewrite Forall_forall in *. intros x Hx. apply Hall.
      eapply Permutation_in; [apply Permutation_sym; exact Hp|exact Hx].
    + exists d. auto.
  - intros replies found. rewrite discover_firsts. fold found.
    split; [apply firsts_subseq|].
    split.
    { rewrite <- (map_ext _ _ device_key_spec). apply firsts_nodup. }
    split.
    + intros d Hd.
      destruct (firsts_cover found [] d Hd) as [[]|[d' [H1 H2]]].
      exists d'. split; [exact H1|].
      rewrite <- !device_key_spec. exact H2.
    + intros d Hd.
      destruct (firsts_first_seen found [] d Hd) as [l1 [l2 [E H]]].
      exists l1, l2. split; [exact E|].
      intros x Hx. rewrite <- !device_key_spec. now apply H.
Qed.

End UniqueDevices.

Section UniqueDevicesWitness.
Import Discovery DiscoverySpec Samples.

(** Two replies with one USN, their LOCATION differing in the query. *)
Lemma discover_one_device_per_usn_witness :
  exists d, discover [replyA; replyB] = [d] /\ usn d = usn1
            /\ device_of replyA = [d].
Proof.
  apply (discover_one_device_per_usn usn1 replyA [replyB]).
  - discriminate.
  - repeat constructor; vm_compute; congruence.
Defined.
End UniqueDevicesWitness.

(* ===================================================================== *)
(** * Discovery: the rewrite of LOCATION                                  *)
(* ===================================================================== *)

Section AddressCorrection.
Import Discovery DiscoverySpec UrlParse.

(** C1, evaluated. A device at 192.168.1.20 announces
    [http://nas/nas/desc.xml]: the location returned has the source
    address as its host, and its path is no longer the announced one,
    because the authority text is replaced wherever it occurs in the
    URL. A device announcing [http://MyNAS:8200/rootDesc.xml] keeps its
    location, host included, because the host is looked for in lower
    case. *)
Theorem discover_rewrite_not_host_only :
  (exists d,
      discover [(ssdp_reply "http://nas/nas/desc.xml" "uuid:1",
                 ("192.168.1.20", 1900%Z))] = [d]
      /\ location d = "http://192.168.1.20/192.168.1.20/desc.xml"
      /\ option_map path (match urlparse "http://nas/nas/desc.xml" with
                          | Ok p => Some p | Raise _ => None end)
         = Some "/nas/desc.xml"
      /\ option_map path (match urlparse (location d) with
                          | Ok p => Some p | Raise _ => None end)
         = Some "/192.168.1.20/desc.xml")
  /\ (exists d,
      discover [(ssdp_reply "http://MyNAS:8200/rootDesc.xml" "uuid:2",
                 ("192.168.1.20", 1900%Z))] = [d]
      /\ host d = "192.168.1.20"
      /\ location d = "http://MyNAS:8200/rootDesc.xml"
      /\ match urlparse (location d) with
         | Ok p => hostname p
         | Raise _ => None
         end = Some "mynas").
Proof.
  split; eexists; (split; [vm_compute; reflexivity|]);
    vm_compute; repeat split; reflexivity.
Qed.

(** Where the rewrite does what it is meant to: the host occurs once in
    the URL. *)
Example rewrite_location_docker :
  rewrite_location "http://172.17.0.2:8096/dlna/desc.xml?x=1#top" "192.168.0.2"
  = "http://192.168.0.2:8096/dlna/desc.xml?x=1#top".
Proof. reflexivity. Qed.

End AddressCorrection.

(* ===================================================================== *)
(** * SOAP envelopes: escaping of the argument values                     *)
(* ===================================================================== *)

Section Escaping.
Import Dlna Xml EscapeSpec SampleEnv SampleResults.



Lemma replace_one_char (a : ascii) (new s : string) :
  replace s (String a EmptyString) new = concat_map (replace_char a new) s.
Proof.
  unfold replace.
  induction s as [|c r IH]; simpl; [reflexivity|].
  unfold replace_char at 1.
  destruct (ascii_dec a c) as [->|Hne].
  - rewrite prefix_empty, Ascii.eqb_refl. now rewrite IH.
  - replace (Ascii.eqb c a) with false.
    + simpl. now rewrite IH.
    + symmetry. apply Ascii.eqb_neq. congruence.
Qed.







(** With the ContentDirectory URL known, [browse] sends one request,
    the POST of [browse_soap_body]. *)
Lemma browse_request {env : Env} (object_id : string) (start_index count : Z)
    (st : State) :
  truthy_opt (_content_directory_url (self st)) = true ->
  sent (snd (browse object_id start_index count st))
  = (sent st ++
     [POST (text_of (_content_directory_url (self st)))
           (soap_headers CONTENT_DIRECTORY "Browse")
           (browse_soap_body object_id start_index count)])%list.
Proof.
  intros H. unfold browse, bind, get_self, when, http, ret, raise, lift.
  rewrite H. cbv beta iota zeta. cbn [negb self sent].
  rewrite H. cbv beta iota zeta. cbn [negb self sent].
  destruct (network _ _) as [status body|]; [|reflexivity].
  cbv beta iota zeta.
  destruct (negb (status =? 200)%Z); reflexivity.
Qed.

(** C2, evaluated. [browse] puts its object id between the [ObjectID]
    tags as it is: for the id [Rock & Pop] the content of the element,
    in the body that is posted, is not well-formed character data.
    [search] and [set_av_transport_uri], given the same text, insert its
    escaped form. *)
Theorem browse_object_id_not_escaped :
  element_text "ObjectID" (browse_soap_body "Rock & Pop" 0 100)
    = Some "Rock & Pop"
  /\ chardata_ok "Rock & Pop" = false
  /\ sent (snd (browse (env := sample_env "2") "Rock & Pop" 0 100
                  resolved_server))
     = [GET server_location;
        POST "http://192.168.0.2:8096/dlna/cd/control"
             (soap_headers CONTENT_DIRECTORY "Browse")
             (browse_soap_body "Rock & Pop" 0 100)]
  /\ element_text "SearchCriteria" (search_soap_body "Rock & Pop" 0 50)
    = Some "Rock &amp; Pop"
  /\ element_text "CurrentURI"
       (set_av_transport_uri_soap_body "Rock & Pop" "<Rock & Pop>")
    = Some "Rock &amp; Pop"
  /\ element_text "CurrentURIMetaData"
       (set_av_transport_uri_soap_body "Rock & Pop" "<Rock & Pop>")
    = Some "&lt;Rock &amp; Pop&gt;".
Proof. repeat split; vm_compute; reflexivity. Qed.

End Escaping.

(* ===================================================================== *)
(** * Description resolution                                              *)
(* ===================================================================== *)

Section Resolution.
Import Dlna DlnaSpec ET UrlParse.
Context {env : Env}.
Local Open Scope dlna_scope.

Lemma initialize_known (st : State) :
  truthy_opt (_content_directory_url (self st)) = true ->
  initialize st = (Ok tt, st).
Proof.
  intros H. unfold initialize, bind, get_self. now rewrite H.
Qed.


(** What [initialize] does when the ContentDirectory URL is not known:
    one GET, then the outcome by cases. *)
Lemma initialize_unknown (st : State) :
  truthy_opt (_content_directory_url (self st)) = false ->
  initialize st =
  match network (sent st) (GET (location (self st))) with
  | NoResponse => (Raise ClientError, mkState (self st) (fetched st))
  | Response status xml =>
      if negb (status =? 200)%Z
      then (Raise (Exception ("Failed to fetch description: " ++ str_of_int status)),
            mkState (self st) (fetched st))
      else
        match fromstring xml with
        | None => (Raise ParseError, mkState (self st) (fetched st))
        | Some root =>
            match urlparse (location (self st)) with
            | Raise e => (Raise e, mkState (named root (self st)) (fetched st))
            | Ok params =>
                (Ok tt, mkState (resolved root params (self st)) (fetched st))
            end
        end
  end.
Proof.
  intros H.
  unfold initialize, bind, get_self, http, fetched, parse_xml, ret, raise,
    when, modify_self, lift, resolved, based, named.
  rewrite H. cbv beta iota zeta.
  destruct (network _ _) as [status xml|]; [|reflexivity].
  cbv beta iota zeta.
  destruct (negb (status =? 200)%Z); [reflexivity|].
  destruct (fromstring xml) as [root|]; [|reflexivity].
  cbv beta iota zeta.
  destruct (find_descendant (UPNP_DEVICE_NS ++ "friendlyName") root) as [n|];
    [|destruct (find_descendant "friendlyName" root) as [n|]];
    try destruct (has_text n); cbv beta iota zeta;
    (destruct (urlparse _) as [params|e]; [|reflexivity]);
    cbv beta iota zeta;
    (destruct (find_descendant (UPNP_DEVICE_NS ++ "URLBase") root) as [m|];
     [destruct (has_text m)|]); reflexivity.
Qed.

(** A successful call that had to fetch got a 200 answer, parsed it, and
    left the resolved object. *)
Lemma initialize_ok_inv (st st1 : State) :
  truthy_opt (_content_directory_url (self st)) = false ->
  initialize st = (Ok tt, st1) ->
  exists xml root params,
    network (sent st) (GET (location (self st))) = Response 200 xml
    /\ fromstring xml = Some root
    /\ urlparse (location (self st)) = Ok params
    /\ st1 = mkState (resolved root params (self st)) (fetched st).
Proof.
  intros H. rewrite (initialize_unknown st H).
  destruct (network _ _) as [status xml|]; [|discriminate].
  destruct (status =? 200)%Z eqn:E; simpl; [|discriminate].
  apply Z.eqb_eq in E. subst status.
  destruct (fromstring xml) as [root|] eqn:F; [|discriminate].
  destruct (urlparse _) as [params|e]; [|discriminate].
  intros [= <-]. now exists xml, root, params.
Qed.

(** C4. After a call of [initialize] that succeeded and left a
    ContentDirectory URL, another call returns at once: same object, no
    request. When the URL was not known before the first call, the two
    calls together send exactly one request, the GET of the
    description. *)
Theorem initialize_idempotent (st st1 : State) :
  initialize st = (Ok tt, st1) ->
  truthy_opt (_content_directory_url (self st1)) = true ->
  initialize st1 = (Ok tt, st1)
  /\ (truthy_opt (_content_directory_url (self st)) = false ->
      sent st1 = (sent st ++ [GET (location (self st))])%list
      /\ (initialize ;; initialize) st = (Ok tt, st1)).
Proof.
  intros H1 H2. split; [now apply initialize_known|].
  intros H0. split.
  - destruct (initialize_ok_inv st st1 H0 H1) as [xml [root [params [_ [_ [_ ->]]]]]].
    reflexivity.
  - unfold bind. rewrite H1. now apply initialize_known.
Qed.


(** ** What the resolution steps keep *)

Lemma truthy_append_r (a b : string) : truthy b = true -> truthy (a ++ b) = true.
Proof. destruct a; simpl; auto. Qed.

Lemma normalize_truthy (base ctrl : string) :
  truthy ctrl = true -> truthy (normalize_control_url base ctrl) = true.
Proof.
  intros H. unfold normalize_control_url.
  destruct (negb _); [|exact H].
  destruct (startswith ctrl "/"); repeat apply truthy_append_r; exact H.
Qed.

Lemma truthy_text_of (o : option string) :
  truthy (text_of o) = truthy_opt o.
Proof. destruct o; reflexivity. Qed.

(** One service element: the object is unchanged, or one of its two
    URLs is set to a non-empty text. *)
Lemma service_step_cases (c : DlnaClient) (elem : Element) :
  service_step c elem = c
  \/ (exists u, truthy u = true
                /\ service_step c elem = set_content_directory_url c (Some u))
  \/ (exists u, truthy u = true
                /\ service_step c elem = set_av_transport_url c (Some u)).
Proof.
  unfold service_step.
  destruct (endswith (ET.tag elem) "service"); [|now left].
  destruct (fold_left _ _ _) as [st_text ctrl_text].
  destruct (truthy_opt st_text); simpl; [|now left].
  destruct (truthy_opt ctrl_text) eqn:Hc; simpl; [|now left].
  assert (Ht : truthy (normalize_control_url (_base_url c) (text_of ctrl_text)) = true)
    by (apply normalize_truthy; now rewrite truthy_text_of).
  destruct (contains "ContentDirectory" _); [right; left; eauto|].
  destruct (contains "AVTransport" _); [right; right; eauto|now left].
Qed.

Lemma services_base_url (l : list Element) :
  forall c, _base_url (fold_left service_step l c) = _base_url c
            /\ location (fold_left service_step l c) = location c
            /\ _friendly_name (fold_left service_step l c) = _friendly_name c.
Proof.
  induction l as [|e l IH]; intros c; simpl; [auto|].
  destruct (IH (service_step c e)) as [H1 [H2 H3]].
  rewrite H1, H2, H3.
  destruct (service_step_cases c e) as [->|[[u [_ ->]]|[u [_ ->]]]]; auto.
Qed.

Lemma services_keep_av_transport (l : list Element) :
  forall c, truthy_opt (_av_transport_url c) = true ->
            truthy_opt (_av_transport_url (fold_left service_step l c)) = true.
Proof.
  induction l as [|e l IH]; intros c H; simpl; [exact H|].
  apply IH.
  destruct (service_step_cases c e) as [->|[[u [_ ->]]|[u [Hu ->]]]];
    simpl; auto.
Qed.

(** A walk over the services that ends without an AVTransport URL has
    not touched that field. *)
Lemma services_no_av_transport (l : list Element) :
  forall c, truthy_opt (_av_transport_url (fold_left service_step l c)) = false ->
            _av_transport_url (fold_left service_step l c) = _av_transport_url c.
Proof.
  induction l as [|e l IH]; intros c H; simpl in *; [reflexivity|].
  rewrite (IH _ H).
  destruct (service_step_cases c e) as [->|[[u [_ ->]]|[u [Hu E]]]];
    try reflexivity.
  rewrite services_keep_av_transport in H; [discriminate|].
  rewrite E. exact Hu.
Qed.

Lemma based_named_av_transport (root : Element) (params : ParseResult)
    (c : DlnaClient) :
  _av_transport_url (based root params (named root c)) = _av_transport_url c.
Proof.
  unfold based, named.
  case_matches; reflexivity.
Qed.

Lemma find_none_iff {A} (f : A -> bool) (l : list A) :
  (forall x, In x l -> f x = false) -> List.find f l = None.
Proof.
  intros H. destruct (List.find f l) as [x|] eqn:E; [|reflexivity].
  apply find_some in E. destruct E as [Hin Hf].
  rewrite (H x Hin) in Hf. discriminate.
Qed.

(** C5, amended. The description was fetched and parsed and
    [initialize] succeeded. If no element of the document is a URLBase
    element, with or without name space, the base URL is the scheme and
    the authority of the location, joined by [://]. If the document has
    a URLBase element in the UPnP device name space, the first of them
    decides: a non-empty text gives the base URL, which is that text
    without the slashes at its end; no text gives the scheme and
    authority of the location again. *)
Theorem base_url_of_description
    (st st1 : State) (xml : string) (root : Element) :
  truthy_opt (_content_directory_url (self st)) = false ->
  network (sent st) (GET (location (self st))) = Response 200 xml ->
  fromstring xml = Some root ->
  initialize st = (Ok tt, st1) ->
  exists params,
    urlparse (location (self st)) = Ok params
    /\ ((forall e, In e (iter root) -> local_name (ET.tag e) <> "URLBase") ->
        _base_url (self st1) = scheme params ++ "://" ++ netloc params)
    /\ (forall n,
          find_descendant (UPNP_DEVICE_NS ++ "URLBase") root = Some n ->
          match text n with
          | Some (String c r) =>
              _base_url (self st1) = rstrip_char "/" (String c r)
              /\ (exists k, String c r = _base_url (self st1) ++ repeat_char "/" k)
              /\ endswith (_base_url (self st1)) "/" = false
          | _ => _base_url (self st1) = scheme params ++ "://" ++ netloc params
          end).
Proof.
  intros H0 Hnet Hparse Hinit.
  destruct (initialize_ok_inv st st1 H0 Hinit)
    as [xml' [root' [params [Hnet' [Hparse' [Hurl ->]]]]]].
  rewrite Hnet in Hnet'. injection Hnet' as <-.
  rewrite Hparse in Hparse'. injection Hparse' as <-.
  exists params. split; [exact Hurl|].
  cbn [self]. unfold resolved.
  destruct (services_base_url (iter root) (based root params (named root (self st))))
    as [-> _].
  split.
  - intros Hno. unfold based, find_descendant.
    rewrite (find_none_iff _ (List.tl (iter root))); [reflexivity|].
    intros x Hx. apply String.eqb_neq. intros Htag.
    apply (Hno x).
    + destruct (iter root); [destruct Hx|now right].
    + rewrite Htag. reflexivity.
  - intros n Hn. unfold based. rewrite Hn. unfold has_text.
    destruct (text n) as [[|c r]|]; simpl; try reflexivity.
    destruct (rstrip_char_spec "/" (String c r)) as [k [Hk He]].
    split; [reflexivity|]. split; [|exact He].
    exists k. exact Hk.
Qed.

End Resolution.

Section ResolutionSamples.
Import Dlna DlnaSpec ET UrlParse SampleEnv SampleResults.
Local Open Scope dlna_scope.


Lemma initialize_idempotent_witness :
  initialize (env := sample_env "2") (fresh server_location)
    = (Ok tt, resolved_server)
  /\ initialize (env := sample_env "2") resolved_server = (Ok tt, resolved_server)
  /\ sent resolved_server = [GET server_location].
Proof.
  assert (H1 : initialize (env := sample_env "2") (fresh server_location)
               = (Ok tt, resolved_server)) by (vm_compute; reflexivity).
  destruct (initialize_idempotent (env := sample_env "2")
              (fresh server_location) resolved_server H1 eq_refl) as [H2 H3].
  destruct (H3 eq_refl) as [H4 _].
  split; [exact H1|]. split; [exact H2|exact H4].
Defined.

(** The device with [<URLBase>http://192.168.0.9:49152/</URLBase>]. *)
Lemma base_url_of_description_witness :
  _base_url (self resolved_based) = rstrip_char "/" "http://192.168.0.9:49152/"
  /\ endswith (_base_url (self resolved_based)) "/" = false.
Proof.
  destruct (base_url_of_description (env := sample_env "2")
              (fresh based_location) resolved_based based_xml based_tree
              eq_refl eq_refl eq_refl)
    as [params [_ [_ H]]]; [vm_compute; reflexivity|].
  specialize (H (leaf (ns "URLBase") "http://192.168.0.9:49152/") eq_refl).
  simpl in H. destruct H as [H1 [_ H2]]. split; [exact H1|exact H2].
Defined.

(** C5 as stated fails on a document whose URLBase element is empty:
    the base URL is taken from the location, it is not the (empty) text
    of the element. *)
Lemma base_url_empty_urlbase_counterexample :
  exists st1 n,
    initialize (env := sample_env "2") (fresh unbased_location) = (Ok tt, st1)
    /\ fromstring (Env := sample_env "2") unbased_xml = Some unbased_tree
    /\ find_descendant (UPNP_DEVICE_NS ++ "URLBase") unbased_tree = Some n
    /\ text n = None
    /\ _base_url (self st1) = "http://192.168.0.7:8200"
    /\ _base_url (self st1) <> rstrip_char "/" (text_of (text n)).
Proof.
  eexists. eexists.
  split; [vm_compute; reflexivity|].
  split; [vm_compute; reflexivity|].
  split; [vm_compute; reflexivity|].
  split; [reflexivity|].
  split; [reflexivity|].
  vm_compute. discriminate.
Qed.

End ResolutionSamples.

(* ===================================================================== *)
(** * SetAVTransportURI on a device without AVTransport                   *)
(* ===================================================================== *)

Section MissingTransport.
Import Dlna DlnaSpec ET UrlParse.
Context {env : Env}.
Local Open Scope dlna_scope.


(** C10, amended. The AVTransport URL is not known, the resolution that
    the call triggers succeeds and leaves it unknown: the call raises,
    and the state it leaves is the state the resolution left. No POST is
    sent: the log grew by the GET of the description, or not at all.
    The AVTransport URL and the location are what they were; so is the
    whole object when the ContentDirectory URL was known before the
    call. *)
Theorem set_av_transport_uri_without_service
    (st st1 : State) (uri metadata : string) :
  truthy_opt (_av_transport_url (self st)) = false ->
  initialize st = (Ok tt, st1) ->
  truthy_opt (_av_transport_url (self st1)) = false ->
  set_av_transport_uri uri metadata st = (Raise NO_AV_TRANSPORT, st1)
  /\ (sent st1 = sent st
      \/ sent st1 = (sent st ++ [GET (location (self st))])%list)
  /\ _av_transport_url (self st1) = _av_transport_url (self st)
  /\ location (self st1) = location (self st)
  /\ (truthy_opt (_content_directory_url (self st)) = true -> st1 = st).
Proof.
  intros H0 Hinit H1.
  split.
  { unfold set_av_transport_uri, bind, get_self, when.
    rewrite H0. simpl. rewrite Hinit. now rewrite H1. }
  destruct (truthy_opt (_content_directory_url (self st))) eqn:Hcd.
  - rewrite (initialize_known st Hcd) in Hinit. injection Hinit as <-.
    repeat split; auto.
  - destruct (initialize_ok_inv st st1 Hcd Hinit)
      as [xml [root [params [_ [_ [_ ->]]]]]].
    cbn [self sent] in *. unfold resolved in *.
    split; [now right|]. split; [|split; [|discriminate]].
    + rewrite (services_no_av_transport _ _ H1).
      apply based_named_av_transport.
    + destruct (services_base_url (iter root)
                  (based root params (named root (self st)))) as [_ [-> _]].
      unfold based, named.
      case_matches; reflexivity.
Qed.

End MissingTransport.

Section MissingTransportSamples.
Import Dlna DlnaSpec ET UrlParse SampleEnv SampleResults.

Lemma set_av_transport_uri_without_service_witness :
  set_av_transport_uri (env := sample_env "2") "http://192.168.0.2/a.mp3"
    EmptyString (fresh server_location)
  = (Raise NO_AV_TRANSPORT, resolved_server).
Proof.
  apply (set_av_transport_uri_without_service (env := sample_env "2")
           (fresh server_location) resolved_server);
    vm_compute; reflexivity.
Defined.

(** C10 as stated fails on a new client for a device that has a
    ContentDirectory and no AVTransport: the call raises, and it leaves
    the name, the base URL and the ContentDirectory URL that the
    resolution found. *)
Lemma set_av_transport_uri_changes_state_counterexample :
  exists st1,
    initialize (env := sample_env "2") (fresh server_location) = (Ok tt, st1)
    /\ _av_transport_url (self st1) = None
    /\ set_av_transport_uri (env := sample_env "2") "http://192.168.0.2/a.mp3"
         EmptyString (fresh server_location)
       = (Raise NO_AV_TRANSPORT, st1)
    /\ _content_directory_url (self (fresh server_location)) = None
    /\ _content_directory_url (self st1)
       = Some "http://192.168.0.2:8096/dlna/cd/control"
    /\ self st1 <> self (fresh server_location).
Proof.
  exists resolved_server.
  repeat split; try (vm_compute; reflexivity).
  vm_compute. discriminate.
Qed.

End MissingTransportSamples.

(* ===================================================================== *)
(** * Control URLs                                                        *)
(* ===================================================================== *)

Section ControlUrl.
Import Dlna DlnaSpec ET UrlParse SampleEnv SampleResults.


(** The loop over the children of a service stores texts that are not
    empty. *)
Lemma service_child_step_truthy (acc : option string * option string)
    (child : Element) :
  (forall s, fst acc = Some s -> s <> EmptyString) ->
  (forall s, snd acc = Some s -> s <> EmptyString) ->
  (forall s, fst (service_child_step acc child) = Some s -> s <> EmptyString)
  /\ (forall s, snd (service_child_step acc child) = Some s -> s <> EmptyString).
Proof.
  destruct acc as [a b]. unfold service_child_step, has_text. simpl.
  intros Ha Hb.
  destruct (endswith (ET.tag child) "serviceType");
    destruct (endswith (ET.tag child) "controlURL");
    destruct (text child) as [[|c r]|]; simpl; split; auto;
    intros s [= <-]; discriminate.
Qed.

Lemma service_texts_truthy (elem : Element) (st_text ctrl : string) :
  service_texts elem = (Some st_text, Some ctrl) ->
  st_text <> EmptyString /\ ctrl <> EmptyString.
Proof.
  unfold service_texts.
  assert (H : forall l acc,
             (forall s, fst acc = Some s -> s <> EmptyString) ->
             (forall s, snd acc = Some s -> s <> EmptyString) ->
             (forall s, fst (fold_left service_child_step l acc) = Some s ->
                        s <> EmptyString)
             /\ (forall s, snd (fold_left service_child_step l acc) = Some s ->
                           s <> EmptyString)).
  { induction l as [|x l IH]; intros acc Ha Hb; simpl; [auto|].
    destruct (service_child_step_truthy acc x Ha Hb) as [Ha' Hb'].
    now apply IH. }
  intros E.
  destruct (H (children elem) (None, None)) as [H1 H2];
    try (intros s; simpl; discriminate).
  rewrite E in H1, H2. split; [now apply H1|now apply H2].
Qed.




End ControlUrl.

(* ===================================================================== *)
(** * The DIDL-Lite decoder                                               *)
(* ===================================================================== *)

Section Decoder.
Import Dlna DlnaSpec ET UrlParse.
Context {env : Env}.









(** What [_parse_didl_result] does once the response is parsed. *)
Lemma parse_didl_result_cases (response_xml : string) (root : Element) :
  fromstring response_xml = Some root ->
  _parse_didl_result response_xml =
  match fst (scan_response root) with
  | Some node =>
      match text node with
      | Some (String c r) =>
          match fromstring (String c r) with
          | Some didl_root =>
              Ok (parse_entries didl_root, snd (scan_response root))
          | None => Raise ParseError
          end
      | _ => Ok ([], 0%Z)
      end
  | None => Ok ([], 0%Z)
  end.
Proof.
  intros H. unfold _parse_didl_result. rewrite H.
  destruct (scan_response root) as [[node|] total]; reflexivity.
Qed.





End Decoder.

Section DecoderSamples.
Import Dlna DlnaSpec ET UrlParse SampleEnv SampleResults.


(** An item without a title child, and one whose title has no text. *)
Example untitled_entries :
  option_map title (parse_entry (Elem (DIDL "item") [("id", "7")] None
                                   [leaf (UPNP "class") "object.item"]))
    = Some "Unknown"
  /\ option_map title (parse_entry (Elem (DIDL "container") [("id", "8")] None
                                      [Elem (DC "title") [] None []]))
    = Some "Unknown".
Proof. split; reflexivity. Qed.


End DecoderSamples.

(* ===================================================================== *)
(** * The search tool                                                     *)
(* ===================================================================== *)

Section SearchTool.
Import Dlna Server SampleEnv SampleResults.

(** The filter loop of [search_media_server] runs over the pair that
    [search] returns: its first element is the list of entries, which has
    no title. *)
Lemma filter_loop_on_pair (q : string) (r : list BrowsedItem * Z) :
  filter_loop q (iter_tuple r) []
  = Raise (AttributeError "'list' object has no attribute 'title'").
Proof. reflexivity. Qed.

(** Whatever the server, the location and the query, the tool ends in
    its [except] branch. *)
Lemma search_media_server_always_fails {env : Env}
    (location query : string) (g : Global) :
  exists cause,
    fst (search_media_server location query g) = Failed (SearchFailed cause).
Proof.
  unfold search_media_server.
  destruct (call location _ g) as [[raw_items|e] g'].
  - rewrite filter_loop_on_pair. eexists. reflexivity.
  - eexists. reflexivity.
Qed.

(** C9, evaluated. The server answers the search for [jazz] with its
    two tracks. [search] decodes them; the filter of the specification
    keeps the one whose title contains the query; the tool fails with
    the attribute error of the loop and returns nothing.
    [browse_media_server], which unpacks the pair, returns the
    entries. *)
Theorem search_media_server_fails_on_pair :
  fst (search (env := sample_env "2")
         ("dc:title contains " ++ dq ++ "jazz" ++ dq) 0 500
         (fresh server_location))
    = Ok (sample_entries, 2%Z)
  /\ spec_post_filter "jazz" sample_entries = [jazz_entry]
  /\ fst (search_media_server (env := sample_env "2") server_location "jazz"
            (mkGlobal [] []))
     = Failed (SearchFailed
                 (AttributeError "'list' object has no attribute 'title'"))
  /\ fst (browse_media_server (env := sample_env "2") server_location "0" 0
            (mkGlobal [] []))
     = Returned (JsonBrowse sample_entries 2%Z).
Proof. repeat split; vm_compute; reflexivity. Qed.

End SearchTool.
Example replace_ex : replace "banana" "an" "AN" = "bANANa". Proof. reflexivity. Qed.
Example replace_ex2 : replace "aaa" "aa" "b" = "ba". Proof. reflexivity. Qed.
Example split_ex : split ("a" ++ CRLF ++ "b" ++ CRLF) CRLF = ["a"; "b"; EmptyString]. Proof. reflexivity. Qed.
Example endswith_ex : endswith "{urn:x}service" "service" = true. Proof. reflexivity. Qed.
Example int_ex : int " 1_000 " = Some 1000%Z /\ int "12a" = None /\ int "-7" = Some (-7)%Z /\ int "1__0" = None /\ int "_1" = None.
Proof. repeat split; reflexivity. Qed.
Example str_of_int_ex : str_of_int 500 = "500" /\ str_of_int 0 = "0" /\ str_of_int (-3) = "-3". Proof. repeat split; reflexivity. Qed.
Example rstrip_ex : rstrip_char "/" "http://h:80//" = "http://h:80". Proof. reflexivity. Qed.
Example rpart_ex : rpartition "@" "u@p@h" = ("u@p", true, "h"). Proof. reflexivity. Qed.
Example strip_ex : strip "  a b  " = "a b". Proof. reflexivity. Qed.
Example lower_ex : lower "MyNAS.Local:80" = "mynas.local:80". Proof. reflexivity. Qed.
Example urlparse_ex :
  UrlParse.urlparse "HTTP://User@MyNas:8200/a/b;p?q=1#f"
  = Ok (UrlParse.mkParseResult "http" "User@MyNas:8200" "/a/b" "p" "q=1" "f").
Proof. reflexivity. Qed.
Example escape_ex : Html.escape "a&b<c>" = "a&amp;b&lt;c&gt;". Proof. reflexivity. Qed.

Module DiscoveryExamples.
Import Discovery Samples.

Example parse_headers_ex :
  _parse_headers reply1 =
  [("LOCATION", "http://172.17.0.2:8096/dlna/desc.xml");
   ("USN", "uuid:abc::urn:schemas-upnp-org:device:MediaServer:1");
   ("SERVER", "Jellyfin")].
Proof. reflexivity. Qed.

Example discover_ex :
  discover [(reply1, ("192.168.0.2", 1900%Z)); (reply1, ("192.168.0.2", 1900%Z))] =
  [mkDevice "192.168.0.2" "http://192.168.0.2:8096/dlna/desc.xml"
     "uuid:abc::urn:schemas-upnp-org:device:MediaServer:1" "Jellyfin" "Jellyfin"
     "UPnP Device (192.168.0.2)"].
Proof. reflexivity. Qed.

Example rewrite_bad1 :
  rewrite_location "http://nas/nas/desc.xml" "192.168.1.20" = "http://192.168.1.20/192.168.1.20/desc.xml".
Proof. reflexivity. Qed.
Example rewrite_bad2 :
  rewrite_location "http://MyNAS:8200/rootDesc.xml" "192.168.1.20" = "http://MyNAS:8200/rootDesc.xml".
Proof. reflexivity. Qed.
End DiscoveryExamples.

Module DlnaExamples.
Import Dlna SampleEnv.

Example initialize_server :
  initialize (env := sample_env "2") (fresh server_location)
  = (Ok tt,
     mkState (mkDlnaClient server_location
                (Some "http://192.168.0.2:8096/dlna/cd/control") None
                "Jellyfin" "http://192.168.0.2:8096")
             [GET server_location]).
Proof. vm_compute. reflexivity. Qed.

Example initialize_based :
  option_map (fun st => (_base_url (self st), _content_directory_url (self st)))
    (Some (snd (initialize (env := sample_env "2") (fresh based_location))))
  = Some ("http://192.168.0.9:49152", Some "http://192.168.0.9:49152/cd/control").
Proof. vm_compute. reflexivity. Qed.

Example search_sample :
  fst (search (env := sample_env "2") "x" 0 500 (fresh server_location))
  = Ok ([mkBrowsedItem "1" "0" "Smooth Jazz" (Some "object.item.audioItem.musicTrack")
           false None None (Some "Quartet") None;
         mkBrowsedItem "2" "0" "Rock Anthem" (Some "object.item.audioItem.musicTrack")
           false None None (Some "Band") None], 2%Z).
Proof. vm_compute. reflexivity. Qed.

Example search_sample_bad_count :
  option_map snd
    (match fst (search (env := sample_env "many") "x" 0 500 (fresh server_location)) with
     | Ok r => Some r | Raise _ => None end)
  = Some 0%Z.
Proof. vm_compute. reflexivity. Qed.
End DlnaExamples.

(* ===================================================================== *)
(** * Further properties: discovery                                       *)
(* ===================================================================== *)

Section DiscoveryMore.
Import Discovery DiscoverySpec Samples MoreSamples DiscoveryMoreSpec UrlParse.

Lemma subseq_in {A} (l1 l2 : list A) (x : A) :
  Subseq l1 l2 -> In x l1 -> In x l2.
Proof.
  induction 1 as [|y l1 l2 _ IH|y l1 l2 _ IH]; simpl; [tauto|auto|].
  intros [->|H]; auto.
Qed.

Lemma firsts_distinct (ds : list Device) :
  forall seen,
    NoDup (map device_key ds) ->
    (forall d, In d ds -> ~ In (device_key d) seen) ->
    firsts seen ds = ds.
Proof.
  induction ds as [|d r IH]; intros seen Hnd Hseen; simpl; [reflexivity|].
  inversion Hnd as [|? ? Hd Hr]; subst.
  destruct (existsb _ seen) eqn:E.
  - apply existsb_key in E. exfalso. apply (Hseen d); simpl; auto.
  - f_equal. apply IH; [exact Hr|].
    intros x Hx Hin. apply in_app_or in Hin. destruct Hin as [Hin|[Hin|[]]].
    + apply (Hseen x); simpl; auto.
    + apply Hd. rewrite Hin. now apply in_map.
Qed.

(** X1. Removing duplicates twice is removing them once. *)
Theorem unique_devices_idempotent (devices : list Device) :
  _unique_devices (_unique_devices devices) = _unique_devices devices.
Proof.
  rewrite !unique_devices_firsts.
  apply firsts_distinct; [apply firsts_nodup|].
  intros d _ [].
Qed.

(** X2. A list of devices with pairwise different keys is returned as
    it is: nothing is dropped, nothing is moved. *)
Theorem unique_devices_distinct_keys (devices : list Device) :
  NoDup (map device_key devices) ->
  _unique_devices devices = devices.
Proof.
  intros H. rewrite unique_devices_firsts.
  apply firsts_distinct; [exact H|]. intros d _ [].
Qed.

Lemma unique_devices_distinct_keys_witness :
  _unique_devices (flat_map device_of [replyA; replyC])
  = flat_map device_of [replyA; replyC].
Proof.
  apply unique_devices_distinct_keys.
  vm_compute. repeat constructor; simpl; intuition discriminate.
Defined.

(** X3. Every device that [discover] returns was built from one of the
    replies, and that reply had a LOCATION: the host of the device is
    the address the reply came from, its USN and server are the headers
    of the reply (the server is [Unknown] without a SERVER header), its
    model repeats the server, its name is made of the host, and its
    location is the rewritten LOCATION. *)
Theorem discover_provenance
    (replies : list (string * (string * Z))) (d : Device) :
  In d (discover replies) ->
  exists r,
    In r replies
    /\ reply_location r <> EmptyString
    /\ host d = fst (snd r)
    /\ usn d = reply_usn r
    /\ server d = header (_parse_headers (fst r)) "SERVER" "Unknown"
    /\ model d = server d
    /\ name d = "UPnP Device (" ++ host d ++ ")"
    /\ location d = rewrite_location (reply_location r) (host d).
Proof.
  rewrite discover_firsts. intros H.
  apply (subseq_in _ _ _ (firsts_subseq _ _)) in H.
  apply in_flat_map in H. destruct H as [r [Hr Hd]].
  exists r. split; [exact Hr|].
  unfold device_of, datagram_received in Hd.
  fold (reply_location r) in Hd. fold (reply_usn r) in Hd.
  destruct (reply_location r) as [|c s] eqn:E; [destruct Hd|].
  cbn [truthy negb app] in Hd. destruct Hd as [<-|[]].
  cbn [host usn server model name location].
  repeat split; try reflexivity. discriminate.
Qed.

Lemma discover_provenance_witness :
  exists r, In r [replyA; replyB]
            /\ host deviceA = fst (snd r) /\ usn deviceA = reply_usn r.
Proof.
  destruct (discover_provenance [replyA; replyB] deviceA)
    as [r [H1 [_ [H2 [H3 _]]]]].
  - vm_compute. left. reflexivity.
  - exists r. auto.
Defined.

(** ** Lines and headers *)

Lemma prefix_cons (a c : ascii) (p r : string) :
  String.prefix (String a p) (String c r)
  = if Ascii.eqb a c then String.prefix p r else false.
Proof.
  change (String.prefix (String a p) (String c r))
    with (if ascii_dec a c then String.prefix p r else false).
  destruct (ascii_dec a c) as [->|Hne].
  - now rewrite Ascii.eqb_refl.
  - apply Ascii.eqb_neq in Hne. now rewrite Hne.
Qed.

Lemma has_char_cons (c a : ascii) (r : string) :
  has_char c (String a r) = false ->
  Ascii.eqb c a = false /\ has_char c r = false.
Proof.
  simpl. rewrite Ascii.eqb_sym. now intros H%orb_false_iff.
Qed.


Lemma split_last_line (line : string) :
  forall cur,
    has_char CR line = false ->
    split_from CRLF 0 cur line = [rev cur ++ line].
Proof.
  induction line as [|c line IH]; intros cur H.
  - simpl. now rewrite str_app_empty_r.
  - apply has_char_cons in H. destruct H as [Hc Hl].
    cbn [split_from]. unfold CRLF at 1. rewrite prefix_cons, Hc.
    fold CRLF. rewrite (IH (String c cur) Hl).
    now rewrite str_rev_cons, str_app_assoc.
Qed.


(** X4. A datagram that has no CR at all, so none of the line ends the
    parser looks for, carries no header for it, and is ignored. *)
Theorem datagram_without_crlf_ignored
    (device_list : list Device) (message : string) (addr : string * Z) :
  has_char CR message = false ->
  _parse_headers message = []
  /\ datagram_received device_list message addr = device_list.
Proof.
  intros H.
  assert (E : _parse_headers message = []).
  { unfold _parse_headers, split. now rewrite split_last_line. }
  split; [exact E|]. unfold datagram_received. now rewrite E.
Qed.

Lemma datagram_without_crlf_ignored_witness :
  datagram_received [] lf_reply ("192.168.0.2", 1900%Z) = [].
Proof.
  apply (datagram_without_crlf_ignored [] lf_reply ("192.168.0.2", 1900%Z)).
  vm_compute. reflexivity.
Defined.

Lemma dict_get_set_same {V} (d : PyDict.dict V) (k : string) (v : V) :
  PyDict.get (PyDict.set d k v) k = Some v.
Proof.
  induction d as [|[k' v'] d IH]; simpl.
  - now rewrite String.eqb_refl.
  - destruct (String.eqb k' k) eqn:E; simpl; rewrite E; auto.
Qed.

Lemma dict_get_set_other {V} (d : PyDict.dict V) (k k' : string) (v : V) :
  k <> k' -> PyDict.get (PyDict.set d k v) k' = PyDict.get d k'.
Proof.
  intros Hne. induction d as [|[k0 v0] d IH]; simpl.
  - apply String.eqb_neq in Hne. now rewrite Hne.
  - destruct (String.eqb k0 k) eqn:E; simpl.
    + apply String.eqb_eq in E. subst k0.
      apply String.eqb_neq in Hne. now rewrite Hne.
    + destruct (String.eqb k0 k'); auto.
Qed.

Lemma partition_found (c : ascii) (a b : string) :
  has_char c a = false ->
  partition c (a ++ String c b) = (a, true, b).
Proof.
  induction a as [|x a IH]; intros H.
  - simpl. now rewrite Ascii.eqb_refl.
  - apply has_char_cons in H. destruct H as [Hx Ha].
    cbn [append partition]. rewrite Ascii.eqb_sym, Hx. now rewrite IH.
Qed.

Lemma has_char_app (c : ascii) (a b : string) :
  has_char c (a ++ b) = has_char c a || has_char c b.
Proof.
  induction a as [|x a IH]; simpl; [reflexivity|].
  now rewrite IH, orb_assoc.
Qed.






(** ** The rewrite of LOCATION, where it works *)

Lemma ip_char_not (c x : ascii) :
  ip_char c = true -> has_char x "htp:/%" = true -> Ascii.eqb c x = false.
Proof.
  intros Hc Hx. destruct (Ascii.eqb c x) eqn:E; [|reflexivity].
  apply Ascii.eqb_eq in E. subst x.
  destruct c as [[] [] [] [] [] [] [] []]; vm_compute in Hc, Hx;
    discriminate.
Qed.

Lemma authority_char_not (c x : ascii) :
  authority_char c = true -> has_char x "/?#[]@%" = true ->
  Ascii.eqb c x = false.
Proof.
  intros Hc Hx. destruct (Ascii.eqb c x) eqn:E; [|reflexivity].
  apply Ascii.eqb_eq in E. subst x.
  destruct c as [[] [] [] [] [] [] [] []]; vm_compute in Hc, Hx;
    discriminate.
Qed.

Lemma authority_char_plain (c : ascii) :
  authority_char c = true ->
  unsafe_url_byte c = false /\ negb (has_char c "/?#") = true.
Proof.
  destruct c as [[] [] [] [] [] [] [] []]; vm_compute; intros H;
    first [discriminate H | split; reflexivity].
Qed.

Lemma ip_char_lower (c : ascii) : ip_char c = true -> lower_char c = c.
Proof.
  destruct c as [[] [] [] [] [] [] [] []]; vm_compute; intros H;
    first [discriminate H | reflexivity].
Qed.

Lemma all_chars_impl (p q : ascii -> bool) (s : string) :
  (forall c, p c = true -> q c = true) ->
  all_chars p s = true -> all_chars q s = true.
Proof.
  intros H. induction s as [|c s IH]; simpl; [reflexivity|].
  intros [Hc Hs]%andb_true_iff. now rewrite (H c Hc), IH.
Qed.

Lemma all_chars_app (p : ascii -> bool) (a b : string) :
  all_chars p (a ++ b) = all_chars p a && all_chars p b.
Proof.
  induction a as [|c a IH]; simpl; [reflexivity|].
  now rewrite IH, andb_assoc.
Qed.

(** A character that the characters of a text exclude is not in it. *)
Lemma all_chars_absent (p : ascii -> bool) (x : ascii) (s : string) :
  (forall c, p c = true -> Ascii.eqb c x = false) ->
  all_chars p s = true -> has_char x s = false.
Proof.
  intros H. induction s as [|c s IH]; simpl; [reflexivity|].
  intros [Hc Hs]%andb_true_iff. now rewrite (H c Hc), IH.
Qed.

Lemma remove_chars_none (p q : ascii -> bool) (s : string) :
  (forall c, p c = true -> q c = false) ->
  all_chars p s = true -> remove_chars q s = s.
Proof.
  intros H. induction s as [|c s IH]; simpl; [reflexivity|].
  intros [Hc Hs]%andb_true_iff. now rewrite (H c Hc), IH.
Qed.

Lemma remove_chars_app (q : ascii -> bool) (a b : string) :
  remove_chars q (a ++ b) = remove_chars q a ++ remove_chars q b.
Proof.
  induction a as [|c a IH]; simpl; [reflexivity|].
  destruct (q c); simpl; now rewrite IH.
Qed.

Lemma map_chars_id (f : ascii -> ascii) (p : ascii -> bool) (s : string) :
  (forall c, p c = true -> f c = c) ->
  all_chars p s = true -> map_chars f s = s.
Proof.
  intros H. induction s as [|c s IH]; simpl; [reflexivity|].
  intros [Hc Hs]%andb_true_iff. now rewrite (H c Hc), IH.
Qed.

Lemma partition_absent (c : ascii) (s : string) :
  has_char c s = false -> partition c s = (s, false, EmptyString).
Proof.
  induction s as [|a s IH]; [reflexivity|].
  intros H. apply has_char_cons in H. destruct H as [Ha Hs].
  cbn [partition]. rewrite Ascii.eqb_sym, Ha. now rewrite IH.
Qed.

Lemma has_char_rev (c : ascii) (s : string) :
  has_char c (rev s) = has_char c s.
Proof.
  induction s as [|a s IH]; [reflexivity|].
  rewrite str_rev_cons, has_char_app, IH. simpl.
  rewrite orb_false_r. apply orb_comm.
Qed.

Lemma rpartition_absent (c : ascii) (s : string) :
  has_char c s = false -> rpartition c s = (EmptyString, false, s).
Proof.
  intros H. unfold rpartition.
  rewrite partition_absent by now rewrite has_char_rev. reflexivity.
Qed.

Lemma splitnetloc_app (a b : string) :
  all_chars (fun c => negb (has_char c "/?#")) a = true ->
  (b = EmptyString
   \/ exists c r, b = String c r /\ has_char c "/?#" = true) ->
  splitnetloc (a ++ b) = (a, b).
Proof.
  intros Ha Hb. induction a as [|x a IH].
  - destruct Hb as [->|[c [r [-> Hc]]]]; [reflexivity|].
    cbn [append splitnetloc]. now rewrite Hc.
  - cbn [all_chars] in Ha. apply andb_true_iff in Ha. destruct Ha as [Hx Ha].
    cbn [append splitnetloc]. apply negb_true_iff in Hx. rewrite Hx.
    now rewrite (IH Ha).
Qed.

Lemma prefix_app (a b : string) : String.prefix a (a ++ b) = true.
Proof.
  induction a as [|c a IH]; [apply prefix_empty|].
  cbn [append]. now rewrite prefix_cons, Ascii.eqb_refl.
Qed.

(** ** [str.replace] *)

Lemma replace_from_skip (old new x y : string) :
  replace_from old new (String.length x) (x ++ y)
  = replace_from old new 0 y.
Proof.
  induction x as [|c x IH]; [destruct y; reflexivity|].
  cbn [append String.length replace_from]. exact IH.
Qed.

Lemma replace_from_hit (a : ascii) (o new rest : string) :
  replace_from (String a o) new 0 (String a o ++ rest)
  = new ++ replace_from (String a o) new 0 rest.
Proof.
  cbn [append replace_from].
  change (String a (o ++ rest)) with (String a o ++ rest).
  rewrite prefix_app.
  cbn [String.length Nat.sub]. rewrite Nat.sub_0_r.
  now rewrite replace_from_skip.
Qed.

Lemma replace_from_absent (old new s : string) :
  contains old s = false -> replace_from old new 0 s = s.
Proof.
  induction s as [|c s IH]; [reflexivity|].
  cbn [contains]. intros [H1 H2]%orb_false_iff.
  cbn [replace_from]. rewrite H1. now rewrite IH.
Qed.

Lemma replace_from_miss (a c : ascii) (o new r : string) :
  Ascii.eqb a c = false ->
  replace_from (String a o) new 0 (String c r)
  = String c (replace_from (String a o) new 0 r).
Proof.
  intros H. cbn [replace_from]. now rewrite prefix_cons, H.
Qed.

(** X6. The case the rewrite was written for: a LOCATION of the form
    [http://ip:port/path], the address in digits and dots, announced
    from another address. When the announced address does not occur in
    the port and the authority does not occur in the path, the location
    returned is the announced one with the source address in the place
    of the announced address, and nothing else changed. *)
Theorem rewrite_location_ip (ip port path host : string) :
  ip <> EmptyString ->
  all_chars ip_char ip = true ->
  all_chars is_digit port = true ->
  (path = EmptyString \/ startswith path "/" = true) ->
  ip <> host ->
  contains ip port = false ->
  contains (ip ++ ":" ++ port) path = false ->
  rewrite_location ("http://" ++ ip ++ ":" ++ port ++ path) host
  = "http://" ++ host ++ ":" ++ port ++ path.
Proof.
  intros Hne Hip Hport Hpath Hhost Hocc1 Hocc2.
  destruct ip as [|c0 ip']; [congruence|]. clear Hne.
  set (ip := String c0 ip') in *.
  set (nl := ip ++ ":" ++ port).
  assert (Hc0 : ip_char c0 = true)
    by (cbn [all_chars ip] in Hip; now apply andb_true_iff in Hip).
  assert (Hnlc : all_chars authority_char nl = true).
  { assert (A1 : all_chars authority_char ip = true).
    { apply (all_chars_impl ip_char); [|exact Hip].
      unfold authority_char. now intros c ->. }
    assert (A2 : all_chars authority_char port = true).
    { apply (all_chars_impl is_digit); [|exact Hport].
      unfold authority_char, ip_char. now intros c ->. }
    unfold nl. rewrite !all_chars_app, A1, A2. reflexivity. }
  assert (Hnl : forall x, has_char x "/?#[]@%" = true -> has_char x nl = false).
  { intros x Hx. apply (all_chars_absent authority_char); [|exact Hnlc].
    intros c Hc. now apply authority_char_not. }
  assert (Hcolon : has_char ":" ip = false).
  { apply (all_chars_absent ip_char); [|exact Hip].
    intros c Hc. now apply ip_char_not. }
  assert (Hpercent : has_char "%" ip = false).
  { apply (all_chars_absent ip_char); [|exact Hip].
    intros c Hc. now apply ip_char_not. }
  assert (Hlower : lower ip = ip)
    by (apply (map_chars_id _ ip_char); [apply ip_char_lower|exact Hip]).
  assert (Hclean : remove_chars unsafe_url_byte nl = nl).
  { apply (remove_chars_none authority_char); [|exact Hnlc].
    intros c Hc. now destruct (authority_char_plain c Hc). }
  assert (Hslash : all_chars (fun c => negb (has_char c "/?#")) nl = true).
  { apply (all_chars_impl authority_char); [|exact Hnlc].
    intros c Hc. now destruct (authority_char_plain c Hc). }
  set (path' := remove_chars unsafe_url_byte path).
  assert (Hpath' : path' = EmptyString
                   \/ exists c r, path' = String c r /\ has_char c "/?#" = true).
  { destruct Hpath as [->|Hs]; [now left|]. right.
    destruct path as [|p0 pr]; [discriminate|].
    unfold startswith in Hs. rewrite prefix_cons in Hs.
    destruct (Ascii.eqb "/" p0) eqn:E; [|discriminate].
    apply Ascii.eqb_eq in E. subst p0.
    exists "/"%char, (remove_chars unsafe_url_byte pr). split; reflexivity. }
  assert (Hsplit : exists p q f,
             urlsplit ("http://" ++ nl ++ path)
             = Ok (mkParseResult "http" nl p EmptyString q f)).
  { unfold urlsplit.
    change (lstrip_by c0_control_or_space ("http://" ++ nl ++ path))
      with ("http://" ++ nl ++ path).
    change (remove_chars unsafe_url_byte ("http://" ++ nl ++ path))
      with ("http://" ++ remove_chars unsafe_url_byte (nl ++ path)).
    rewrite remove_chars_app, Hclean. fold path'.
    change (split_scheme ("http://" ++ nl ++ path'))
      with ("http", "//" ++ nl ++ path').
    cbv beta iota zeta.
    change (startswith ("//" ++ nl ++ path') "//") with true.
    cbv beta iota zeta.
    change (drop 2 ("//" ++ nl ++ path')) with (nl ++ path').
    rewrite (splitnetloc_app nl path' Hslash Hpath').
    rewrite (Hnl "["%char eq_refl), (Hnl "]"%char eq_refl).
    cbv beta iota zeta. cbn [xorb].
    destruct (split_at "#" path') as [u frag].
    destruct (split_at "?" u) as [u' q].
    now exists u', q, frag. }
  destruct Hsplit as [p [q [f Hsplit]]].
  assert (Hparse : exists parsed,
             urlparse ("http://" ++ nl ++ path) = Ok parsed
             /\ netloc parsed = nl).
  { unfold urlparse. rewrite Hsplit.
    cbn [scheme netloc UrlParse.path query fragment].
    destruct (_ && _); [destruct (splitparams p)|]; eexists; split;
      reflexivity. }
  destruct Hparse as [parsed [Hparse Hnetloc]].
  assert (Hhostname : hostname parsed = Some ip).
  { unfold hostname, hostinfo. rewrite Hnetloc.
    rewrite (rpartition_absent "@" nl (Hnl "@"%char eq_refl)).
    rewrite (partition_absent "[" nl (Hnl "["%char eq_refl)).
    unfold nl. cbn [append].
    rewrite (partition_found ":" ip port Hcolon). cbn [fst].
    unfold ip at 1. fold ip.
    rewrite (partition_absent "%" ip Hpercent).
    rewrite Hlower. cbn [append]. now rewrite str_app_empty_r. }
  unfold rewrite_location.
  replace ("http://" ++ ip ++ ":" ++ port ++ path)
    with ("http://" ++ nl ++ path)
    by (unfold nl; now rewrite !str_app_assoc).
  rewrite Hparse, Hhostname, Hnetloc.
  unfold ip at 1. cbn [truthy andb]. fold ip.
  replace (String.eqb ip host) with false
    by (symmetry; now apply String.eqb_neq).
  cbn [negb].
  assert (Hnew : replace nl ip host = host ++ ":" ++ port).
  { unfold replace, nl, ip. rewrite replace_from_hit.
    rewrite replace_from_absent; [reflexivity|].
    cbn [append contains]. rewrite prefix_cons.
    now rewrite (ip_char_not c0 ":" Hc0 eq_refl). }
  rewrite Hnew.
  assert (Hnl' : nl = String c0 (ip' ++ ":" ++ port)) by reflexivity.
  unfold replace. rewrite Hnl'.
  cbn [append].
  rewrite !(replace_from_miss c0 "h") by exact (ip_char_not c0 "h" Hc0 eq_refl).
  rewrite !(replace_from_miss c0 "t") by exact (ip_char_not c0 "t" Hc0 eq_refl).
  rewrite !(replace_from_miss c0 "p") by exact (ip_char_not c0 "p" Hc0 eq_refl).
  rewrite !(replace_from_miss c0 ":") by exact (ip_char_not c0 ":" Hc0 eq_refl).
  rewrite !(replace_from_miss c0 "/") by exact (ip_char_not c0 "/" Hc0 eq_refl).
  change (String c0 ((ip' ++ String ":" port) ++ path))
    with (String c0 (ip' ++ String ":" port) ++ path).
  rewrite replace_from_hit.
  rewrite replace_from_absent by exact Hocc2.
  cbn [append]. now rewrite !str_app_assoc.
Qed.

Lemma rewrite_location_ip_witness :
  rewrite_location "http://172.17.0.2:8096/dlna/desc.xml" "192.168.0.2"
  = "http://192.168.0.2:8096/dlna/desc.xml".
Proof.
  apply (rewrite_location_ip "172.17.0.2" "8096" "/dlna/desc.xml" "192.168.0.2");
    try reflexivity; try discriminate.
  right. reflexivity.
Defined.

End DiscoveryMore.

(* ===================================================================== *)
(** * Further properties: description resolution                          *)
(* ===================================================================== *)

Section ResolutionMore.
Import Dlna DlnaSpec DlnaMoreSpec ET UrlParse.
Context {env : Env}.
Local Open Scope dlna_scope.

Lemma named_fields (root : Element) (c : DlnaClient) :
  location (named root c) = location c
  /\ _content_directory_url (named root c) = _content_directory_url c
  /\ _av_transport_url (named root c) = _av_transport_url c
  /\ _base_url (named root c) = _base_url c.
Proof. unfold named. case_matches; repeat split; reflexivity. Qed.

Lemma based_fields (root : Element) (params : ParseResult) (c : DlnaClient) :
  location (based root params c) = location c
  /\ _content_directory_url (based root params c) = _content_directory_url c
  /\ _av_transport_url (based root params c) = _av_transport_url c
  /\ _friendly_name (based root params c) = _friendly_name c.
Proof. unfold based. case_matches; repeat split; reflexivity. Qed.

Lemma initialize_cases (st st1 : State) (r : result unit) :
  initialize st = (r, st1) ->
  location (self st1) = location (self st)
  /\ (sent st1 = sent st \/ sent st1 = fetched st)
  /\ (forall e, r = Raise e ->
        sent st1 = fetched st
        /\ _content_directory_url (self st1) = _content_directory_url (self st)
        /\ _av_transport_url (self st1) = _av_transport_url (self st)
        /\ _base_url (self st1) = _base_url (self st)).
Proof.
  destruct (truthy_opt (_content_directory_url (self st))) eqn:Hcd.
  - rewrite (initialize_known st Hcd). intros [= <- <-].
    split; [reflexivity|]. split; [now left|].
    intros e H. discriminate H.
  - rewrite (initialize_unknown st Hcd).
    destruct (network _ _) as [status xml|].
    2:{ intros [= <- <-]. cbn [self sent]. repeat split; auto. }
    destruct (negb (status =? 200)%Z).
    { intros [= <- <-]. cbn [self sent]. repeat split; auto. }
    destruct (fromstring xml) as [root|].
    2:{ intros [= <- <-]. cbn [self sent]. repeat split; auto. }
    destruct (urlparse _) as [params|e0].
    + intros [= <- <-]. cbn [self sent]. unfold resolved.
      destruct (services_base_url (iter root)
                  (based root params (named root (self st)))) as [_ [-> _]].
      destruct (based_fields root params (named root (self st))) as [-> _].
      destruct (named_fields root (self st)) as [-> _].
      split; [reflexivity|]. split; [now right|].
      intros e H. discriminate H.
    + intros [= <- <-]. cbn [self sent].
      destruct (named_fields root (self st)) as [-> [-> [-> ->]]].
      repeat split; auto.
Qed.

(** X7. Whatever its outcome, [initialize] leaves the location alone
    and sends nothing, or exactly the GET of the location.  When it
    raises, the GET was sent, and the two service URLs and the base URL
    are what they were before the call. *)
Theorem initialize_outcome (st st1 : State) (r : result unit) :
  initialize st = (r, st1) ->
  location (self st1) = location (self st)
  /\ (sent st1 = sent st \/ sent st1 = fetched st)
  /\ (forall e, r = Raise e ->
        sent st1 = fetched st
        /\ _content_directory_url (self st1) = _content_directory_url (self st)
        /\ _av_transport_url (self st1) = _av_transport_url (self st)
        /\ _base_url (self st1) = _base_url (self st)).
Proof.
  intros H.
  destruct (initialize_cases st st1 r H) as [Hloc [Hsent Hraise]].
  split; [exact Hloc|]. split; [exact Hsent|exact Hraise].
Qed.

Lemma url_ok_truthy (u : string) : truthy u = true -> url_ok (Some u).
Proof. unfold url_ok. intros H [= ->]. discriminate. Qed.

Lemma service_step_ok (c : DlnaClient) (elem : Element) :
  endpoints_ok c -> endpoints_ok (service_step c elem).
Proof.
  intros [H1 H2].
  destruct (service_step_cases c elem) as [->|[[u [Hu ->]]|[u [Hu ->]]]];
    split; simpl; auto using url_ok_truthy.
Qed.

Lemma services_ok (l : list Element) :
  forall c, endpoints_ok c -> endpoints_ok (fold_left service_step l c).
Proof.
  induction l as [|e l IH]; intros c H; simpl; [exact H|].
  apply IH. now apply service_step_ok.
Qed.

Lemma initialize_self (st : State) :
  self (snd (initialize st)) = self st
  \/ (exists root, self (snd (initialize st)) = named root (self st))
  \/ (exists root params,
        self (snd (initialize st)) = resolved root params (self st)).
Proof.
  destruct (truthy_opt (_content_directory_url (self st))) eqn:Hcd.
  - rewrite (initialize_known st Hcd). now left.
  - rewrite (initialize_unknown st Hcd).
    destruct (network _ _) as [status xml|]; [|now left].
    destruct (negb (status =? 200)%Z); [now left|].
    destruct (fromstring xml) as [root|]; [|now left].
    destruct (urlparse _) as [params|e0]; right; [right|left].
    + exists root, params. reflexivity.
    + exists root. reflexivity.
Qed.

Lemma initialize_ok (st : State) :
  endpoints_ok (self st) -> endpoints_ok (self (snd (initialize st))).
Proof.
  intros H.
  destruct (initialize_self st) as [->|[[root ->]|[root [params ->]]]].
  - exact H.
  - unfold endpoints_ok.
    destruct (named_fields root (self st)) as [_ [-> [-> _]]]. exact H.
  - unfold resolved. apply services_ok. unfold endpoints_ok.
    destruct (based_fields root params (named root (self st)))
      as [_ [-> [-> _]]].
    destruct (named_fields root (self st)) as [_ [-> [-> _]]]. exact H.
Qed.

(** The object after a method that resolves lazily and then posts: the
    object the resolution left, or the one before the call. *)
Lemma lazy_self {A} (b : bool) (k : M A) (st : State) :
  (forall st', self (snd (k st')) = self st') ->
  self (snd ((when b initialize ;; k) st)) = self st
  \/ self (snd ((when b initialize ;; k) st)) = self (snd (initialize st)).
Proof.
  intros Hk. unfold bind, when.
  destruct b.
  - destruct (initialize st) as [[[]|e] st1] eqn:E; cbn [snd].
    + right. apply Hk.
    + now right.
  - unfold ret. left. apply Hk.
Qed.

Lemma post_self {A} (req : DlnaClient -> request)
    (k : DlnaClient -> Z * string -> M A) (e : exn)
    (test : DlnaClient -> bool) (st : State) :
  (forall c resp st', self (snd (k c resp st')) = self st') ->
  self (snd ((c <- get_self ;;
              if test c then raise e
              else resp <- http (req c) ;; k c resp) st)) = self st.
Proof.
  intros Hk. unfold bind, get_self, raise, http.
  destruct (test (self st)); [reflexivity|].
  destruct (network _ _) as [status body|]; cbn [snd self]; [|reflexivity].
  rewrite Hk. reflexivity.
Qed.

Lemma status_self {A} (status : Z) (e : exn) (r : result A) (st : State) :
  self (snd ((if negb (status =? 200)%Z then raise e else lift r) st))
  = self st.
Proof. destruct (negb _); reflexivity. Qed.

(** X8. The two service URLs of a client are never the empty text: a
    new client has none, and [initialize], [browse], [search] and
    [set_av_transport_uri] keep this, whatever the network answers. *)
Theorem endpoints_never_empty (st : State) :
  endpoints_ok (self st) ->
  endpoints_ok (self (snd (initialize st)))
  /\ (forall object_id start_index count,
        endpoints_ok (self (snd (browse object_id start_index count st))))
  /\ (forall criteria start_index count,
        endpoints_ok (self (snd (search criteria start_index count st))))
  /\ (forall uri metadata,
        endpoints_ok (self (snd (set_av_transport_uri uri metadata st)))).
Proof.
  intros H. pose proof (initialize_ok st H) as Hi.
  split; [exact Hi|].
  split; [|split].
  - intros object_id start_index count. unfold browse.
    unfold bind at 1. unfold get_self at 1. cbv beta iota.
    match goal with
    | |- endpoints_ok (self (snd ((when ?b initialize ;; ?k) st))) =>
        destruct (lazy_self b k st) as [-> | ->]; auto
    end.
    intros st'. apply post_self.
    intros c [status text] st''. apply status_self.
  - intros criteria start_index count. unfold search.
    unfold bind at 1. unfold get_self at 1. cbv beta iota.
    match goal with
    | |- endpoints_ok (self (snd ((when ?b initialize ;; ?k) st))) =>
        destruct (lazy_self b k st) as [-> | ->]; auto
    end.
    intros st'. apply post_self.
    intros c [status text] st''. apply status_self.
  - intros uri metadata. unfold set_av_transport_uri.
    unfold bind at 1. unfold get_self at 1. cbv beta iota.
    match goal with
    | |- endpoints_ok (self (snd ((when ?b initialize ;; ?k) st))) =>
        destruct (lazy_self b k st) as [-> | ->]; auto
    end.
    intros st'. apply post_self.
    intros c [status text] st''. destruct (negb _); reflexivity.
Qed.

(** ** Services of the document and URLs of the client *)

(** What one element of the document does to the client. *)
Lemma service_step_inv (c : DlnaClient) (elem : Element) :
  service_step c elem = c
  \/ (exists st_text ctrl,
        declares elem st_text ctrl
        /\ contains "ContentDirectory" st_text = true
        /\ service_step c elem
           = set_content_directory_url c
               (Some (normalize_control_url (_base_url c) ctrl)))
  \/ (exists st_text ctrl,
        declares elem st_text ctrl
        /\ contains "ContentDirectory" st_text = false
        /\ contains "AVTransport" st_text = true
        /\ service_step c elem
           = set_av_transport_url c
               (Some (normalize_control_url (_base_url c) ctrl))).
Proof.
  unfold service_step, declares.
  destruct (endswith (ET.tag elem) "service"); [|now left].
  destruct (fold_left _ _ _) as [[st_text|] [ctrl|]]; simpl;
    try (now left); try (destruct (truthy st_text); now left).
  destruct (truthy st_text); simpl; [|now left].
  destruct (truthy ctrl); simpl; [|now left].
  destruct (contains "ContentDirectory" st_text) eqn:E1.
  - right. left. exists st_text, ctrl. auto.
  - destruct (contains "AVTransport" st_text) eqn:E2; [|now left].
    right. right. exists st_text, ctrl. auto.
Qed.

Lemma service_step_declared (c : DlnaClient) (elem : Element)
    (st_text ctrl : string) :
  declares elem st_text ctrl ->
  (contains "ContentDirectory" st_text = true ->
   truthy_opt (_content_directory_url (service_step c elem)) = true)
  /\ (contains "ContentDirectory" st_text = false ->
      contains "AVTransport" st_text = true ->
      truthy_opt (_av_transport_url (service_step c elem)) = true).
Proof.
  intros [Htag Htexts].
  destruct (service_texts_truthy elem st_text ctrl Htexts) as [Hst Hctrl].
  assert (Hu : truthy (normalize_control_url (_base_url c) ctrl) = true).
  { apply normalize_truthy. destruct ctrl; [congruence|reflexivity]. }
  unfold service_step. rewrite Htag, Htexts.
  destruct st_text; [congruence|]. destruct ctrl; [congruence|].
  cbn [truthy_opt truthy andb text_of].
  split.
  - intros ->. exact Hu.
  - intros -> ->. exact Hu.
Qed.

Lemma services_keep_content_directory (l : list Element) :
  forall c, truthy_opt (_content_directory_url c) = true ->
            truthy_opt (_content_directory_url (fold_left service_step l c)) = true.
Proof.
  induction l as [|e l IH]; intros c H; simpl; [exact H|].
  apply IH.
  destruct (service_step_cases c e) as [->|[[u [Hu ->]]|[u [_ ->]]]];
    simpl; auto.
Qed.

Lemma initialize_fetch_inv (st st1 : State) (xml : string) (root : Element) :
  truthy_opt (_content_directory_url (self st)) = false ->
  network (sent st) (GET (location (self st))) = Response 200 xml ->
  fromstring xml = Some root ->
  initialize st = (Ok tt, st1) ->
  exists params,
    urlparse (location (self st)) = Ok params
    /\ st1 = mkState (resolved root params (self st)) (fetched st).
Proof.
  intros H0 Hnet Hparse Hinit.
  destruct (initialize_ok_inv st st1 H0 Hinit)
    as [xml' [root' [params [Hnet' [Hparse' [Hurl ->]]]]]].
  rewrite Hnet in Hnet'. injection Hnet' as <-.
  rewrite Hparse in Hparse'. injection Hparse' as <-.
  now exists params.
Qed.

(** X9. However deep in the document a service element stands: when
    the description was fetched and [initialize] succeeded, a service
    element with a type that contains [ContentDirectory] and with a
    control URL makes the ContentDirectory URL known; one whose type
    contains [AVTransport], and not [ContentDirectory], makes the
    AVTransport URL known. *)
Theorem declared_service_is_found
    (st st1 : State) (xml : string) (root elem : Element)
    (st_text ctrl : string) :
  truthy_opt (_content_directory_url (self st)) = false ->
  network (sent st) (GET (location (self st))) = Response 200 xml ->
  fromstring xml = Some root ->
  initialize st = (Ok tt, st1) ->
  In elem (iter root) ->
  declares elem st_text ctrl ->
  (contains "ContentDirectory" st_text = true ->
   truthy_opt (_content_directory_url (self st1)) = true)
  /\ (contains "ContentDirectory" st_text = false ->
      contains "AVTransport" st_text = true ->
      truthy_opt (_av_transport_url (self st1)) = true).
Proof.
  intros H0 Hnet Hparse Hinit Hin Hdecl.
  destruct (initialize_fetch_inv st st1 xml root H0 Hnet Hparse Hinit)
    as [params [_ ->]].
  cbn [self]. unfold resolved.
  apply in_split in Hin. destruct Hin as [l1 [l2 ->]].
  rewrite fold_left_app. cbn [fold_left].
  set (c1 := fold_left service_step l1 _).
  destruct (service_step_declared c1 elem st_text ctrl Hdecl) as [Hcd Hav].
  split.
  - intros H. apply services_keep_content_directory. now apply Hcd.
  - intros H1 H2. apply services_keep_av_transport. now apply Hav.
Qed.

Lemma services_origin (l : list Element) (c0 : DlnaClient) :
  (_content_directory_url (fold_left service_step l c0)
     = _content_directory_url c0
   \/ exists elem st_text ctrl,
        In elem l /\ declares elem st_text ctrl
        /\ contains "ContentDirectory" st_text = true
        /\ _content_directory_url (fold_left service_step l c0)
           = Some (normalize_control_url (_base_url c0) ctrl))
  /\ (_av_transport_url (fold_left service_step l c0)
        = _av_transport_url c0
      \/ exists elem st_text ctrl,
           In elem l /\ declares elem st_text ctrl
           /\ contains "AVTransport" st_text = true
           /\ _av_transport_url (fold_left service_step l c0)
              = Some (normalize_control_url (_base_url c0) ctrl)).
Proof.
  induction l as [|e l [IH1 IH2]] using rev_ind; [split; now left|].
  rewrite fold_left_app. cbn [fold_left].
  destruct (services_base_url l c0) as [Hb _].
  assert (W1 : forall P : Element -> Prop,
             (exists x, In x l /\ P x) -> exists x, In x (l ++ [e]) /\ P x).
  { intros P [x [Hx HP]]. exists x. split; [|exact HP].
    apply in_or_app. now left. }
  assert (He : In e (l ++ [e])) by (apply in_or_app; right; simpl; auto).
  destruct (service_step_inv (fold_left service_step l c0) e)
    as [->|[[s [u [Hd [Hc ->]]]]|[s [u [Hd [Hc [Ha ->]]]]]]].
  - split.
    + destruct IH1 as [IH1|[x [s [u [Hx H]]]]]; [now left|].
      right. exists x, s, u. split; [|exact H]. apply in_or_app. now left.
    + destruct IH2 as [IH2|[x [s [u [Hx H]]]]]; [now left|].
      right. exists x, s, u. split; [|exact H]. apply in_or_app. now left.
  - split.
    + right. exists e, s, u. cbn [_content_directory_url set_content_directory_url].
      rewrite Hb. auto.
    + cbn [_av_transport_url set_content_directory_url].
      destruct IH2 as [IH2|[x [s' [u' [Hx H]]]]]; [now left|].
      right. exists x, s', u'. split; [|exact H]. apply in_or_app. now left.
  - split.
    + cbn [_content_directory_url set_av_transport_url].
      destruct IH1 as [IH1|[x [s' [u' [Hx H]]]]]; [now left|].
      right. exists x, s', u'. split; [|exact H]. apply in_or_app. now left.
    + right. exists e, s, u. cbn [_av_transport_url set_av_transport_url].
      rewrite Hb. auto.
Qed.

(** X10. After a fetch of the description that succeeded, each of the
    two service URLs is the one the client had before, or it comes from
    the document: some service element there has a type that contains
    the name of the service, and the URL is its control URL, made
    absolute with the base URL that the resolution has stored. *)
Theorem endpoint_comes_from_document
    (st st1 : State) (xml : string) (root : Element) :
  truthy_opt (_content_directory_url (self st)) = false ->
  network (sent st) (GET (location (self st))) = Response 200 xml ->
  fromstring xml = Some root ->
  initialize st = (Ok tt, st1) ->
  (_content_directory_url (self st1) = _content_directory_url (self st)
   \/ exists elem st_text ctrl,
        In elem (iter root) /\ declares elem st_text ctrl
        /\ contains "ContentDirectory" st_text = true
        /\ _content_directory_url (self st1)
           = Some (normalize_control_url (_base_url (self st1)) ctrl))
  /\ (_av_transport_url (self st1) = _av_transport_url (self st)
      \/ exists elem st_text ctrl,
           In elem (iter root) /\ declares elem st_text ctrl
           /\ contains "AVTransport" st_text = true
           /\ _av_transport_url (self st1)
              = Some (normalize_control_url (_base_url (self st1)) ctrl)).
Proof.
  intros H0 Hnet Hparse Hinit.
  destruct (initialize_fetch_inv st st1 xml root H0 Hnet Hparse Hinit)
    as [params [_ ->]].
  cbn [self]. unfold resolved.
  set (c0 := based root params (named root (self st))).
  destruct (services_base_url (iter root) c0) as [-> _].
  assert (E1 : _content_directory_url c0 = _content_directory_url (self st)).
  { unfold c0. destruct (based_fields root params (named root (self st)))
      as [_ [-> _]]. now destruct (named_fields root (self st)) as [_ [-> _]]. }
  assert (E2 : _av_transport_url c0 = _av_transport_url (self st)).
  { unfold c0. destruct (based_fields root params (named root (self st)))
      as [_ [_ [-> _]]].
    now destruct (named_fields root (self st)) as [_ [_ [-> _]]]. }
  rewrite <- E1, <- E2. apply services_origin.
Qed.

(** ** Browse and Search *)

(** X11. The ContentDirectory URL is not known and the resolution that
    [browse] or [search] triggers succeeds without finding one: the
    method raises its own error, the state is the one the resolution
    left, and the only request sent is the GET of the description. *)
Theorem browse_search_without_service
    (st st1 : State) (object_id criteria : string)
    (start_index count : Z) :
  truthy_opt (_content_directory_url (self st)) = false ->
  initialize st = (Ok tt, st1) ->
  truthy_opt (_content_directory_url (self st1)) = false ->
  browse object_id start_index count st = (Raise NO_CONTENT_DIRECTORY, st1)
  /\ search criteria start_index count st = (Raise NO_CONTENT_DIRECTORY, st1)
  /\ sent st1 = (sent st ++ [GET (location (self st))])%list.
Proof.
  intros H0 Hinit H1.
  split; [|split].
  - unfold browse, bind, get_self, when.
    rewrite H0. simpl. rewrite Hinit. now rewrite H1.
  - unfold search, bind, get_self, when.
    rewrite H0. simpl. rewrite Hinit. now rewrite H1.
  - destruct (initialize_ok_inv st st1 H0 Hinit)
      as [xml [root [params [_ [_ [_ ->]]]]]]. reflexivity.
Qed.

Lemma browse_known (st : State) (object_id : string) (start_index count : Z) :
  truthy_opt (_content_directory_url (self st)) = true ->
  browse object_id start_index count st
  = (match network (sent st) (browse_post (self st) object_id start_index count) with
     | Response status text =>
         if (status =? 200)%Z then _parse_didl_result text
         else Raise (Exception ("Browse failed: " ++ str_of_int status
                                ++ " - " ++ text))
     | NoResponse => Raise ClientError
     end,
     mkState (self st)
       (sent st ++ [browse_post (self st) object_id start_index count])).
Proof.
  intros H.
  unfold browse, bind, get_self, when, http, ret, raise, lift, browse_post.
  rewrite H. cbv beta iota zeta. cbn [negb self sent].
  rewrite H. cbv beta iota zeta. cbn [negb self sent].
  destruct (network _ _) as [status body|]; [|reflexivity].
  cbv beta iota zeta. destruct (status =? 200)%Z; reflexivity.
Qed.

Lemma search_known (st : State) (criteria : string) (start_index count : Z) :
  truthy_opt (_content_directory_url (self st)) = true ->
  search criteria start_index count st
  = (match network (sent st) (search_post (self st) criteria start_index count) with
     | Response status text =>
         if (status =? 200)%Z then _parse_didl_result text
         else Raise (Exception
                       ("Search failed (might be unsupported by server): "
                        ++ str_of_int status))
     | NoResponse => Raise ClientError
     end,
     mkState (self st)
       (sent st ++ [search_post (self st) criteria start_index count])).
Proof.
  intros H.
  unfold search, bind, get_self, when, http, ret, raise, lift, search_post.
  rewrite H. cbv beta iota zeta. cbn [negb self sent].
  rewrite H. cbv beta iota zeta. cbn [negb self sent].
  destruct (network _ _) as [status body|]; [|reflexivity].
  cbv beta iota zeta. destruct (status =? 200)%Z; reflexivity.
Qed.


(** A [browse] that returns leaves the ContentDirectory URL known. *)
Lemma browse_ok_known (st st1 : State) (object_id : string)
    (start_index count : Z) (r : list BrowsedItem * Z) :
  browse object_id start_index count st = (Ok r, st1) ->
  truthy_opt (_content_directory_url (self st1)) = true.
Proof.
  destruct (truthy_opt (_content_directory_url (self st))) eqn:H0.
  - rewrite (browse_known st _ _ _ H0). intros [= _ <-]. exact H0.
  - unfold browse. unfold bind at 1. unfold get_self at 1.
    cbv beta iota. rewrite H0. cbn [negb when].
    unfold bind at 1.
    destruct (initialize st) as [[[]|e] st'] eqn:Ei; [|discriminate].
    destruct (truthy_opt (_content_directory_url (self st'))) eqn:H1.
    + intros Hb.
      assert (Hk := browse_known st' object_id start_index count H1).
      unfold browse in Hk. unfold bind at 1 in Hk. unfold get_self at 1 in Hk.
      cbv beta iota in Hk. rewrite H1 in Hk. cbn [negb when] in Hk.
      unfold bind at 1 in Hk. unfold ret at 1 in Hk. cbv beta iota in Hk.
      rewrite Hk in Hb. injection Hb as _ <-. exact H1.
    + unfold bind, get_self. rewrite H1. discriminate.
Qed.

End ResolutionMore.

Section ResolutionMoreSamples.
Import Dlna DlnaSpec DlnaMoreSpec ET UrlParse SampleEnv SampleResults RendererEnv.

Lemma initialize_outcome_witness :
  initialize (env := sample_env "2") (fresh nowhere)
    = (Raise (Exception "Failed to fetch description: 404"),
       mkState (__init__ nowhere) [GET nowhere])
  /\ sent (mkState (__init__ nowhere) [GET nowhere]) = fetched (fresh nowhere)
  /\ _content_directory_url (self (mkState (__init__ nowhere) [GET nowhere]))
     = _content_directory_url (self (fresh nowhere)).
Proof.
  assert (E : initialize (env := sample_env "2") (fresh nowhere)
              = (Raise (Exception "Failed to fetch description: 404"),
                 mkState (__init__ nowhere) [GET nowhere]))
    by (vm_compute; reflexivity).
  destruct (initialize_outcome (env := sample_env "2") (fresh nowhere) _ _ E)
    as [_ [_ H]].
  destruct (H _ eq_refl) as [H1 [H2 _]].
  split; [exact E|]. split; [exact H1|exact H2].
Defined.

Lemma endpoints_never_empty_witness :
  endpoints_ok
    (self (snd (initialize (env := sample_env "2") (fresh server_location)))).
Proof.
  apply (endpoints_never_empty (env := sample_env "2") (fresh server_location)).
  split; discriminate.
Defined.

Lemma declared_service_is_found_witness :
  truthy_opt (_content_directory_url (self resolved_server)) = true.
Proof.
  destruct (declared_service_is_found (env := sample_env "2")
              (fresh server_location) resolved_server server_xml server_tree
              (service_tree CONTENT_DIRECTORY "/dlna/cd/control")
              CONTENT_DIRECTORY "/dlna/cd/control"
              eq_refl eq_refl eq_refl) as [H _].
  - vm_compute. reflexivity.
  - vm_compute. tauto.
  - split; reflexivity.
  - apply H. reflexivity.
Defined.

Lemma endpoint_comes_from_document_witness :
  exists elem st_text ctrl,
    In elem (iter renderer_tree) /\ declares elem st_text ctrl
    /\ _av_transport_url (self resolved_renderer)
       = Some (normalize_control_url (_base_url (self resolved_renderer)) ctrl).
Proof.
  destruct (endpoint_comes_from_document (env := renderer_env)
              (fresh renderer_location) resolved_renderer renderer_xml
              renderer_tree eq_refl eq_refl eq_refl) as [_ [H|H]].
  - vm_compute. reflexivity.
  - discriminate H.
  - destruct H as [elem [s [u [H1 [H2 [_ H3]]]]]]. exists elem, s, u. auto.
Defined.

Lemma browse_search_without_service_witness :
  browse (env := renderer_env) "0" 0 100 (fresh renderer_location)
  = (Raise NO_CONTENT_DIRECTORY, resolved_renderer).
Proof.
  apply (browse_search_without_service (env := renderer_env)
           (fresh renderer_location) resolved_renderer "0" "x" 0 100);
    vm_compute; reflexivity.
Defined.


End ResolutionMoreSamples.

(* ===================================================================== *)
(** * Further properties: envelopes and decoder                           *)
(* ===================================================================== *)

Section EnvelopesMore.
Import Dlna Xml EscapeSpec XmlMore.

Lemma has_char_concat_map (x : ascii) (f : ascii -> string) (s : string) :
  (forall c, has_char x (f c) = false) ->
  has_char x (concat_map f s) = false.
Proof.
  intros H. induction s as [|c s IH]; [reflexivity|].
  cbn [concat_map]. rewrite has_char_app, H, IH. reflexivity.
Qed.













End EnvelopesMore.

Section DecoderMore.
Import Dlna DlnaSpec DecoderMoreSpec ET.
Context {env : Env}.

Lemma child_step_res (f : Fields) (child : Element) :
  f_res (child_step f child)
  = if is_res_child child && negb (truthy_opt (f_res f))
    then text child else f_res f.
Proof.
  unfold child_step, is_res_child.
  destruct (contains "title" _); [reflexivity|].
  destruct (contains "class" _); [reflexivity|].
  destruct (contains "res" _); cbn [negb andb].
  - destruct (negb (truthy_opt (f_res f))); reflexivity.
  - case_matches; reflexivity.
Qed.

(** Once a resource is known, the children that follow keep it. *)
Lemma children_keep_res (l : list Element) :
  forall f, truthy_opt (f_res f) = true ->
            f_res (fold_left child_step l f) = f_res f.
Proof.
  induction l as [|x l IH]; intros f H; [reflexivity|].
  cbn [fold_left].
  assert (E : f_res (child_step f x) = f_res f).
  { rewrite child_step_res, H. cbn [negb]. now rewrite andb_false_r. }
  rewrite IH; [exact E|]. now rewrite E.
Qed.

(** Children without a resource text leave the resource unknown. *)
Lemma children_no_res (l : list Element) :
  forall f,
    truthy_opt (f_res f) = false ->
    (forall x, In x l -> is_res_child x = true -> has_text x = false) ->
    truthy_opt (f_res (fold_left child_step l f)) = false.
Proof.
  induction l as [|x l IH]; intros f H Hl; [exact H|].
  cbn [fold_left]. apply IH.
  - rewrite child_step_res, H. cbn [negb]. rewrite andb_true_r.
    destruct (is_res_child x) eqn:E; [|exact H].
    apply (Hl x); simpl; auto.
  - intros y Hy. apply Hl. simpl. auto.
Qed.

(** X14. The resource URL of an entry is the text of the first of its
    resource children that has a text; the resource children that come
    after it, alternate formats of the same item, are not looked at. *)
Theorem first_resource_wins
    (elem child : Element) (before after : list Element) (it : BrowsedItem) :
  parse_entry elem = Some it ->
  children elem = (before ++ child :: after)%list ->
  is_res_child child = true ->
  has_text child = true ->
  (forall x, In x before -> is_res_child x = true -> has_text x = false) ->
  res_url it = text child.
Proof.
  intros Hp Hch Hres Htext Hbefore.
  unfold parse_entry in Hp.
  destruct (_ || _); [|discriminate].
  injection Hp as <-. cbn [res_url].
  rewrite Hch, fold_left_app. cbn [fold_left].
  set (f1 := fold_left child_step before fields0).
  assert (H1 : truthy_opt (f_res f1) = false)
    by (apply children_no_res; [reflexivity|exact Hbefore]).
  assert (H2 : f_res (child_step f1 child) = text child).
  { rewrite child_step_res, Hres, H1. reflexivity. }
  rewrite children_keep_res; [exact H2|].
  rewrite H2. exact Htext.
Qed.

(** ** The result element and the count *)

Lemma result_not_count (e : Element) :
  endswith (lower (ET.tag e)) "totalmatches" = true ->
  endswith (lower (ET.tag e)) "result" = false.
Proof.
  unfold endswith.
  change (rev "totalmatches") with "sehctamlatot".
  change (rev "result") with "tluser".
  destruct (rev (lower (ET.tag e))) as [|c r]; [discriminate|].
  rewrite !prefix_cons.
  destruct (Ascii.eqb "s" c) eqn:E; [|discriminate].
  apply Ascii.eqb_eq in E. subst c. reflexivity.
Qed.

Lemma scan_step_fst (acc : option Element * Z) (e : Element) :
  fst (scan_step acc e) = if is_result e then Some e else fst acc.
Proof.
  unfold scan_step, is_result. destruct acc as [node total].
  destruct (endswith (lower (ET.tag e)) "result" && has_text e);
    [reflexivity|].
  cbn [fst]. case_matches; reflexivity.
Qed.

Lemma scan_no_result (l : list Element) :
  forall acc,
    (forall x, In x l -> is_result x = false) ->
    fst (fold_left scan_step l acc) = fst acc.
Proof.
  induction l as [|x l IH]; intros acc H; [reflexivity|].
  cbn [fold_left]. rewrite IH by (intros; apply H; simpl; auto).
  rewrite scan_step_fst, (H x); [reflexivity|simpl; auto].
Qed.

Lemma scan_some_result (l : list Element) :
  forall acc,
    (exists x, In x l /\ is_result x = true) ->
    exists node, fst (fold_left scan_step l acc) = Some node
                 /\ is_result node = true.
Proof.
  induction l as [|y l IH] using rev_ind; intros acc [x [Hx Hr]];
    [destruct Hx|].
  rewrite fold_left_app. cbn [fold_left]. rewrite scan_step_fst.
  destruct (is_result y) eqn:Ey; [now exists y|].
  apply IH. apply in_app_or in Hx. destruct Hx as [Hx|[<-|[]]].
  - now exists x.
  - congruence.
Qed.

Lemma scan_step_snd (acc : option Element * Z) (e : Element) :
  snd (scan_step acc e)
  = if is_count e
    then match text e with
         | Some t => match PyStr.int t with
                     | Some n => n
                     | None => snd acc
                     end
         | None => snd acc
         end
    else snd acc.
Proof.
  unfold scan_step, is_count. destruct acc as [node total].
  destruct (endswith (lower (ET.tag e)) "totalmatches") eqn:E.
  - rewrite (result_not_count e E). cbn [andb].
    destruct (has_text e); [|reflexivity].
    destruct (text e) as [t|]; [|reflexivity].
    destruct (PyStr.int t); reflexivity.
  - cbn [andb].
    destruct (endswith (lower (ET.tag e)) "result" && has_text e);
      reflexivity.
Qed.

Lemma scan_keep_count (l : list Element) :
  forall acc,
    (forall x t, In x l -> is_count x = true -> text x = Some t ->
                 PyStr.int t = None) ->
    snd (fold_left scan_step l acc) = snd acc.
Proof.
  induction l as [|x l IH]; intros acc H; [reflexivity|].
  cbn [fold_left]. rewrite IH by (intros y t Hy; apply H; simpl; auto).
  rewrite scan_step_snd.
  destruct (is_count x) eqn:E; [|reflexivity].
  destruct (text x) as [t|] eqn:Et; [|reflexivity].
  rewrite (H x t); simpl; auto.
Qed.

(** X15. A response that the parser accepts and in which no element
    whose tag ends in [result] has a text decodes to no entries and the
    count 0, whatever its TotalMatches element says. *)
Theorem no_result_no_entries (response_xml : string) (root : Element) :
  fromstring response_xml = Some root ->
  (forall x, In x (iter root) -> is_result x = false) ->
  _parse_didl_result response_xml = Ok ([], 0%Z).
Proof.
  intros Hroot H.
  rewrite (parse_didl_result_cases _ _ Hroot).
  unfold scan_response. now rewrite (scan_no_result _ _ H).
Qed.

(** X16. The count that the decoder returns with the entries of a
    result element is the number in the last element, in document
    order, whose tag ends in [totalmatches] and whose text [int]
    accepts. *)
Theorem total_matches_last_number
    (response_xml : string) (root e : Element)
    (before after : list Element) (t : string) (n : Z)
    (items : list BrowsedItem) (total : Z) :
  fromstring response_xml = Some root ->
  iter root = (before ++ e :: after)%list ->
  is_count e = true ->
  text e = Some t ->
  PyStr.int t = Some n ->
  (forall x u, In x after -> is_count x = true -> text x = Some u ->
               PyStr.int u = None) ->
  (exists x, In x (iter root) /\ is_result x = true) ->
  _parse_didl_result response_xml = Ok (items, total) ->
  total = n.
Proof.
  intros Hroot Hiter Hcount Ht Hint Hafter Hres Hok.
  rewrite (parse_didl_result_cases _ _ Hroot) in Hok.
  assert (Hn : snd (scan_response root) = n).
  { unfold scan_response. rewrite Hiter, fold_left_app. cbn [fold_left].
    rewrite (scan_keep_count _ _ Hafter).
    now rewrite scan_step_snd, Hcount, Ht, Hint. }
  destruct (scan_some_result (iter root) (None, 0%Z) Hres)
    as [node [Hnode Hr]].
  unfold scan_response in Hok at 1. rewrite Hnode in Hok.
  unfold is_result, has_text in Hr.
  apply andb_true_iff in Hr. destruct Hr as [_ Hr].
  destruct (text node) as [[|c r]|]; try discriminate.
  destruct (fromstring (String c r)); [|discriminate].
  injection Hok as _ <-. exact Hn.
Qed.

End DecoderMore.

Section DecoderMoreSamples.
Import Dlna DlnaSpec DecoderMoreSpec ET SampleEnv SampleResults DecoderSamples.

Lemma first_resource_wins_witness :
  parse_entry two_formats = Some two_formats_entry
  /\ res_url two_formats_entry = Some "http://192.168.0.2/9.flac".
Proof.
  assert (E : parse_entry two_formats = Some two_formats_entry)
    by (vm_compute; reflexivity).
  split; [exact E|].
  apply (first_resource_wins two_formats
           (leaf (DIDL "res") "http://192.168.0.2/9.flac")
           [leaf (DC "title") "Blue in Green"; Elem (DIDL "res") [] None []]
           [leaf (DIDL "res") "http://192.168.0.2/9.mp3"]
           two_formats_entry E eq_refl eq_refl eq_refl).
  intros x [<-|[<-|[]]]; [discriminate|reflexivity].
Defined.

Lemma no_result_no_entries_witness :
  _parse_didl_result (env := empty_env) empty_xml = Ok ([], 0%Z).
Proof.
  apply (no_result_no_entries (env := empty_env) empty_xml empty_tree).
  - vm_compute. reflexivity.
  - intros x Hx. simpl in Hx.
    repeat (destruct Hx as [<-|Hx]; [reflexivity|]). destruct Hx.
Defined.

Lemma total_matches_last_number_witness :
  match _parse_didl_result (env := sample_env "2") (response_xml "2") with
  | Ok (_, total) => total = 2%Z
  | Raise _ => False
  end.
Proof.
  destruct (_parse_didl_result (env := sample_env "2") (response_xml "2"))
    as [[items total]|e] eqn:E; [|vm_compute in E; discriminate E].
  apply (total_matches_last_number (env := sample_env "2")
           (response_xml "2") (response_tree "2")
           (leaf "TotalMatches" "2")
           (firstn 5 (iter (response_tree "2"))) [] "2" 2%Z
           items total).
  - vm_compute. reflexivity.
  - vm_compute. reflexivity.
  - reflexivity.
  - reflexivity.
  - reflexivity.
  - intros x u [].
  - exists (leaf "Result" didl_xml). split; [|reflexivity].
    vm_compute. tauto.
  - exact E.
Defined.

End DecoderMoreSamples.

(* ===================================================================== *)
(** * Further properties: the media-server tools                          *)
(* ===================================================================== *)

Section ToolsMore.
Import Dlna DlnaSpec DlnaMoreSpec Server EscapeSpec.
Context {env : Env}.

Lemma dict_mem_get {V} (d : PyDict.dict V) (k : string) :
  PyDict.mem k d = true -> exists v, PyDict.get d k = Some v.
Proof. unfold PyDict.mem. destruct (PyDict.get d k); eauto; discriminate. Qed.

Lemma ensure_client_same (location : string) (clients : PyDict.dict DlnaClient) :
  PyDict.get (ensure_client location clients) location
  = Some (client_of location clients).
Proof.
  unfold ensure_client, client_of, PyDict.mem.
  destruct (PyDict.get clients location) as [c|] eqn:E; cbn [negb].
  - exact E.
  - apply dict_get_set_same.
Qed.

Lemma ensure_client_other (location other : string)
    (clients : PyDict.dict DlnaClient) :
  location <> other ->
  PyDict.get (ensure_client location clients) other
  = PyDict.get clients other.
Proof.
  intros H. unfold ensure_client.
  destruct (negb _); [now apply dict_get_set_other|reflexivity].
Qed.

Lemma client_of_ensure (location : string) (clients : PyDict.dict DlnaClient) :
  client_of location (ensure_client location clients)
  = client_of location clients.
Proof.
  unfold client_of at 1. rewrite ensure_client_same. reflexivity.
Qed.

(** A method call through the cache: what it leaves in the cache. *)
Lemma call_spec {A} (location : string) (m : M A) (g : Global) :
  let st := m (mkState (client_of location (_dlna_clients g)) (requests g)) in
  fst (call location m g) = fst st
  /\ requests (snd (call location m g)) = sent (snd st)
  /\ PyDict.get (_dlna_clients (snd (call location m g))) location
     = Some (self (snd st))
  /\ forall other, location <> other ->
       PyDict.get (_dlna_clients (snd (call location m g))) other
       = PyDict.get (_dlna_clients g) other.
Proof.
  unfold call. rewrite client_of_ensure.
  destruct (m _) as [r st]. cbn [fst snd _dlna_clients requests].
  repeat split.
  - apply dict_get_set_same.
  - intros other H. rewrite dict_get_set_other by exact H.
    now apply ensure_client_other.
Qed.

Lemma browse_media_server_call (location object_id : string)
    (start_index : Z) (g : Global) :
  snd (browse_media_server location object_id start_index g)
  = snd (call location (browse object_id start_index 100) g)
  /\ (forall v, fst (browse_media_server location object_id start_index g)
                = Returned v ->
                exists r, fst (call location (browse object_id start_index 100) g)
                          = Ok r).
Proof.
  unfold browse_media_server.
  destruct (call _ _ g) as [[[items total]|e] g']; cbn [fst snd];
    split; auto; intros v H; [eauto|discriminate].
Qed.

Lemma search_media_server_call (location query : string) (g : Global) :
  snd (search_media_server location query g)
  = snd (call location
           (search ("dc:title contains " ++ dq
                    ++ replace query dq EmptyString ++ dq) 0 500) g).
Proof.
  unfold search_media_server.
  destruct (call _ _ g) as [[raw|e] g']; cbn [snd]; [|reflexivity].
  destruct (filter_loop _ _ _); reflexivity.
Qed.

(** X17. The tools keep one client per location: after
    [browse_media_server] or [search_media_server] the cache has a
    client for the location of the call, and the clients of all other
    locations are the ones it had. *)
Theorem tools_cache_by_location
    (location other object_id query : string) (start_index : Z) (g : Global) :
  location <> other ->
  PyDict.mem location
    (_dlna_clients (snd (browse_media_server location object_id start_index g)))
    = true
  /\ PyDict.get
       (_dlna_clients (snd (browse_media_server location object_id start_index g)))
       other
     = PyDict.get (_dlna_clients g) other
  /\ PyDict.mem location
       (_dlna_clients (snd (search_media_server location query g)))
     = true
  /\ PyDict.get (_dlna_clients (snd (search_media_server location query g)))
       other
     = PyDict.get (_dlna_clients g) other.
Proof.
  intros H.
  destruct (browse_media_server_call location object_id start_index g)
    as [-> _].
  rewrite search_media_server_call.
  destruct (call_spec location (browse object_id start_index 100) g)
    as [_ [_ [B1 B2]]].
  destruct (call_spec location
              (search ("dc:title contains " ++ dq
                       ++ replace query dq EmptyString ++ dq) 0 500) g)
    as [_ [_ [S1 S2]]].
  unfold PyDict.mem. rewrite B1, S1.
  repeat split; auto.
Qed.

(** X18. After a [browse_media_server] that returned, the client of
    that location is resolved, and every further call for the location
    costs one request, the POST of the Browse action: the description
    is not fetched again, and the cached client stays as it is. *)
Theorem browse_media_server_resolves_once
    (location object_id : string) (start_index : Z) (g g1 : Global)
    (v : json) :
  browse_media_server location object_id start_index g = (Returned v, g1) ->
  exists c,
    PyDict.get (_dlna_clients g1) location = Some c
    /\ truthy_opt (_content_directory_url c) = true
    /\ forall object_id' start_index',
         let g2 := snd (browse_media_server location object_id' start_index' g1) in
         requests g2
         = (requests g1 ++ [browse_post c object_id' start_index' 100])%list
         /\ PyDict.get (_dlna_clients g2) location = Some c.
Proof.
  intros H.
  destruct (browse_media_server_call location object_id start_index g)
    as [Hs Hr].
  rewrite H in Hs, Hr. cbn [fst snd] in Hs, Hr.
  destruct (Hr v eq_refl) as [r Hok].
  destruct (call_spec location (browse object_id start_index 100) g)
    as [C1 [_ [C3 _]]].
  rewrite Hok in C1. rewrite <- Hs in C3.
  set (st := mkState (client_of location (_dlna_clients g)) (requests g)) in *.
  destruct (browse object_id start_index 100 st) as [r' st1] eqn:Eb.
  cbn [fst snd] in C1, C3. subst r'.
  pose proof (browse_ok_known st st1 _ _ _ r Eb) as Hcd.
  exists (self st1). split; [exact C3|]. split; [exact Hcd|].
  intros object_id' start_index'.
  destruct (browse_media_server_call location object_id' start_index' g1)
    as [-> _].
  destruct (call_spec location (browse object_id' start_index' 100) g1)
    as [_ [D2 [D3 _]]].
  assert (Ec : client_of location (_dlna_clients g1) = self st1)
    by (unfold client_of; now rewrite C3).
  rewrite Ec in D2, D3.
  rewrite (browse_known (mkState (self st1) (requests g1)) object_id'
             start_index' 100 Hcd) in D2, D3.
  cbn [snd self sent] in D2, D3. split; [exact D2|exact D3].
Qed.

Lemma replace_quotes (query : string) :
  has_char DQUOTE (replace query dq EmptyString) = false.
Proof.
  unfold dq, char1. rewrite replace_one_char.
  apply has_char_concat_map. intros c. unfold replace_char.
  destruct (Ascii.eqb c DQUOTE) eqn:E; [reflexivity|].
  cbn [char1 has_char]. now rewrite E.
Qed.

(** X19. Whatever the query, [search_media_server] on a resolved
    client posts one Search for 500 entries from index 0, with the
    criteria [dc:title contains "..."]: the text between the quotation
    marks is the query without its quotation marks, so it cannot end the
    quoted text early. *)
Theorem search_media_server_criteria
    (location query : string) (g : Global) (c : DlnaClient) :
  PyDict.get (_dlna_clients g) location = Some c ->
  truthy_opt (_content_directory_url c) = true ->
  requests (snd (search_media_server location query g))
  = (requests g ++
     [search_post c
        ("dc:title contains " ++ dq ++ replace query dq EmptyString ++ dq)
        0 500])%list
  /\ has_char DQUOTE (replace query dq EmptyString) = false.
Proof.
  intros Hc Hcd. split; [|apply replace_quotes].
  rewrite search_media_server_call.
  destruct (call_spec location
              (search ("dc:title contains " ++ dq
                       ++ replace query dq EmptyString ++ dq) 0 500) g)
    as [_ [-> _]].
  assert (Ec : client_of location (_dlna_clients g) = c)
    by (unfold client_of; now rewrite Hc).
  rewrite Ec.
  rewrite (search_known (mkState c (requests g)) _ 0 500 Hcd).
  reflexivity.
Qed.

End ToolsMore.

Section ToolsMoreSamples.
Import Dlna DlnaSpec DlnaMoreSpec Server SampleEnv SampleResults ServerSamples.

Lemma tools_cache_by_location_witness :
  PyDict.get
    (_dlna_clients
       (snd (browse_media_server (env := sample_env "2") server_location "0" 0
               (mkGlobal [(based_location, based_client)] []))))
    based_location
  = Some based_client.
Proof.
  destruct (tools_cache_by_location (env := sample_env "2") server_location
              based_location "0" "jazz" 0
              (mkGlobal [(based_location, based_client)] []))
    as [_ [H _]]; [discriminate|].
  rewrite H. reflexivity.
Defined.

Lemma browse_media_server_resolves_once_witness :
  exists c,
    PyDict.get (_dlna_clients after_browse) server_location = Some c
    /\ requests (snd (browse_media_server (env := sample_env "2")
                        server_location "1" 0 after_browse))
       = (requests after_browse ++ [browse_post c "1" 0 100])%list.
Proof.
  destruct (browse_media_server_resolves_once (env := sample_env "2")
              server_location "0" 0 (mkGlobal [] []) after_browse
              (JsonBrowse sample_entries 2%Z)) as [c [H1 [_ H2]]].
  - vm_compute. reflexivity.
  - exists c. split; [exact H1|]. exact (proj1 (H2 "1" 0%Z)).
Defined.

Lemma search_media_server_criteria_witness :
  has_char DQUOTE (replace ("say " ++ dq ++ "jazz" ++ dq) dq EmptyString) = false.
Proof.
  apply (search_media_server_criteria (env := sample_env "2") server_location
           ("say " ++ dq ++ "jazz" ++ dq) after_browse (self resolved_server));
    vm_compute; reflexivity.
Defined.

End ToolsMoreSamples.

(* ===================================================================== *)
(** * Further properties: the device tools                                *)
(* ===================================================================== *)

Section DevicesMore.
Import Devices.
Context {dev : Device}.

Lemma get_discard_same {V} (d : PyDict.dict V) (k : string) :
  PyDict.get (discard d k) k = None.
Proof.
  induction d as [|[k' v] d IH]; [reflexivity|].
  cbn [discard]. destruct (String.eqb k' k) eqn:E; [exact IH|].
  cbn [PyDict.get]. now rewrite E.
Qed.

Lemma get_discard_other {V} (d : PyDict.dict V) (k other : string) :
  other <> k -> PyDict.get (discard d k) other = PyDict.get d other.
Proof.
  intros H. induction d as [|[k' v] d IH]; [reflexivity|].
  cbn [discard PyDict.get]. destruct (String.eqb k' k) eqn:E.
  - apply String.eqb_eq in E. subst k'.
    replace (String.eqb k other) with false; [exact IH|].
    symmetry. apply String.eqb_neq. congruence.
  - cbn [PyDict.get]. destruct (String.eqb k' other); [reflexivity|exact IH].
Qed.

Lemma connect_new_spec (h : string) (r : Registry) :
  match fst (connect_new h r) with
  | Done c => PyDict.get (_clients (snd (connect_new h r))) h = Some c
  | Fail _ => PyDict.mem h (_clients (snd (connect_new h r))) = false
  end
  /\ (forall other, other <> h ->
        PyDict.get (_clients (snd (connect_new h r))) other
        = PyDict.get (_clients r) other)
  /\ exists c, history (snd (connect_new h r)) = (history r ++ [Connect c])%list.
Proof.
  unfold connect_new.
  destruct (connect (history r) _) as [e|]; cbn [fst snd _clients history].
  - split; [|split].
    + unfold PyDict.mem. now rewrite get_discard_same.
    + intros other H. now apply get_discard_other.
    + eauto.
  - split; [|split].
    + apply dict_get_set_same.
    + intros other H. apply dict_get_set_other. congruence.
    + eauto.
Qed.

Lemma reconnect_spec (h : string) (c : Client) (r : Registry) :
  PyDict.get (_clients r) h = Some c ->
  match fst (reconnect h c r) with
  | Done c' => c' = c /\ PyDict.get (_clients (snd (reconnect h c r))) h = Some c
  | Fail _ => PyDict.mem h (_clients (snd (reconnect h c r))) = false
  end
  /\ (forall other, other <> h ->
        PyDict.get (_clients (snd (reconnect h c r))) other
        = PyDict.get (_clients r) other)
  /\ (history (snd (reconnect h c r)) = history r
      \/ history (snd (reconnect h c r)) = (history r ++ [Connect c])%list).
Proof.
  intros Hc. unfold reconnect, log.
  destruct (negb _); [|cbn [fst snd]; auto].
  destruct (connect (history r) c) as [e|]; cbn [fst snd _clients history].
  - split; [|split; [|now right]].
    + unfold PyDict.mem. now rewrite get_discard_same.
    + intros other H. now apply get_discard_other.
  - auto.
Qed.

Lemma get_client_spec (host h : string) (r : Registry) :
  host_or_environment host = Some h ->
  h <> EmptyString ->
  match fst (get_client host r) with
  | Done c => PyDict.get (_clients (snd (get_client host r))) h = Some c
  | Fail _ => PyDict.mem h (_clients (snd (get_client host r))) = false
  end
  /\ (forall other, other <> h ->
        PyDict.get (_clients (snd (get_client host r))) other
        = PyDict.get (_clients r) other)
  /\ exists attempts,
       history (snd (get_client host r)) = (history r ++ attempts)%list
       /\ (length attempts <= 2)%nat
       /\ forallb (fun e => negb (is_call e)) attempts = true.
Proof.
  intros Hh Hne. unfold get_client. rewrite Hh.
  destruct h as [|c0 h']; [congruence|].
  set (h := String c0 h') in *.
  destruct (PyDict.get (_clients r) h) as [client|] eqn:Eg.
  - destruct (reconnect_spec h client r Eg) as [H1 [H2 H3]].
    split; [|split; [exact H2|]].
    + destruct (fst (reconnect h client r));
        [destruct H1 as [-> H1]; exact H1|exact H1].
    + destruct H3 as [-> | ->].
      * exists []. rewrite app_nil_r. repeat split. simpl. lia.
      * exists [Connect client]. repeat split. simpl. lia.
  - destruct (connect_new_spec h r) as [N1 [N2 [c N3]]].
    destruct (connect_new h r) as [[client|f] r1] eqn:En;
      cbn [fst snd] in N1, N2, N3.
    + destruct (reconnect_spec h client r1 N1) as [H1 [H2 H3]].
      split; [|split].
      * destruct (fst (reconnect h client r1));
          [destruct H1 as [-> H1]; exact H1|exact H1].
      * intros other Ho. rewrite H2 by exact Ho. now apply N2.
      * destruct H3 as [-> | ->]; rewrite N3.
        -- exists [Connect c]. repeat split. simpl. lia.
        -- exists [Connect c; Connect client].
           rewrite <- app_assoc. repeat split. simpl. lia.
    + cbn [fst snd]. split; [exact N1|]. split; [exact N2|].
      exists [Connect c]. repeat split; [exact N3|]. simpl. lia.
Qed.

(** X20. [get_client] and the cache of clients.  For the host of the
    call (the argument, or the environment variable when the argument
    is empty): when [get_client] yields a client, the cache holds this
    client for the host; when it fails, the cache holds none for the
    host, so a client that could not be connected is never kept.  The
    clients of the other hosts are not touched, at most two connections
    are attempted, and no playback method is called. *)
Theorem get_client_cache (host h : string) (r : Registry) :
  host_or_environment host = Some h ->
  h <> EmptyString ->
  match fst (get_client host r) with
  | Done c => PyDict.get (_clients (snd (get_client host r))) h = Some c
  | Fail _ => PyDict.mem h (_clients (snd (get_client host r))) = false
  end
  /\ (forall other, other <> h ->
        PyDict.get (_clients (snd (get_client host r))) other
        = PyDict.get (_clients r) other)
  /\ exists attempts,
       history (snd (get_client host r)) = (history r ++ attempts)%list
       /\ (length attempts <= 2)%nat
       /\ forallb (fun e => negb (is_call e)) attempts = true.
Proof.
  intros Hh Hne.
  destruct (get_client_spec host h r Hh Hne) as [Hcache [Hothers Hhistory]].
  split; [exact Hcache|]. split; [exact Hothers|exact Hhistory].
Qed.

Lemma get_client_no_host (host : string) (r : Registry) :
  host_or_environment host = None
  \/ host_or_environment host = Some EmptyString ->
  get_client host r = (Fail HostMissing, r).
Proof. unfold get_client. now intros [-> | ->]. Qed.

Lemma lower_char_idempotent (c : ascii) :
  lower_char (lower_char c) = lower_char c.
Proof. destruct c as [[] [] [] [] [] [] [] []]; reflexivity. Qed.

Lemma lower_idempotent (s : string) : lower (lower s) = lower s.
Proof.
  unfold lower. induction s as [|c s IH]; [reflexivity|].
  cbn [map_chars]. now rewrite lower_char_idempotent, IH.
Qed.

(** X21. [control_playback] reads its action without case: an action
    and its lower-case form do the same to the device, to the cache and
    to the answer. *)
Theorem control_playback_ignores_case (action host : string) (r : Registry) :
  control_playback action host r = control_playback (lower action) host r.
Proof.
  unfold control_playback. now rewrite lower_idempotent.
Qed.

Lemma calls_app (l1 l2 : list event) :
  forallb (fun e => negb (is_call e)) l2 = true ->
  filter is_call (l1 ++ l2) = filter is_call l1.
Proof.
  intros H. rewrite filter_app.
  replace (filter is_call l2) with (@nil event); [apply app_nil_r|].
  induction l2 as [|e l2 IH]; [reflexivity|].
  cbn [forallb] in H. apply andb_true_iff in H. destruct H as [He Hl].
  cbn [filter]. apply negb_true_iff in He. rewrite He. now apply IH.
Qed.

(** X22. An action that is none of the six known ones never reaches
    the device: [control_playback] fails, and the playback calls in the
    history are the ones that were there before.  When the client could
    be obtained, the failure names the action in lower case. *)
Theorem control_playback_unknown_action
    (action host : string) (r : Registry) :
  playback_method (lower action) = None ->
  (exists f, fst (control_playback action host r) = Fail f
             /\ (forall c, fst (get_client host r) = Done c ->
                           f = UnknownAction (lower action)))
  /\ filter is_call (history (snd (control_playback action host r)))
     = filter is_call (history r).
Proof.
  intros H. unfold control_playback.
  assert (Hcalls : filter is_call (history (snd (get_client host r)))
                   = filter is_call (history r)).
  { destruct (host_or_environment host) as [[|c0 h]|] eqn:Eh;
      try (rewrite get_client_no_host by auto; reflexivity).
    destruct (get_client_spec host (String c0 h) r Eh) as [_ [_ [a [-> [_ Ha]]]]];
      [discriminate|].
    now apply calls_app. }
  destruct (get_client host r) as [[client|f] r1]; cbn [fst snd] in *.
  - rewrite H. cbn [fst snd]. split; [|exact Hcalls].
    eexists. split; [reflexivity|]. reflexivity.
  - split; [|exact Hcalls]. exists f. split; [reflexivity|].
    intros c Hc. discriminate Hc.
Qed.

End DevicesMore.

Section DevicesMoreSamples.
Import Devices.

Lemma get_client_cache_witness :
  PyDict.mem "192.168.1.100"
    (_clients (snd (get_client (dev := unreachable) EmptyString empty_registry)))
  = false.
Proof.
  destruct (get_client_cache (dev := unreachable) EmptyString "192.168.1.100"
              empty_registry eq_refl) as [H _]; [discriminate|].
  exact H.
Defined.

Lemma control_playback_unknown_action_witness :
  filter is_call
    (history (snd (control_playback (dev := reachable) "Rewind" "192.168.1.100"
                     empty_registry)))
  = [].
Proof.
  destruct (control_playback_unknown_action (dev := reachable) "Rewind"
              "192.168.1.100" empty_registry eq_refl) as [_ H].
  exact H.
Defined.

End DevicesMoreSamples.

(* ===================================================================== *)
(** * Further properties: starting a stream, and the search request       *)
(* ===================================================================== *)

Section PlaybackMore.
Import Dlna DlnaSpec DlnaMoreSpec Server Playback.
Context {env : Env}.
Variable bad_url : option string -> exn.
Local Open Scope dlna_scope.

Lemma set_uri_known (st : State) (uri metadata : string) :
  truthy_opt (_av_transport_url (self st)) = true ->
  set_av_transport_uri uri metadata st
  = (match network (sent st) (set_uri_post (self st) uri metadata) with
     | Response status text =>
         if (status =? 200)%Z then Ok tt
         else Raise (Exception ("SetAVTransportURI failed: "
                                ++ str_of_int status ++ " - " ++ text))
     | NoResponse => Raise ClientError
     end,
     mkState (self st) (sent st ++ [set_uri_post (self st) uri metadata])).
Proof.
  intros H.
  unfold set_av_transport_uri, bind, get_self, when, http, ret, raise,
    set_uri_post.
  rewrite H. cbv beta iota zeta. cbn [negb self sent].
  rewrite H. cbv beta iota zeta. cbn [negb self sent].
  destruct (network _ _) as [status body|]; [|reflexivity].
  cbv beta iota zeta. destruct (status =? 200)%Z; reflexivity.
Qed.

Lemma play_known (st : State) :
  truthy_opt (_av_transport_url (self st)) = true ->
  play bad_url st
  = (match network (sent st) (play_post (self st)) with
     | Response status text =>
         if (status =? 200)%Z then Ok tt
         else Raise (Exception ("Play failed: " ++ str_of_int status
                                ++ " - " ++ text))
     | NoResponse => Raise ClientError
     end,
     mkState (self st) (sent st ++ [play_post (self st)])).
Proof.
  intros H.
  unfold play, bind, get_self, when, http, ret, raise, play_post.
  rewrite H. cbv beta iota zeta. cbn [negb self sent].
  rewrite H. cbv beta iota zeta. cbn [negb self sent].
  destruct (network _ _) as [status body|]; [|reflexivity].
  cbv beta iota zeta. destruct (status =? 200)%Z; reflexivity.
Qed.

(** A [set_av_transport_uri] that returns has posted to the AVTransport
    URL, after the GET of the description when it had to resolve. *)
Lemma set_uri_ok (st st1 : State) (uri metadata : string) :
  set_av_transport_uri uri metadata st = (Ok tt, st1) ->
  truthy_opt (_av_transport_url (self st1)) = true
  /\ exists pre,
       (pre = [] \/ pre = [GET (location (self st))])
       /\ sent st1
          = (sent st ++ pre ++ [set_uri_post (self st1) uri metadata])%list.
Proof.
  destruct (truthy_opt (_av_transport_url (self st))) eqn:H0.
  - rewrite (set_uri_known st _ _ H0). intros [= _ <-].
    split; [exact H0|]. exists []. split; [now left|reflexivity].
  - unfold set_av_transport_uri. unfold bind at 1. unfold get_self at 1.
    cbv beta iota. rewrite H0. cbn [negb when].
    unfold bind at 1.
    destruct (initialize st) as [[[]|e] st'] eqn:Ei; [|discriminate].
    destruct (initialize_cases st st' _ Ei) as [_ [Hs _]].
    destruct (truthy_opt (_av_transport_url (self st'))) eqn:H1.
    + intros Hb.
      assert (Hk := set_uri_known st' uri metadata H1).
      unfold set_av_transport_uri in Hk. unfold bind at 1 in Hk.
      unfold get_self at 1 in Hk.
      cbv beta iota in Hk. rewrite H1 in Hk. cbn [negb when] in Hk.
      unfold bind at 1 in Hk. unfold ret at 1 in Hk. cbv beta iota in Hk.
      rewrite Hk in Hb. injection Hb as _ <-.
      split; [exact H1|]. cbn [self sent].
      destruct Hs as [-> | ->].
      * exists []. split; [now left|reflexivity].
      * exists [GET (location (self st))]. split; [now right|].
        unfold fetched. now rewrite <- app_assoc.
    + unfold bind, get_self. rewrite H1. discriminate.
Qed.

Lemma find_location_none (target : string) (devices : list Discovery.Device) :
  (forall d, In d devices -> Discovery.host d <> target) ->
  find_location target devices = None.
Proof.
  intros H. unfold find_location.
  rewrite find_none_iff; [reflexivity|].
  intros d Hd. apply String.eqb_neq. now apply H.
Qed.

(** X23. When none of the devices that the discovery returns has the
    wanted host, [play_stream_url] fails with its own error: no request
    is sent to any device and no client is made. *)
Theorem play_stream_url_unknown_host
    (url metadata host target : string) (environ_host : option string)
    (replies : list (string * (string * Z))) (g : Global) :
  (if truthy host then Some host else environ_host) = Some target ->
  target <> EmptyString ->
  (forall d, In d (Discovery.discover replies) -> Discovery.host d <> target) ->
  play_stream_url bad_url url metadata host environ_host replies g
  = (ServiceNotFound target, g).
Proof.
  intros Ht Hne Hd. unfold play_stream_url. rewrite Ht.
  destruct target as [|c h]; [congruence|].
  now rewrite (find_location_none _ _ Hd).
Qed.

(** X24. When [play_stream_url] reports that the stream plays, it has
    talked to the client of the location of the first discovered device
    with the wanted host, and to nothing else: the requests of the call
    are the GET of the description, if the client was not resolved, and
    then SetAVTransportURI and Play, in this order, posted to the
    AVTransport URL that the client holds. *)
Theorem play_stream_url_requests
    (url metadata host : string) (environ_host : option string)
    (replies : list (string * (string * Z))) (g g1 : Global) (played : string) :
  play_stream_url bad_url url metadata host environ_host replies g
    = (Playing played, g1) ->
  played = url
  /\ exists target device_loc c u pre,
       (if truthy host then Some host else environ_host) = Some target
       /\ find_location target (Discovery.discover replies) = Some device_loc
       /\ PyDict.get (_dlna_clients g1) device_loc = Some c
       /\ _av_transport_url c = Some u
       /\ u <> EmptyString
       /\ (pre = [] \/ pre = [GET (location c)])
       /\ requests g1
          = (requests g ++ pre ++ transport_posts u url metadata)%list.
Proof.
  unfold play_stream_url.
  destruct (if truthy host then Some host else environ_host)
    as [[|c0 h]|] eqn:Et; try discriminate.
  destruct (find_location (String c0 h) (Discovery.discover replies))
    as [[|c1 l]|] eqn:Ef; try discriminate.
  set (loc := String c1 l) in *.
  set (m := (set_av_transport_uri url metadata ;; play bad_url)).
  destruct (call_spec loc m g) as [C1 [C2 [C3 _]]].
  destruct (call loc m g) as [[[]|e] g'] eqn:Ec; [|discriminate].
  intros [= <- <-]. split; [reflexivity|].
  cbn [fst snd] in C1, C2, C3.
  set (st := mkState (client_of loc (_dlna_clients g)) (requests g)) in *.
  unfold m, bind in C1, C2, C3.
  destruct (set_av_transport_uri url metadata st) as [[[]|e1] st1] eqn:E1;
    [|discriminate C1].
  destruct (set_uri_ok st st1 url metadata E1) as [Hav [pre [Hpre Hsent]]].
  rewrite (play_known st1 Hav) in C1, C2, C3. cbn [fst snd self sent] in *.
  destruct (_av_transport_url (self st1)) as [u|] eqn:Eu; [|discriminate Hav].
  assert (Hloc : location (self st1) = location (self st)).
  { revert E1. unfold set_av_transport_uri.
    intros E1.
    assert (Hs := f_equal (fun p => self (snd p)) E1). cbn [snd] in Hs.
    rewrite <- Hs. clear Hs.
    unfold bind at 1. unfold get_self at 1. cbv beta iota.
    match goal with
    | |- location (self (snd ((when ?b initialize ;; ?k) st))) = _ =>
        assert (Hk : forall st', self (snd (k st')) = self st');
        [|destruct (lazy_self b k st Hk) as [-> | ->]]
    end.
    - intros st'. apply post_self.
      intros c [status text] st''. destruct (negb _); reflexivity.
    - reflexivity.
    - destruct (initialize st) as [r0 st0] eqn:Ei. cbn [snd].
      now destruct (initialize_cases st st0 r0 Ei) as [-> _]. }
  exists (String c0 h), loc, (self st1), u, pre.
  split; [reflexivity|]. split; [exact Ef|]. split; [exact C3|].
  split; [exact Eu|].
  split; [intros ->; discriminate Hav|].
  split.
  - rewrite Hloc. exact Hpre.
  - rewrite C2, Hsent. unfold transport_posts, set_uri_post, play_post.
    rewrite Eu. cbn [text_of]. rewrite <- !app_assoc. reflexivity.
Qed.

End PlaybackMore.

Section PlaybackMoreSamples.
Import Dlna Server Playback PlaybackSamples RendererEnv.

Lemma play_stream_url_unknown_host_witness :
  play_stream_url (env := playing_env) invalid_url stream EmptyString
    "192.168.0.7" None [renderer_reply] no_clients
  = (ServiceNotFound "192.168.0.7", no_clients).
Proof.
  apply (play_stream_url_unknown_host (env := playing_env) invalid_url
           stream EmptyString "192.168.0.7" "192.168.0.7" None
           [renderer_reply] no_clients eq_refl).
  - discriminate.
  - intros d Hd. vm_compute in Hd. destruct Hd as [<- | []].
    vm_compute. discriminate.
Defined.

Lemma play_stream_url_requests_witness :
  stream = stream
  /\ exists target device_loc c u pre,
       (if truthy "192.168.0.5" then Some "192.168.0.5" else None)
       = Some target
       /\ find_location target (Discovery.discover [renderer_reply])
          = Some device_loc
       /\ PyDict.get
            (_dlna_clients
               (snd (play_stream_url (env := playing_env) invalid_url stream
                       EmptyString "192.168.0.5" None [renderer_reply]
                       no_clients)))
            device_loc = Some c
       /\ _av_transport_url c = Some u
       /\ u <> EmptyString
       /\ (pre = [] \/ pre = [GET (location c)])
       /\ requests
            (snd (play_stream_url (env := playing_env) invalid_url stream
                    EmptyString "192.168.0.5" None [renderer_reply]
                    no_clients))
          = (requests no_clients ++ pre
             ++ transport_posts u stream EmptyString)%list.
Proof.
  apply (play_stream_url_requests (env := playing_env) invalid_url stream
           EmptyString "192.168.0.5" None [renderer_reply] no_clients).
  vm_compute. reflexivity.
Defined.

End PlaybackMoreSamples.
